(** * Subscription reconciliation: the payment controller

    A shallow embedding of [controllers/payment.controller.js] together with
    the billing fields of [models/user.model.js].  The three request handlers
    [createCheckoutSession], [handleStripeWebhook] and [upgradeToYearly] are
    written in a small state-and-exception monad over a [World] that holds the
    two collections of the document store, a chronological trace of the
    requests sent to the billing provider and of the document writes, and the
    console.  The provider itself is outside the program: its answers are a
    parameter ([Stripe.sdk]) of the handlers. *)

From Stdlib Require Import String List ZArith Bool Lia.
Import ListNotations.
Local Open Scope string_scope.
Local Open Scope Z_scope.

(** ** JavaScript values *)

(** An identifier of the document store, in canonical form: the cast that
    Mongoose applies to identifiers is not part of the model. *)
Abbreviation ObjectId := string (only parsing).

(** [nonempty v] is [Some s] exactly when the optional string [v] is truthy in
    JavaScript: [null], [undefined] and the empty string are falsy. *)
Definition nonempty (v : option string) : option string :=
  match v with
  | Some s => if String.eqb s "" then None else Some s
  | None => None
  end.

Definition truthy (v : option string) : bool :=
  match nonempty v with Some _ => true | None => false end.

(** Truthiness of an optional number: [undefined], [null] and [0] are falsy. *)
Definition truthy_num (v : option Z) : bool :=
  match v with
  | Some n => negb (Z.eqb n 0)
  | None => false
  end.

(** Strict equality [===] of a string with a value that is a string or
    [undefined]. *)
Definition strict_eq (a : string) (b : option string) : bool :=
  match b with
  | Some s => String.eqb a s
  | None => false
  end.

(** Strict inequality [!==] of an optional string field with a string. *)
Definition strict_neq (a : option string) (b : string) : bool :=
  match a with
  | Some s => negb (String.eqb s b)
  | None => true
  end.

(** [a || b] on strings. *)
Definition or_else (a b : string) : string :=
  if String.eqb a "" then b else a.

(** A [Date]: milliseconds since the epoch, or the invalid date that
    [new Date(NaN)] builds. *)
Inductive JSDate : Type :=
| DateMs (ms : Z)
| InvalidDate.

(** [new Date(seconds * 1000)], where [seconds] may be [undefined]. *)
Definition Date_of_seconds (seconds : option Z) : JSDate :=
  match seconds with
  | Some n => DateMs (n * 1000)
  | None => InvalidDate
  end.

(** ** Constants *)

(** Modelled from the spec: [constants/index.js] is not among the sources.
    The status names used by the controller carry their standard HTTP
    numbers. *)
Module HttpStatusCode.
Definition OK : Z := 200.
Definition BAD_REQUEST : Z := 400.
Definition NOT_FOUND : Z := 404.
Definition INTERNAL_SERVER_ERROR : Z := 500.
End HttpStatusCode.

Definition is_success (status : Z) : bool := (200 <=? status) && (status <? 300).
Definition is_client_error (status : Z) : bool := (400 <=? status) && (status <? 500).

(** Modelled from the spec: [constants/index.js] is not among the sources.
    The plan kinds are the three words listed for [currentPlanType] in the
    user schema. *)
Module PlanTypes.
Definition MONTHLY : string := "Monthly".
Definition YEARLY : string := "Yearly".
Definition FREE_TRIAL : string := "FreeTrial".
End PlanTypes.

(** ** Errors *)

(** Modelled from the spec: [utils/ApiError.js] is not among the sources.  An
    [ApiError] carries the status code and the message it was built with.
    [StripeError] is an error raised by the provider's SDK, [TypeError] the
    one raised by a property read on [null]. *)
Inductive JSError : Type :=
| ApiError (statusCode : Z) (message : string)
| StripeError (message : string)
| TypeError (message : string).

Definition message (e : JSError) : string :=
  match e with
  | ApiError _ m => m
  | StripeError m => m
  | TypeError m => m
  end.

(** ** The plan catalog *)

Module Plan.

Record doc : Type := {
  _id : ObjectId;
  name : string;
  type : string;
  stripePriceId : option string;
  isActive : bool
}.

(** [Plan.findById(id)]; an [undefined] identifier finds nothing. *)
Definition findById (coll : list doc) (id : option ObjectId) : option doc :=
  match id with
  | Some i => find (fun p => String.eqb (_id p) i) coll
  | None => None
  end.

(** [Plan.findOne(filter)]: the first document, in the order of the
    collection, that satisfies the filter. *)
Definition findOne (coll : list doc) (filter : doc -> bool) : option doc :=
  find filter coll.

End Plan.

(** ** The user billing record *)

(** The value of [user.currentPlanId]: an identifier, or the plan document
    when the path has been populated. *)
Inductive PlanRef : Type :=
| RefId (id : ObjectId)
| RefDoc (plan : Plan.doc).

Definition PlanRef_id (r : PlanRef) : ObjectId :=
  match r with
  | RefId i => i
  | RefDoc p => Plan._id p
  end.

(** [ref.stripePriceId]: [undefined] on a bare identifier. *)
Definition PlanRef_stripePriceId (r : PlanRef) : option string :=
  match r with
  | RefId _ => None
  | RefDoc p => Plan.stripePriceId p
  end.

Module User.

Record doc : Type := {
  _id : ObjectId;
  email : string;
  name : string;
  stripeCustomerId : option string;
  stripeSubscriptionId : option string;
  subscriptionStatus : option string;
  currentPlanId : option PlanRef;
  currentPlanType : option string;
  subscriptionExpiresAt : option JSDate;
  isFreeTrialEligible : bool;
  hasUsedFreeTrial : bool
}.

Definition set_stripeCustomerId (v : option string) (u : doc) : doc :=
  {| _id := _id u; email := email u; name := name u;
     stripeCustomerId := v;
     stripeSubscriptionId := stripeSubscriptionId u;
     subscriptionStatus := subscriptionStatus u;
     currentPlanId := currentPlanId u;
     currentPlanType := currentPlanType u;
     subscriptionExpiresAt := subscriptionExpiresAt u;
     isFreeTrialEligible := isFreeTrialEligible u;
     hasUsedFreeTrial := hasUsedFreeTrial u |}.

Definition set_stripeSubscriptionId (v : option string) (u : doc) : doc :=
  {| _id := _id u; email := email u; name := name u;
     stripeCustomerId := stripeCustomerId u;
     stripeSubscriptionId := v;
     subscriptionStatus := subscriptionStatus u;
     currentPlanId := currentPlanId u;
     currentPlanType := currentPlanType u;
     subscriptionExpiresAt := subscriptionExpiresAt u;
     isFreeTrialEligible := isFreeTrialEligible u;
     hasUsedFreeTrial := hasUsedFreeTrial u |}.

Definition set_subscriptionStatus (v : option string) (u : doc) : doc :=
  {| _id := _id u; email := email u; name := name u;
     stripeCustomerId := stripeCustomerId u;
     stripeSubscriptionId := stripeSubscriptionId u;
     subscriptionStatus := v;
     currentPlanId := currentPlanId u;
     currentPlanType := currentPlanType u;
     subscriptionExpiresAt := subscriptionExpiresAt u;
     isFreeTrialEligible := isFreeTrialEligible u;
     hasUsedFreeTrial := hasUsedFreeTrial u |}.

Definition set_currentPlanId (v : option PlanRef) (u : doc) : doc :=
  {| _id := _id u; email := email u; name := name u;
     stripeCustomerId := stripeCustomerId u;
     stripeSubscriptionId := stripeSubscriptionId u;
     subscriptionStatus := subscriptionStatus u;
     currentPlanId := v;
     currentPlanType := currentPlanType u;
     subscriptionExpiresAt := subscriptionExpiresAt u;
     isFreeTrialEligible := isFreeTrialEligible u;
     hasUsedFreeTrial := hasUsedFreeTrial u |}.

Definition set_currentPlanType (v : option string) (u : doc) : doc :=
  {| _id := _id u; email := email u; name := name u;
     stripeCustomerId := stripeCustomerId u;
     stripeSubscriptionId := stripeSubscriptionId u;
     subscriptionStatus := subscriptionStatus u;
     currentPlanId := currentPlanId u;
     currentPlanType := v;
     subscriptionExpiresAt := subscriptionExpiresAt u;
     isFreeTrialEligible := isFreeTrialEligible u;
     hasUsedFreeTrial := hasUsedFreeTrial u |}.

Definition set_subscriptionExpiresAt (v : option JSDate) (u : doc) : doc :=
  {| _id := _id u; email := email u; name := name u;
     stripeCustomerId := stripeCustomerId u;
     stripeSubscriptionId := stripeSubscriptionId u;
     subscriptionStatus := subscriptionStatus u;
     currentPlanId := currentPlanId u;
     currentPlanType := currentPlanType u;
     subscriptionExpiresAt := v;
     isFreeTrialEligible := isFreeTrialEligible u;
     hasUsedFreeTrial := hasUsedFreeTrial u |}.

(** [User.findById(id)]; an [undefined] identifier finds nothing. *)
Definition findById (coll : list doc) (id : option ObjectId) : option doc :=
  match id with
  | Some i => find (fun u => String.eqb (_id u) i) coll
  | None => None
  end.

(** [User.findOne({ stripeSubscriptionId: id })]: the first document, in the
    order of the collection, whose subscription reference is [id]. *)
Definition findOne_stripeSubscriptionId (coll : list doc) (id : string) : option doc :=
  find (fun u => strict_eq id (stripeSubscriptionId u)) coll.

(** The write behind [document.save()]: the paths assigned since the document
    was loaded are set on the stored document that has its identifier; the
    other paths and the other documents are left as they are.  The handlers
    save documents that the collection holds; on a collection that does not
    hold the document nothing is written. *)
Fixpoint updateOne (id : ObjectId) (assign : doc -> doc) (coll : list doc) : list doc :=
  match coll with
  | [] => []
  | u :: rest =>
      if String.eqb (_id u) id then assign u :: rest
      else u :: updateOne id assign rest
  end.

End User.

(** ** The billing provider *)

Module Stripe.

Record Metadata : Type := {
  userId : option string;
  planId : option string;
  planType : option string
}.

Record Item : Type := {
  item_id : string;
  price_id : string
}.

(** The fields that the controller reads on the provider's objects (a checkout
    session, an invoice, a subscription).  A field that an object does not
    carry is [None]; [items_data] is [items.data]. *)
Record Object : Type := {
  id : string;
  subscription : option string;
  customer : option string;
  metadata : option Metadata;
  status : string;
  current_period_end : option Z;
  items_data : list Item
}.

Record Event : Type := {
  type : string;
  data_object : Object
}.

Record Customer : Type := { customer_id : string }.

Record CheckoutSession : Type := {
  session_id : string;
  session_url : string
}.

Record CustomerParams : Type := {
  cp_email : string;
  cp_name : string;
  cp_metadata_userId : string
}.

Record CheckoutParams : Type := {
  ck_customer : string;
  ck_line_items : list (option string * Z);
  ck_mode : string;
  ck_success_url : string;
  ck_cancel_url : string;
  ck_metadata_userId : string;
  ck_metadata_planId : string;
  ck_metadata_planType : string;
  ck_subscription_data_userId : string;
  ck_allow_promotion_codes : bool
}.

(** What the provider answers to each request: a value, or the error that the
    SDK raises. *)
Record sdk : Type := {
  customers_create : CustomerParams -> JSError + Customer;
  checkout_sessions_create : CheckoutParams -> JSError + CheckoutSession;
  subscriptions_retrieve : string -> JSError + Object;
  subscriptions_update : string -> list (string * string) -> JSError + Object;
  webhooks_constructEvent : string -> option string -> string -> JSError + Event
}.

End Stripe.

(** ** The world and the monad of the handlers *)

(** What a handler does to the outside, in the order in which it does it: the
    requests it sends to the provider and the documents it saves. *)
Inductive Effect : Type :=
| call_customers_create (params : Stripe.CustomerParams)
| call_checkout_sessions_create (params : Stripe.CheckoutParams)
| call_subscriptions_retrieve (id : string)
| call_subscriptions_update (id : string) (items : list (string * string))
| write_user (id : ObjectId).

Definition is_gateway_call (e : Effect) : bool :=
  match e with
  | write_user _ => false
  | _ => true
  end.

Inductive Level : Type := Log | Warn | Error.

Record World : Type := {
  users : list User.doc;
  plans : list Plan.doc;
  now : Z;
  trace : list Effect;
  console : list (Level * string)
}.

Definition with_users (us : list User.doc) (w : World) : World :=
  {| users := us; plans := plans w; now := now w;
     trace := trace w; console := console w |}.

Definition with_trace (t : list Effect) (w : World) : World :=
  {| users := users w; plans := plans w; now := now w;
     trace := t; console := console w |}.

Definition with_console (c : list (Level * string)) (w : World) : World :=
  {| users := users w; plans := plans w; now := now w;
     trace := trace w; console := c |}.

(** A computation either returns a value or throws; the world it leaves
    behind is kept in both cases. *)
Definition M (A : Type) : Type := World -> (JSError + A) * World.

Definition ret {A : Type} (a : A) : M A := fun w => (inr a, w).

Definition throw {A : Type} (e : JSError) : M A := fun w => (inl e, w).

Definition bind {A B : Type} (m : M A) (k : A -> M B) : M B :=
  fun w =>
    match m w with
    | (inr a, w') => k a w'
    | (inl e, w') => (inl e, w')
    end.

Definition try_catch {A : Type} (m : M A) (handler : JSError -> M A) : M A :=
  fun w =>
    match m w with
    | (inr a, w') => (inr a, w')
    | (inl e, w') => handler e w'
    end.

Notation "x <- c ;; k" := (bind c (fun x => k))
  (at level 61, c at next level, right associativity).
Notation "c ;; k" := (bind c (fun _ => k))
  (at level 61, right associativity).

Definition outcome {A : Type} (r : (JSError + A) * World) : JSError + A := fst r.
Definition final {A : Type} (r : (JSError + A) * World) : World := snd r.

Definition gets {A : Type} (f : World -> A) : M A := fun w => (inr (f w), w).

Definition emit (e : Effect) : M unit :=
  fun w => (inr tt, with_trace (trace w ++ [e]) w).

(** [console.log], [console.warn] and [console.error].  The console keeps the
    level and the words of each line; the pictograms that open some lines of
    the source and the values interpolated after the words are left out. *)
Definition console_write (l : Level) (text : string) : M unit :=
  fun w => (inr tt, with_console (console w ++ [(l, text)]) w).

(** A request to the provider: recorded in the trace, then answered. *)
Definition gateway {A : Type} (e : Effect) (answer : JSError + A) : M A :=
  emit e ;;
  match answer with
  | inr a => ret a
  | inl err => throw err
  end.

(** [await user.save({ validateBeforeSave: false })] after the assignments
    [assign] to the paths of [user]. *)
Definition User_save (user : User.doc) (assign : User.doc -> User.doc) : M unit :=
  emit (write_user (User._id user)) ;;
  fun w => (inr tt, with_users (User.updateOne (User._id user) assign (users w)) w).

Definition User_findById (id : option ObjectId) : M (option User.doc) :=
  gets (fun w => User.findById (users w) id).

Definition User_findOne_stripeSubscriptionId (id : string) : M (option User.doc) :=
  gets (fun w => User.findOne_stripeSubscriptionId (users w) id).

Definition Plan_findById (id : option ObjectId) : M (option Plan.doc) :=
  gets (fun w => Plan.findById (plans w) id).

Definition Plan_findOne (filter : Plan.doc -> bool) : M (option Plan.doc) :=
  gets (fun w => Plan.findOne (plans w) filter).

(** [new Date()]. *)
Definition Date_now : M JSDate := gets (fun w => DateMs (now w)).

(** ** Requests and responses *)

Inductive ResBody : Type :=
| send (text : string)
| json (statusCode : Z) (data : list (string * string)) (message : string).

Record Response : Type := {
  res_status : Z;
  res_body : ResBody
}.

Record CheckoutReq : Type := {
  body_planId : option ObjectId;
  checkout_user : User.doc
}.

Record WebhookReq : Type := {
  raw_body : string;
  header_stripe_signature : option string
}.

Record UpgradeReq : Type := {
  upgrade_user : User.doc
}.

(** ** Queries of the controller *)

(** The filter [{ type: PlanTypes.YEARLY, isActive: true }]. *)
Definition yearly_active (p : Plan.doc) : bool :=
  String.eqb (Plan.type p) PlanTypes.YEARLY && Bool.eqb (Plan.isActive p) true.

(** The filter [{ stripePriceId: priceId }]. *)
Definition by_stripePriceId (priceId : string) (p : Plan.doc) : bool :=
  strict_eq priceId (Plan.stripePriceId p).

(** ** The controller *)

Section Controller.

(** [stripe] and [stripeWebhookSecret] of [config/stripe.js], and
    [bridge.FRONTEND_URL]. *)
Variable stripe : Stripe.sdk.
Variable stripeWebhookSecret : string.
Variable FRONTEND_URL : string.

Definition plan_invalid : JSError :=
  ApiError HttpStatusCode.BAD_REQUEST "Selected plan not found or is inactive.".

Definition createCheckoutSession (req : CheckoutReq) : M Response :=
  let planId := body_planId req in
  let userId := User._id (checkout_user req) in
  if negb (truthy planId) then
    throw (ApiError HttpStatusCode.BAD_REQUEST
             "Plan ID is required to create a checkout session.")
  else
    plan <- Plan_findById planId ;;
    match plan with
    | None => throw plan_invalid
    | Some plan =>
      if negb (Plan.isActive plan) then throw plan_invalid
      else
        let user := checkout_user req in
        stripeCustomerId <-
          match nonempty (User.stripeCustomerId user) with
          | Some cid => ret cid
          | None =>
            let params :=
              {| Stripe.cp_email := User.email user;
                 Stripe.cp_name := User.name user;
                 Stripe.cp_metadata_userId := userId |} in
            customer <- gateway (call_customers_create params)
                          (Stripe.customers_create stripe params) ;;
            User_save user
              (User.set_stripeCustomerId (Some (Stripe.customer_id customer))) ;;
            ret (Stripe.customer_id customer)
          end ;;
        let successUrl :=
          FRONTEND_URL ++ "/dashboard?payment=success&session_id={CHECKOUT_SESSION_ID}" in
        let cancelUrl := FRONTEND_URL ++ "/dashboard?payment=canceled" in
        try_catch
          (let params :=
             {| Stripe.ck_customer := stripeCustomerId;
                Stripe.ck_line_items := [(Plan.stripePriceId plan, 1)];
                Stripe.ck_mode := "subscription";
                Stripe.ck_success_url := successUrl;
                Stripe.ck_cancel_url := cancelUrl;
                Stripe.ck_metadata_userId := userId;
                Stripe.ck_metadata_planId := Plan._id plan;
                Stripe.ck_metadata_planType := Plan.type plan;
                Stripe.ck_subscription_data_userId := userId;
                Stripe.ck_allow_promotion_codes := true |} in
           session <- gateway (call_checkout_sessions_create params)
                        (Stripe.checkout_sessions_create stripe params) ;;
           ret {| res_status := HttpStatusCode.OK;
                  res_body :=
                    json HttpStatusCode.OK
                      [("sessionId", Stripe.session_id session);
                       ("url", Stripe.session_url session)]
                      "Stripe Checkout Session created successfully." |})
          (fun error =>
             console_write Error "Error creating Stripe Checkout Session:" ;;
             throw (ApiError HttpStatusCode.INTERNAL_SERVER_ERROR
                      (or_else (message error)
                         "Failed to create Stripe Checkout Session.")))
    end.

(** The assignments of the [checkout.session.completed] case, in the order of
    the source. *)
Definition assign_checkout (subscription : Stripe.Object) (customer : string)
  (plan : Plan.doc) (u : User.doc) : User.doc :=
  User.set_subscriptionExpiresAt
    (Some (Date_of_seconds (Stripe.current_period_end subscription)))
    (User.set_subscriptionStatus (Some (Stripe.status subscription))
       (User.set_currentPlanType (Some (Plan.type plan))
          (User.set_currentPlanId (Some (RefId (Plan._id plan)))
             (User.set_stripeCustomerId (Some customer)
                (User.set_stripeSubscriptionId (Some (Stripe.id subscription)) u))))).

(** [case 'checkout.session.completed'] *)
Definition on_checkout_session_completed (session : Stripe.Object) : M unit :=
  console_write Log ("Checkout Session Completed: " ++ Stripe.id session) ;;
  match nonempty (Stripe.subscription session) with
  | Some subscriptionId =>
    subscription <- gateway (call_subscriptions_retrieve subscriptionId)
                      (Stripe.subscriptions_retrieve stripe subscriptionId) ;;
    match Stripe.metadata session with
    | None => throw (TypeError "Cannot read properties of null (reading 'userId')")
    | Some metadata =>
      let userId := Stripe.userId metadata in
      let planId := Stripe.planId metadata in
      user <- User_findById userId ;;
      plan <- Plan_findById planId ;;
      match user, plan with
      | Some user, Some plan =>
        match Stripe.customer session with
        | None => throw (TypeError "Cannot read properties of null (reading 'toString')")
        | Some customer =>
          User_save user (assign_checkout subscription customer plan) ;;
          console_write Log
            ("User " ++ User.email user ++ " subscription updated to "
               ++ Plan.name plan ++ ".")
        end
      | _, _ =>
        console_write Error
          "User or Plan not found for checkout.session.completed."
      end
    end
  | None =>
    console_write Warn
      ("Checkout session " ++ Stripe.id session
         ++ " completed but no subscription attached.")
  end.

(** The two assignments shared by the invoice and the update cases. *)
Definition assign_status_expiry (subscription : Stripe.Object) (u : User.doc) : User.doc :=
  User.set_subscriptionExpiresAt
    (Some (Date_of_seconds (Stripe.current_period_end subscription)))
    (User.set_subscriptionStatus (Some (Stripe.status subscription)) u).

(** [case 'invoice.payment_succeeded'] *)
Definition on_invoice_payment_succeeded (invoice : Stripe.Object) : M unit :=
  console_write Log ("Invoice Payment Succeeded: " ++ Stripe.id invoice) ;;
  match nonempty (Stripe.subscription invoice) with
  | Some subscriptionId =>
    subscription <- gateway (call_subscriptions_retrieve subscriptionId)
                      (Stripe.subscriptions_retrieve stripe subscriptionId) ;;
    user <- User_findOne_stripeSubscriptionId (Stripe.id subscription) ;;
    match user with
    | Some user =>
      User_save user (assign_status_expiry subscription) ;;
      console_write Log
        ("User " ++ User.email user ++ " subscription extended via invoice payment.")
    | None =>
      console_write Warn
        ("User not found for subscription ID " ++ Stripe.id subscription
           ++ " during invoice.payment_succeeded.")
    end
  | None => ret tt
  end.

Definition assign_plan (newPlan : Plan.doc) (u : User.doc) : User.doc :=
  User.set_currentPlanType (Some (Plan.type newPlan))
    (User.set_currentPlanId (Some (RefId (Plan._id newPlan))) u).

(** [case 'customer.subscription.updated'] *)
Definition on_customer_subscription_updated (updatedSubscription : Stripe.Object) : M unit :=
  console_write Log ("Subscription Updated: " ++ Stripe.id updatedSubscription) ;;
  userUpdated <- User_findOne_stripeSubscriptionId (Stripe.id updatedSubscription) ;;
  match userUpdated with
  | Some userUpdated =>
    assign_new_plan <-
      match Stripe.items_data updatedSubscription with
      | item0 :: _ =>
        let newPriceId := Stripe.price_id item0 in
        newPlan <- Plan_findOne (by_stripePriceId newPriceId) ;;
        match newPlan with
        | Some newPlan => ret (assign_plan newPlan)
        | None => ret (fun u : User.doc => u)
        end
      | [] => ret (fun u : User.doc => u)
      end ;;
    User_save userUpdated
      (fun u => assign_new_plan (assign_status_expiry updatedSubscription u)) ;;
    console_write Log
      ("User " ++ User.email userUpdated ++ " subscription details updated.")
  | None => ret tt
  end.

Definition assign_deleted (expires : JSDate) (u : User.doc) : User.doc :=
  User.set_subscriptionExpiresAt (Some expires)
    (User.set_subscriptionStatus (Some "canceled")
       (User.set_currentPlanType None
          (User.set_currentPlanId None
             (User.set_stripeSubscriptionId None u)))).

(** [case 'customer.subscription.deleted'] *)
Definition on_customer_subscription_deleted (deletedSubscription : Stripe.Object) : M unit :=
  console_write Log ("Subscription Deleted: " ++ Stripe.id deletedSubscription) ;;
  userDeleted <- User_findOne_stripeSubscriptionId (Stripe.id deletedSubscription) ;;
  match userDeleted with
  | Some userDeleted =>
    expires <-
      (if truthy_num (Stripe.current_period_end deletedSubscription)
       then ret (Date_of_seconds (Stripe.current_period_end deletedSubscription))
       else Date_now) ;;
    User_save userDeleted (assign_deleted expires) ;;
    console_write Log
      ("User " ++ User.email userDeleted ++ " subscription marked as canceled.")
  | None => ret tt
  end.

(** [switch (event.type)] *)
Definition dispatch (event : Stripe.Event) : M unit :=
  let type := Stripe.type event in
  let object := Stripe.data_object event in
  if String.eqb type "checkout.session.completed" then
    on_checkout_session_completed object
  else if String.eqb type "invoice.payment_succeeded" then
    on_invoice_payment_succeeded object
  else if String.eqb type "customer.subscription.updated" then
    on_customer_subscription_updated object
  else if String.eqb type "customer.subscription.deleted" then
    on_customer_subscription_deleted object
  else
    console_write Log ("Unhandled event type " ++ type).

Definition handleStripeWebhook (req : WebhookReq) : M Response :=
  let sig := header_stripe_signature req in
  match Stripe.webhooks_constructEvent stripe (raw_body req) sig stripeWebhookSecret with
  | inl err =>
    console_write Error ("Webhook Error: " ++ message err) ;;
    ret {| res_status := HttpStatusCode.BAD_REQUEST;
           res_body := send ("Webhook Error: " ++ message err) |}
  | inr event =>
    dispatch event ;;
    ret {| res_status := HttpStatusCode.OK; res_body := send "Webhook Received" |}
  end.

Definition upgrade_refused : JSError :=
  ApiError HttpStatusCode.BAD_REQUEST
    "You must have an active Monthly plan to upgrade to Yearly.".

(** The guard of [upgradeToYearly]: [true] when the request is refused. *)
Definition upgrade_guard (user : User.doc) : bool :=
  negb (truthy (User.stripeSubscriptionId user))
  || strict_neq (User.subscriptionStatus user) "active"
  || strict_neq (User.currentPlanType user) PlanTypes.MONTHLY.

(** [currentSubscription.items.data.find(item =>
      item.price.id === user.currentPlanId.stripePriceId)]: the callback runs
    on the first item at the earliest, and reads a property of
    [user.currentPlanId]. *)
Definition find_subscription_item (ref : option PlanRef) (items : list Stripe.Item)
  : M (option Stripe.Item) :=
  match items, ref with
  | [], _ => ret None
  | _ :: _, None =>
    throw (TypeError "Cannot read properties of null (reading 'stripePriceId')")
  | _ :: _, Some r =>
    ret (find (fun item => strict_eq (Stripe.price_id item) (PlanRef_stripePriceId r)) items)
  end.

Definition upgradeToYearly (req : UpgradeReq) : M Response :=
  let user := upgrade_user req in
  match (if upgrade_guard user then None else nonempty (User.stripeSubscriptionId user)) with
  | None => throw upgrade_refused
  | Some stripeSubscriptionId =>
    yearlyPlan <- Plan_findOne yearly_active ;;
    match yearlyPlan with
    | None =>
      throw (ApiError HttpStatusCode.NOT_FOUND "Yearly plan not found in database.")
    | Some yearlyPlan =>
      match nonempty (Plan.stripePriceId yearlyPlan) with
      | None =>
        console_write Error
          ("Yearly plan (" ++ Plan.name yearlyPlan ++ ") missing Stripe Price ID.") ;;
        throw (ApiError HttpStatusCode.INTERNAL_SERVER_ERROR "Yearly plan misconfigured.")
      | Some yearlyPriceId =>
        try_catch
          (currentSubscription <-
             gateway (call_subscriptions_retrieve stripeSubscriptionId)
               (Stripe.subscriptions_retrieve stripe stripeSubscriptionId) ;;
           subscriptionItem <-
             find_subscription_item (User.currentPlanId user)
               (Stripe.items_data currentSubscription) ;;
           match subscriptionItem with
           | None =>
             throw (ApiError HttpStatusCode.INTERNAL_SERVER_ERROR
                      "Could not find current subscription item.")
           | Some subscriptionItem =>
             let items := [(Stripe.item_id subscriptionItem, yearlyPriceId)] in
             updatedSubscription <-
               gateway (call_subscriptions_update stripeSubscriptionId items)
                 (Stripe.subscriptions_update stripe stripeSubscriptionId items) ;;
             ret {| res_status := HttpStatusCode.OK;
                    res_body :=
                      json HttpStatusCode.OK
                        [("subscriptionId", Stripe.id updatedSubscription);
                         ("newPriceId", yearlyPriceId)]
                        "Subscription successfully upgraded to Yearly Plan." |}
           end)
          (fun error =>
             console_write Error "Error upgrading subscription:" ;;
             throw (ApiError HttpStatusCode.INTERNAL_SERVER_ERROR
                      (or_else (message error) "Failed to upgrade subscription.")))
      end
    end
  end.

End Controller.

(** ** Invariants of the billing record *)

(** A subscription reference that is set comes with a status. *)
Definition subscription_has_status (u : User.doc) : bool :=
  match User.stripeSubscriptionId u, User.subscriptionStatus u with
  | Some _, None => false
  | _, _ => true
  end.

(** The plan kind on the record is the kind of the referenced plan, and is
    absent when no plan is referenced. *)
Definition plan_kind_matches (catalog : list Plan.doc) (u : User.doc) : bool :=
  match User.currentPlanId u with
  | Some r =>
    match Plan.findById catalog (Some (PlanRef_id r)) with
    | Some p => strict_eq (Plan.type p) (User.currentPlanType u)
    | None => false
    end
  | None =>
    match User.currentPlanType u with
    | None => true
    | Some _ => false
    end
  end.

Definition billing_inv (catalog : list Plan.doc) (u : User.doc) : bool :=
  subscription_has_status u && plan_kind_matches catalog u.

Definition store_inv (w : World) : bool :=
  forallb (billing_inv (plans w)) (users w).

(** Identifiers are unique in a collection of the store. *)
Fixpoint unique_ids (ids : list ObjectId) : bool :=
  match ids with
  | [] => true
  | i :: rest => negb (existsb (String.eqb i) rest) && unique_ids rest
  end.

(** The billing fields of an account as it is created: the schema defaults. *)
Definition fresh_billing (u : User.doc) : bool :=
  match User.stripeCustomerId u, User.stripeSubscriptionId u,
        User.subscriptionStatus u, User.currentPlanId u,
        User.currentPlanType u, User.subscriptionExpiresAt u with
  | None, None, None, None, None, None => true
  | _, _, _, _, _, _ => false
  end.

Definition with_now (t : Z) (w : World) : World :=
  {| users := users w; plans := plans w; now := t;
     trace := trace w; console := console w |}.

(** The worlds that the controller can reach: accounts are created with the
    default billing fields, time passes, and the handlers run, each against
    whatever the provider answers at that moment. *)
Inductive reachable : World -> Prop :=
| reach_init (w : World) :
    forallb fresh_billing (users w) = true ->
    unique_ids (map Plan._id (plans w)) = true ->
    reachable w
| reach_signup (u : User.doc) (w : World) :
    fresh_billing u = true ->
    reachable w ->
    reachable (with_users (users w ++ [u]) w)
| reach_clock (t : Z) (w : World) :
    reachable w ->
    reachable (with_now t w)
| reach_checkout (stripe : Stripe.sdk) (url : string) (req : CheckoutReq) (w : World) :
    reachable w ->
    reachable (final (createCheckoutSession stripe url req w))
| reach_webhook (stripe : Stripe.sdk) (secret : string) (req : WebhookReq) (w : World) :
    reachable w ->
    reachable (final (handleStripeWebhook stripe secret req w))
| reach_upgrade (stripe : Stripe.sdk) (req : UpgradeReq) (w : World) :
    reachable w ->
    reachable (final (upgradeToYearly stripe req w)).

(** Two records that differ at most in the customer reference. *)
Definition same_but_customer (u u' : User.doc) : Prop :=
  User._id u' = User._id u /\
  User.email u' = User.email u /\
  User.name u' = User.name u /\
  User.stripeSubscriptionId u' = User.stripeSubscriptionId u /\
  User.subscriptionStatus u' = User.subscriptionStatus u /\
  User.currentPlanId u' = User.currentPlanId u /\
  User.currentPlanType u' = User.currentPlanType u /\
  User.subscriptionExpiresAt u' = User.subscriptionExpiresAt u /\
  User.isFreeTrialEligible u' = User.isFreeTrialEligible u /\
  User.hasUsedFreeTrial u' = User.hasUsedFreeTrial u.

(** ** Sample data *)

Module Sample.

Definition monthly : Plan.doc :=
  {| Plan._id := "plan_m"; Plan.name := "Pro Monthly"; Plan.type := PlanTypes.MONTHLY;
     Plan.stripePriceId := Some "price_m"; Plan.isActive := true |}.

Definition yearly : Plan.doc :=
  {| Plan._id := "plan_y"; Plan.name := "Pro Yearly"; Plan.type := PlanTypes.YEARLY;
     Plan.stripePriceId := Some "price_y"; Plan.isActive := true |}.

Definition retired : Plan.doc :=
  {| Plan._id := "plan_old"; Plan.name := "Legacy"; Plan.type := PlanTypes.MONTHLY;
     Plan.stripePriceId := Some "price_old"; Plan.isActive := false |}.

Definition catalog : list Plan.doc := [monthly; yearly; retired].

(** A new account. *)
Definition alice : User.doc :=
  {| User._id := "u_alice"; User.email := "alice@example.com"; User.name := "Alice";
     User.stripeCustomerId := None; User.stripeSubscriptionId := None;
     User.subscriptionStatus := None; User.currentPlanId := None;
     User.currentPlanType := None; User.subscriptionExpiresAt := None;
     User.isFreeTrialEligible := true; User.hasUsedFreeTrial := false |}.

(** An account on the monthly plan, as stored. *)
Definition bob : User.doc :=
  {| User._id := "u_bob"; User.email := "bob@example.com"; User.name := "Bob";
     User.stripeCustomerId := Some "cus_bob"; User.stripeSubscriptionId := Some "sub_bob";
     User.subscriptionStatus := Some "active";
     User.currentPlanId := Some (RefId "plan_m");
     User.currentPlanType := Some PlanTypes.MONTHLY;
     User.subscriptionExpiresAt := Some (DateMs 1700000000000);
     User.isFreeTrialEligible := false; User.hasUsedFreeTrial := true |}.

(** The same account with [currentPlanId] populated. *)
Definition bob_populated : User.doc :=
  User.set_currentPlanId (Some (RefDoc monthly)) bob.

Definition world : World :=
  {| users := [alice; bob]; plans := catalog; now := 1690000000000;
     trace := []; console := [] |}.

Definition new_world : World :=
  {| users := [alice]; plans := catalog; now := 1690000000000;
     trace := []; console := [] |}.

Definition subscription_of (id : string) : Stripe.Object :=
  {| Stripe.id := id; Stripe.subscription := None; Stripe.customer := Some "cus_bob";
     Stripe.metadata := Some {| Stripe.userId := None; Stripe.planId := None;
                                Stripe.planType := None |};
     Stripe.status := "active"; Stripe.current_period_end := Some 1702592000;
     Stripe.items_data := [ {| Stripe.item_id := "si_1"; Stripe.price_id := "price_m" |} ] |}.

(** A completed checkout of [alice] for the monthly plan. *)
Definition session_alice : Stripe.Object :=
  {| Stripe.id := "cs_1"; Stripe.subscription := Some "sub_alice";
     Stripe.customer := Some "cus_alice";
     Stripe.metadata := Some {| Stripe.userId := Some "u_alice";
                                Stripe.planId := Some "plan_m";
                                Stripe.planType := Some PlanTypes.MONTHLY |};
     Stripe.status := "complete"; Stripe.current_period_end := None;
     Stripe.items_data := [] |}.

(** The same checkout for an account that exists no more. *)
Definition session_ghost : Stripe.Object :=
  {| Stripe.id := "cs_2"; Stripe.subscription := Some "sub_ghost";
     Stripe.customer := Some "cus_ghost";
     Stripe.metadata := Some {| Stripe.userId := Some "u_ghost";
                                Stripe.planId := Some "plan_m";
                                Stripe.planType := Some PlanTypes.MONTHLY |};
     Stripe.status := "complete"; Stripe.current_period_end := None;
     Stripe.items_data := [] |}.

(** The subscription of [bob], moved to a price that no plan carries. *)
Definition bob_unknown_price : Stripe.Object :=
  {| Stripe.id := "sub_bob"; Stripe.subscription := None; Stripe.customer := Some "cus_bob";
     Stripe.metadata := None;
     Stripe.status := "past_due"; Stripe.current_period_end := Some 1705000000;
     Stripe.items_data := [ {| Stripe.item_id := "si_1"; Stripe.price_id := "price_x" |} ] |}.

(** The subscription of [bob], deleted, with the period end given. *)
Definition bob_deleted (period_end : option Z) : Stripe.Object :=
  {| Stripe.id := "sub_bob"; Stripe.subscription := None; Stripe.customer := Some "cus_bob";
     Stripe.metadata := None;
     Stripe.status := "canceled"; Stripe.current_period_end := period_end;
     Stripe.items_data := [ {| Stripe.item_id := "si_1"; Stripe.price_id := "price_m" |} ] |}.

(** The payloads that the sample provider signs. *)
Definition event_of (body : string) : Stripe.Event :=
  if String.eqb body "checkout alice" then
    {| Stripe.type := "checkout.session.completed"; Stripe.data_object := session_alice |}
  else if String.eqb body "checkout ghost" then
    {| Stripe.type := "checkout.session.completed"; Stripe.data_object := session_ghost |}
  else if String.eqb body "updated bob" then
    {| Stripe.type := "customer.subscription.updated"; Stripe.data_object := bob_unknown_price |}
  else if String.eqb body "deleted bob" then
    {| Stripe.type := "customer.subscription.deleted";
       Stripe.data_object := bob_deleted (Some 1702592000) |}
  else if String.eqb body "deleted bob at 0" then
    {| Stripe.type := "customer.subscription.deleted";
       Stripe.data_object := bob_deleted (Some 0) |}
  else
    {| Stripe.type := "customer.created"; Stripe.data_object := subscription_of "cus_new" |}.

Definition constructEvent (body : string) (sig : option string) (secret : string)
  : JSError + Stripe.Event :=
  if strict_eq secret sig then inr (event_of body)
  else inl (StripeError "No signatures found matching the expected signature for payload.").

(** A provider that answers every request. *)
Definition stripe_up : Stripe.sdk :=
  {| Stripe.customers_create := fun _ => inr {| Stripe.customer_id := "cus_1" |};
     Stripe.checkout_sessions_create := fun _ =>
       inr {| Stripe.session_id := "cs_1";
              Stripe.session_url := "https://checkout.example/cs_1" |};
     Stripe.subscriptions_retrieve := fun id => inr (subscription_of id);
     Stripe.subscriptions_update := fun id _ => inr (subscription_of id);
     Stripe.webhooks_constructEvent := constructEvent |}.

(** A provider that creates customers and verifies signatures, and fails
    every other request. *)
Definition stripe_down : Stripe.sdk :=
  {| Stripe.customers_create := fun _ => inr {| Stripe.customer_id := "cus_1" |};
     Stripe.checkout_sessions_create := fun _ => inl (StripeError "connection lost");
     Stripe.subscriptions_retrieve := fun _ => inl (StripeError "connection lost");
     Stripe.subscriptions_update := fun _ _ => inl (StripeError "connection lost");
     Stripe.webhooks_constructEvent := constructEvent |}.

Definition secret : string := "whsec_1".

Definition signed (body : string) : WebhookReq :=
  {| raw_body := body; header_stripe_signature := Some secret |}.

End Sample.

(** ** The customer portal and the plan list *)

Module StripePortal.

Record Params : Type := {
  customer : string;
  return_url : string
}.

Record Session : Type := { url : string }.

End StripePortal.

Record PortalReq : Type := {
  portal_user : User.doc
}.

(** The answer of the provider to a request that the trace does not list: the
    trace lists the requests of the three handlers above. *)
Definition answered {A : Type} (answer : JSError + A) : M A :=
  fun w => (answer, w).

Section Portal.

(** [stripe.billingPortal.sessions.create] and [bridge.FRONTEND_URL]. *)
Variable billingPortal_sessions_create :
  StripePortal.Params -> JSError + StripePortal.Session.
Variable FRONTEND_URL : string.

Definition portal_refused : JSError :=
  ApiError HttpStatusCode.BAD_REQUEST
    "You do not have an active Stripe customer ID to manage subscriptions.".

Definition manageSubscriptionPortal (req : PortalReq) : M Response :=
  let user := portal_user req in
  match nonempty (User.stripeCustomerId user) with
  | None => throw portal_refused
  | Some stripeCustomerId =>
    try_catch
      (session <-
         answered
           (billingPortal_sessions_create
              {| StripePortal.customer := stripeCustomerId;
                 StripePortal.return_url := FRONTEND_URL ++ "/dashboard?portal=return" |}) ;;
       ret {| res_status := HttpStatusCode.OK;
              res_body :=
                json HttpStatusCode.OK
                  [("portalUrl", StripePortal.url session)]
                  "Stripe Customer Portal session created successfully." |})
      (fun error =>
         console_write Error "Error creating Stripe Customer Portal session:" ;;
         throw (ApiError HttpStatusCode.INTERNAL_SERVER_ERROR
                  (or_else (message error)
                     "Failed to create Stripe Customer Portal session.")))
  end.

End Portal.

(** The body that [getPlans] sends: an [ApiResponse] whose data is a list of
    plans. *)
Record PlanList : Type := {
  list_status : Z;
  list_statusCode : Z;
  list_data : list Plan.doc;
  list_message : string
}.

(** [Plan.find(filter)]: the documents that satisfy the filter, in the order
    of the collection.  The projection [select('-createdAt -updatedAt -__v')]
    drops paths that [Plan.doc] does not carry. *)
Definition Plan_find (filter : Plan.doc -> bool) : M (list Plan.doc) :=
  gets (fun w => List.filter filter (plans w)).

(** The filter [{ isActive: true }]. *)
Definition active (p : Plan.doc) : bool := Bool.eqb (Plan.isActive p) true.

Section Plans.

(** [AppMessages.FETCHED] of [constants/index.js]. *)
Variable FETCHED : string.

Definition getPlans : M PlanList :=
  plans <- Plan_find active ;;
  ret {| list_status := HttpStatusCode.OK;
         list_statusCode := HttpStatusCode.OK;
         list_data := plans;
         list_message := FETCHED |}.

End Plans.

(** ** Notions for the further properties *)

(** Two records with the same identity: identifier, e-mail, name and trial
    flags. *)
Definition same_identity (u u' : User.doc) : Prop :=
  User._id u' = User._id u /\
  User.email u' = User.email u /\
  User.name u' = User.name u /\
  User.isFreeTrialEligible u' = User.isFreeTrialEligible u /\
  User.hasUsedFreeTrial u' = User.hasUsedFreeTrial u.

(** The stored users that hold the subscription reference [sid]. *)
Definition holders (sid : string) (coll : list User.doc) : list User.doc :=
  List.filter (fun u => strict_eq sid (User.stripeSubscriptionId u)) coll.

(** The effects that read a subscription or save a user. *)
Definition retrieves_or_saves (e : Effect) : bool :=
  match e with
  | call_subscriptions_retrieve _ => true
  | write_user _ => true
  | _ => false
  end.

(** ** More sample data *)

Module Demo.

(** The yearly plan, its price reference missing. *)
Definition yearly_unpriced : Plan.doc :=
  {| Plan._id := "plan_y"; Plan.name := "Pro Yearly"; Plan.type := PlanTypes.YEARLY;
     Plan.stripePriceId := None; Plan.isActive := true |}.

Definition world_with (catalog : list Plan.doc) : World :=
  {| users := users Sample.world; plans := catalog; now := now Sample.world;
     trace := []; console := [] |}.

(** An invoice of the subscription of [bob]. *)
Definition invoice_bob : Stripe.Object :=
  {| Stripe.id := "in_1"; Stripe.subscription := Some "sub_bob";
     Stripe.customer := Some "cus_bob"; Stripe.metadata := None;
     Stripe.status := "paid"; Stripe.current_period_end := None;
     Stripe.items_data := [] |}.

(** A completed checkout in payment mode: no subscription comes with it. *)
Definition session_one_off : Stripe.Object :=
  {| Stripe.id := "cs_3"; Stripe.subscription := None;
     Stripe.customer := Some "cus_bob"; Stripe.metadata := None;
     Stripe.status := "complete"; Stripe.current_period_end := None;
     Stripe.items_data := [] |}.

(** The subscription [id] in state [status], with the line items given. *)
Definition subscription (id status : string) (items : list Stripe.Item) : Stripe.Object :=
  {| Stripe.id := id; Stripe.subscription := None; Stripe.customer := Some "cus_bob";
     Stripe.metadata := None; Stripe.status := status;
     Stripe.current_period_end := Some 1734000000;
     Stripe.items_data := items |}.

Definition item_yearly : Stripe.Item :=
  {| Stripe.item_id := "si_1"; Stripe.price_id := "price_y" |}.

Definition event_of (body : string) : Stripe.Event :=
  if String.eqb body "invoice bob" then
    {| Stripe.type := "invoice.payment_succeeded"; Stripe.data_object := invoice_bob |}
  else if String.eqb body "checkout one-off" then
    {| Stripe.type := "checkout.session.completed"; Stripe.data_object := session_one_off |}
  else if String.eqb body "bob goes yearly" then
    {| Stripe.type := "customer.subscription.updated";
       Stripe.data_object := subscription "sub_bob" "active" [item_yearly] |}
  else if String.eqb body "bob without items" then
    {| Stripe.type := "customer.subscription.updated";
       Stripe.data_object := subscription "sub_bob" "past_due" [] |}
  else if String.eqb body "stranger updated" then
    {| Stripe.type := "customer.subscription.updated";
       Stripe.data_object := subscription "sub_else" "active" [item_yearly] |}
  else Sample.event_of body.

Definition constructEvent (body : string) (sig : option string) (secret : string)
  : JSError + Stripe.Event :=
  if strict_eq secret sig then inr (event_of body)
  else inl (StripeError "No signatures found matching the expected signature for payload.").

Definition stripe_up : Stripe.sdk :=
  {| Stripe.customers_create := Stripe.customers_create Sample.stripe_up;
     Stripe.checkout_sessions_create := Stripe.checkout_sessions_create Sample.stripe_up;
     Stripe.subscriptions_retrieve := Stripe.subscriptions_retrieve Sample.stripe_up;
     Stripe.subscriptions_update := Stripe.subscriptions_update Sample.stripe_up;
     Stripe.webhooks_constructEvent := constructEvent |}.

Definition portal_up (params : StripePortal.Params) : JSError + StripePortal.Session :=
  inr {| StripePortal.url := "https://billing.example/p/" ++ StripePortal.customer params |}.

Definition portal_down (params : StripePortal.Params) : JSError + StripePortal.Session :=
  inl (StripeError "").

End Demo.

(** ** Well-formed inputs *)

Definition is_hex_digit (c : Ascii.ascii) : bool :=
  existsb (Ascii.eqb c) (list_ascii_of_string "0123456789abcdefABCDEF").

(** The text of an ObjectId: 24 hexadecimal digits.  Mongoose casts an
    identifier before it queries and rejects the query with a cast error when
    the identifier has no such form.  The collections above are queried with
    the identifier as it is, so a property of a handler that takes an
    identifier from a request or from an event states this form as a
    hypothesis. *)
Definition well_formed_id (s : string) : bool :=
  Nat.eqb (String.length s) 24 && forallb is_hex_digit (list_ascii_of_string s).

(** The seconds that [new Date(seconds * 1000)] turns into a valid date: a
    [Date] holds at most 8.64e15 milliseconds on either side of the epoch.
    The schema does not store an invalid date, so a property that states the
    stored expiry takes a period end in this range as a hypothesis. *)
Definition date_range (seconds : Z) : bool :=
  (-8640000000000 <=? seconds) && (seconds <=? 8640000000000).

(** A record whose [currentPlanId] is not a populated plan document: it is
    absent or a bare identifier, as the webhook assigns it. *)
Definition bare_plan_ref (u : User.doc) : bool :=
  match User.currentPlanId u with
  | Some (RefDoc _) => false
  | _ => true
  end.

(** ** Sample data with well-formed identifiers *)

Module Hex.

Definition retired : Plan.doc :=
  {| Plan._id := "64b7f0a1c2d3e4f5a6b7c8d9"; Plan.name := "Legacy";
     Plan.type := PlanTypes.MONTHLY; Plan.stripePriceId := Some "price_old";
     Plan.isActive := false |}.

Definition world : World :=
  Demo.world_with [Sample.monthly; Sample.yearly; retired].

(** A completed checkout for an account that the store holds no more. *)
Definition session_ghost : Stripe.Object :=
  {| Stripe.id := "cs_4"; Stripe.subscription := Some "sub_ghost";
     Stripe.customer := Some "cus_ghost";
     Stripe.metadata := Some {| Stripe.userId := Some "64b7f0a1c2d3e4f5a6b7c8d0";
                                Stripe.planId := Some "64b7f0a1c2d3e4f5a6b7c8d9";
                                Stripe.planType := Some PlanTypes.MONTHLY |};
     Stripe.status := "complete"; Stripe.current_period_end := None;
     Stripe.items_data := [] |}.

Definition constructEvent (body : string) (sig : option string) (secret : string)
  : JSError + Stripe.Event :=
  if strict_eq secret sig then
    inr {| Stripe.type := "checkout.session.completed";
           Stripe.data_object := session_ghost |}
  else inl (StripeError "No signatures found matching the expected signature for payload.").

Definition stripe_up : Stripe.sdk :=
  {| Stripe.customers_create := Stripe.customers_create Sample.stripe_up;
     Stripe.checkout_sessions_create := Stripe.checkout_sessions_create Sample.stripe_up;
     Stripe.subscriptions_retrieve := Stripe.subscriptions_retrieve Sample.stripe_up;
     Stripe.subscriptions_update := Stripe.subscriptions_update Sample.stripe_up;
     Stripe.webhooks_constructEvent := constructEvent |}.

(** The world after [alice], a new account, has completed the checkout of the
    monthly plan, and her record as the store then holds it. *)
Definition world_alice_subscribed : World :=
  final (handleStripeWebhook Sample.stripe_up Sample.secret
           (Sample.signed "checkout alice") Sample.new_world).

Definition alice_subscribed : User.doc :=
  assign_checkout (Sample.subscription_of "sub_alice") "cus_alice"
    Sample.monthly Sample.alice.

End Hex.

(** * Properties *)

(** Unfolds the operations of the monad, and nothing of the collections. *)
Ltac run_monad :=
  cbv beta iota zeta delta
    [bind ret throw gets try_catch gateway emit console_write
     User_save User_findById User_findOne_stripeSubscriptionId
     Plan_findById Plan_findOne Date_now outcome final
     with_users with_trace with_console];
  cbn [users plans now trace console fst snd negb].

(** Closes a goal [exists added, t = trace w ++ added /\ ...] once the trace
    [t] has been computed. *)
Ltac added_effects :=
  first
    [ exists (@nil Effect); split; [symmetry; apply app_nil_r|];
      split; [reflexivity | simpl; lia]
    | eexists [_]; split; [reflexivity|]; split; [reflexivity | simpl; lia]
    | eexists [_; _]; split; [rewrite <- app_assoc; reflexivity|];
      split; [reflexivity | simpl; lia] ].

(** ** JavaScript values *)

Lemma strict_neq_true (a : option string) (b : string) :
  a <> Some b -> strict_neq a b = true.
Proof.
  destruct a as [s|]; simpl; intros H; [|reflexivity].
  destruct (String.eqb_spec s b) as [->|]; [now elim H | reflexivity].
Qed.

Lemma strict_eq_true (a : string) (b : option string) :
  strict_eq a b = true <-> b = Some a.
Proof.
  destruct b as [s|]; simpl; [|split; discriminate].
  rewrite String.eqb_eq. split; congruence.
Qed.

Lemma nonempty_of_string (s : string) :
  s <> "" -> nonempty (Some s) = Some s.
Proof.
  intros H. simpl. destruct (String.eqb_spec s ""); [contradiction | reflexivity].
Qed.

Lemma truthy_false_nonempty (v : option string) :
  truthy v = false -> nonempty v = None.
Proof. unfold truthy. destruct (nonempty v); [discriminate | reflexivity]. Qed.

(** ** The collections *)

Lemma User_findById_id (coll : list User.doc) (id : option ObjectId) (u : User.doc) :
  User.findById coll id = Some u -> id = Some (User._id u).
Proof.
  destruct id as [i|]; simpl; [|discriminate].
  intros H. apply find_some in H. destruct H as [_ H].
  apply String.eqb_eq in H. now subst.
Qed.

Lemma Plan_findById_id (coll : list Plan.doc) (id : option ObjectId) (p : Plan.doc) :
  Plan.findById coll id = Some p -> id = Some (Plan._id p).
Proof.
  destruct id as [i|]; simpl; [|discriminate].
  intros H. apply find_some in H. destruct H as [_ H].
  apply String.eqb_eq in H. now subst.
Qed.

Lemma updateOne_forallb (P : User.doc -> bool) (id : ObjectId)
  (assign : User.doc -> User.doc) (coll : list User.doc) :
  (forall u, In u coll -> User._id u = id -> P (assign u) = true) ->
  forallb P coll = true ->
  forallb P (User.updateOne id assign coll) = true.
Proof.
  induction coll as [|u rest IH]; simpl; intros Hassign Hall; [reflexivity|].
  apply andb_prop in Hall. destruct Hall as [Hu Hrest].
  destruct (String.eqb_spec (User._id u) id) as [Heq|Hne]; simpl.
  - rewrite Hrest, (Hassign u); auto.
  - rewrite Hu. apply IH; auto.
Qed.

Lemma updateOne_findById (id : ObjectId) (assign : User.doc -> User.doc)
  (coll : list User.doc) (u : User.doc) :
  (forall d, User._id (assign d) = User._id d) ->
  User.findById coll (Some id) = Some u ->
  User.findById (User.updateOne id assign coll) (Some id) = Some (assign u).
Proof.
  intros Hid. induction coll as [|d rest IH]; simpl; [discriminate|].
  destruct (String.eqb_spec (User._id d) id) as [Heq|Hne].
  - intros [= ->]. simpl. rewrite Hid, Heq, String.eqb_refl. reflexivity.
  - intros H. simpl. destruct (String.eqb_spec (User._id d) id); [contradiction|].
    now apply IH.
Qed.

Lemma updateOne_twice (id : ObjectId) (assign : User.doc -> User.doc)
  (coll : list User.doc) :
  (forall d, User._id (assign d) = User._id d) ->
  (forall d, assign (assign d) = assign d) ->
  User.updateOne id assign (User.updateOne id assign coll)
  = User.updateOne id assign coll.
Proof.
  intros Hid Hidem. induction coll as [|d rest IH]; simpl; [reflexivity|].
  destruct (String.eqb_spec (User._id d) id) as [Heq|Hne]; simpl.
  - rewrite Hid, Heq, String.eqb_refl, Hidem. reflexivity.
  - destruct (String.eqb_spec (User._id d) id); [contradiction|].
    now rewrite IH.
Qed.

Lemma updateOne_Forall2 (R : User.doc -> User.doc -> Prop) (id : ObjectId)
  (assign : User.doc -> User.doc) (coll : list User.doc) :
  (forall d, R d d) ->
  (forall d, R d (assign d)) ->
  Forall2 R coll (User.updateOne id assign coll).
Proof.
  intros Hrefl Hassign. induction coll as [|d rest IH]; simpl; [constructor|].
  destruct (String.eqb (User._id d) id).
  - constructor; [apply Hassign|]. clear IH. induction rest; constructor; auto.
  - constructor; auto.
Qed.

(** ** C1 *)

(** C1. A user who has no subscription reference, or whose status is not
    exactly [active], or whose plan kind is not exactly the monthly one, is
    refused by [upgradeToYearly] with the precondition error (BAD_REQUEST,
    "You must have an active Monthly plan to upgrade to Yearly."); the world
    is left exactly as it was, so that no request went to the provider and no
    record was written. *)
Theorem upgradeToYearly_refused (stripe : Stripe.sdk) (req : UpgradeReq) (w : World) :
  truthy (User.stripeSubscriptionId (upgrade_user req)) = false
  \/ User.subscriptionStatus (upgrade_user req) <> Some "active"
  \/ User.currentPlanType (upgrade_user req) <> Some PlanTypes.MONTHLY ->
  outcome (upgradeToYearly stripe req w)
  = inl (ApiError HttpStatusCode.BAD_REQUEST
           "You must have an active Monthly plan to upgrade to Yearly.")
  /\ final (upgradeToYearly stripe req w) = w
  /\ filter is_gateway_call (trace (final (upgradeToYearly stripe req w)))
     = filter is_gateway_call (trace w)
  /\ users (final (upgradeToYearly stripe req w)) = users w.
Proof.
  intros H.
  assert (Hguard : upgrade_guard (upgrade_user req) = true).
  { unfold upgrade_guard. destruct H as [H|[H|H]].
    - rewrite H. reflexivity.
    - rewrite (strict_neq_true _ _ H). now rewrite orb_true_r.
    - rewrite (strict_neq_true _ _ H). now rewrite orb_true_r. }
  unfold upgradeToYearly. rewrite Hguard. repeat split.
Qed.

Lemma upgradeToYearly_refused_witness :
  User.subscriptionStatus (upgrade_user {| upgrade_user := Sample.alice |}) <> Some "active"
  /\ final (upgradeToYearly Sample.stripe_up {| upgrade_user := Sample.alice |} Sample.world)
     = Sample.world.
Proof.
  split; [discriminate|].
  apply (upgradeToYearly_refused Sample.stripe_up {| upgrade_user := Sample.alice |}
           Sample.world).
  right; left; discriminate.
Defined.

(** ** C9 *)

Lemma well_formed_id_nonempty (s : string) :
  well_formed_id s = true -> s <> "".
Proof. intros H ->. discriminate H. Qed.

(** C9. When the plan identifier of the request, a well-formed identifier,
    names no plan of the catalog, or names a plan that is not active,
    [createCheckoutSession] throws the invalid-plan error (BAD_REQUEST,
    "Selected plan not found or is inactive.") and leaves the world exactly as
    it was: nothing was sent to the provider and no record was written. *)
Theorem createCheckoutSession_invalid_plan (stripe : Stripe.sdk) (url : string)
  (req : CheckoutReq) (w : World) (id : ObjectId) :
  body_planId req = Some id ->
  well_formed_id id = true ->
  Plan.findById (plans w) (Some id) = None
  \/ (exists p, Plan.findById (plans w) (Some id) = Some p /\ Plan.isActive p = false) ->
  outcome (createCheckoutSession stripe url req w)
  = inl (ApiError HttpStatusCode.BAD_REQUEST "Selected plan not found or is inactive.")
  /\ final (createCheckoutSession stripe url req w) = w
  /\ trace (final (createCheckoutSession stripe url req w)) = trace w
  /\ users (final (createCheckoutSession stripe url req w)) = users w.
Proof.
  intros Hid Hform Hplan.
  pose proof (well_formed_id_nonempty _ Hform) as Hne.
  assert (Hrun : createCheckoutSession stripe url req w = (inl plan_invalid, w)).
  { unfold createCheckoutSession. cbv zeta. rewrite Hid.
    unfold truthy. rewrite (nonempty_of_string _ Hne). run_monad.
    destruct Hplan as [Hnone|[p [Hsome Hinactive]]].
    - rewrite Hnone. reflexivity.
    - rewrite Hsome, Hinactive. reflexivity. }
  rewrite Hrun. repeat split.
Qed.

Lemma createCheckoutSession_invalid_plan_witness :
  well_formed_id "64b7f0a1c2d3e4f5a6b7c8d9" = true
  /\ Plan.findById (plans Hex.world) (Some "64b7f0a1c2d3e4f5a6b7c8d9") = Some Hex.retired
  /\ outcome (createCheckoutSession Sample.stripe_up "https://app.example"
                {| body_planId := Some "64b7f0a1c2d3e4f5a6b7c8d9";
                   checkout_user := Sample.alice |}
                Hex.world)
     = inl (ApiError HttpStatusCode.BAD_REQUEST "Selected plan not found or is inactive.")
  /\ final (createCheckoutSession Sample.stripe_up "https://app.example"
              {| body_planId := Some "64b7f0a1c2d3e4f5a6b7c8d9";
                 checkout_user := Sample.alice |}
              Hex.world)
     = Hex.world.
Proof.
  split; [reflexivity|]. split; [reflexivity|].
  destruct (createCheckoutSession_invalid_plan Sample.stripe_up "https://app.example"
              {| body_planId := Some "64b7f0a1c2d3e4f5a6b7c8d9";
                 checkout_user := Sample.alice |}
              Hex.world "64b7f0a1c2d3e4f5a6b7c8d9")
    as [Hout [Hfinal _]].
  - reflexivity.
  - reflexivity.
  - right. exists Hex.retired. split; reflexivity.
  - split; assumption.
Defined.

(** ** C8 *)

(** C8. A verified event whose kind is none of the four handled ones is
    acknowledged with OK and "Webhook Received"; the user collection, the
    catalog and the trace are what they were, so that no record is written
    (the only effect is one console line). *)
Theorem handleStripeWebhook_other_kind (stripe : Stripe.sdk) (secret : string)
  (req : WebhookReq) (w : World) (event : Stripe.Event) :
  Stripe.webhooks_constructEvent stripe (raw_body req) (header_stripe_signature req) secret
  = inr event ->
  Stripe.type event <> "checkout.session.completed" ->
  Stripe.type event <> "invoice.payment_succeeded" ->
  Stripe.type event <> "customer.subscription.updated" ->
  Stripe.type event <> "customer.subscription.deleted" ->
  outcome (handleStripeWebhook stripe secret req w)
  = inr {| res_status := HttpStatusCode.OK; res_body := send "Webhook Received" |}
  /\ is_success (HttpStatusCode.OK) = true
  /\ users (final (handleStripeWebhook stripe secret req w)) = users w
  /\ plans (final (handleStripeWebhook stripe secret req w)) = plans w
  /\ trace (final (handleStripeWebhook stripe secret req w)) = trace w.
Proof.
  intros Hev H1 H2 H3 H4.
  unfold handleStripeWebhook. rewrite Hev. unfold dispatch.
  apply String.eqb_neq in H1, H2, H3, H4. rewrite H1, H2, H3, H4.
  repeat split.
Qed.

Lemma handleStripeWebhook_other_kind_witness :
  Stripe.type (Sample.event_of "customer created") = "customer.created"
  /\ users (final (handleStripeWebhook Sample.stripe_up Sample.secret
                     (Sample.signed "customer created") Sample.world))
     = users Sample.world.
Proof.
  split; [reflexivity|].
  apply (handleStripeWebhook_other_kind Sample.stripe_up Sample.secret
           (Sample.signed "customer created") Sample.world
           (Sample.event_of "customer created"));
    solve [reflexivity | discriminate].
Defined.

(** ** Line 252 of [upgradeToYearly] *)

Lemma upgrade_guard_passes (user : User.doc) (sid : string) :
  User.stripeSubscriptionId user = Some sid ->
  sid <> "" ->
  User.subscriptionStatus user = Some "active" ->
  User.currentPlanType user = Some PlanTypes.MONTHLY ->
  upgrade_guard user = false /\ nonempty (User.stripeSubscriptionId user) = Some sid.
Proof.
  intros Hsub Hne Hstatus Htype. unfold upgrade_guard, truthy.
  rewrite Hsub, Hstatus, Htype, (nonempty_of_string _ Hne). split; reflexivity.
Qed.

(** Line 252 as it is written.  For a user who passes the guard
    (subscription reference, status [active], monthly kind) and whose
    [currentPlanId] is not null, once the active yearly plan with its price
    is found, [upgradeToYearly] retrieves the live subscription and takes the
    first line item whose price is the value of
    [user.currentPlanId.stripePriceId]: the price of the plan when the path
    is populated, [undefined] when it holds a bare identifier.  With such an item the update
    request for that item follows the retrieval; with none the handler throws
    INTERNAL_SERVER_ERROR "Could not find current subscription item." and the
    retrieval is the only request made.  No record is written either way. *)
Theorem upgradeToYearly_item_selection (stripe : Stripe.sdk) (req : UpgradeReq)
  (w : World) (sid : string) (ref : PlanRef) (yearlyPlan : Plan.doc)
  (yearlyPriceId : string) (current : Stripe.Object) :
  User.stripeSubscriptionId (upgrade_user req) = Some sid ->
  sid <> "" ->
  User.subscriptionStatus (upgrade_user req) = Some "active" ->
  User.currentPlanType (upgrade_user req) = Some PlanTypes.MONTHLY ->
  User.currentPlanId (upgrade_user req) = Some ref ->
  Plan.findOne (plans w) yearly_active = Some yearlyPlan ->
  nonempty (Plan.stripePriceId yearlyPlan) = Some yearlyPriceId ->
  Stripe.subscriptions_retrieve stripe sid = inr current ->
  users (final (upgradeToYearly stripe req w)) = users w
  /\ match find (fun item => strict_eq (Stripe.price_id item) (PlanRef_stripePriceId ref))
             (Stripe.items_data current) with
     | Some item =>
       PlanRef_stripePriceId ref = Some (Stripe.price_id item)
       /\ trace (final (upgradeToYearly stripe req w))
          = (trace w ++ [call_subscriptions_retrieve sid;
                         call_subscriptions_update sid
                           [(Stripe.item_id item, yearlyPriceId)]])%list
     | None =>
       outcome (upgradeToYearly stripe req w)
       = inl (ApiError HttpStatusCode.INTERNAL_SERVER_ERROR
                "Could not find current subscription item.")
       /\ trace (final (upgradeToYearly stripe req w))
          = (trace w ++ [call_subscriptions_retrieve sid])%list
     end.
Proof.
  intros Hsub Hne Hstatus Htype Href Hyearly Hprice Hretrieve.
  destruct (upgrade_guard_passes _ _ Hsub Hne Hstatus Htype) as [Hguard Hsid].
  unfold upgradeToYearly. cbv zeta. rewrite Hguard, Hsid. run_monad.
  rewrite Hyearly, Hprice. run_monad. rewrite Hretrieve, Href.
  unfold find_subscription_item.
  destruct (Stripe.items_data current) as [|item0 items] eqn:Hitems.
  - run_monad. cbn [find]. repeat split.
  - run_monad.
    destruct (find _ (item0 :: items)) as [item|] eqn:Hfind.
    + apply find_some in Hfind. destruct Hfind as [_ Hmatch].
      apply strict_eq_true in Hmatch.
      destruct (Stripe.subscriptions_update stripe sid _);
        run_monad; rewrite <- app_assoc; repeat split; assumption.
    + run_monad. repeat split.
Qed.

Lemma upgradeToYearly_item_selection_witness :
  Stripe.subscriptions_retrieve Sample.stripe_up "sub_bob" = inr (Sample.subscription_of "sub_bob")
  /\ trace (final (upgradeToYearly Sample.stripe_up
                     {| upgrade_user := Sample.bob_populated |} Sample.world))
     = [call_subscriptions_retrieve "sub_bob";
        call_subscriptions_update "sub_bob" [("si_1", "price_y")]].
Proof.
  split; [reflexivity|].
  apply (upgradeToYearly_item_selection Sample.stripe_up
           {| upgrade_user := Sample.bob_populated |} Sample.world "sub_bob"
           (RefDoc Sample.monthly) Sample.yearly "price_y"
           (Sample.subscription_of "sub_bob"));
    solve [reflexivity | discriminate].
Defined.

(** ** C10 *)

Lemma find_by_unique_key {A : Type} (key : A -> string) (coll : list A) (x : A) :
  unique_ids (map key coll) = true ->
  In x coll ->
  find (fun y => String.eqb (key y) (key x)) coll = Some x.
Proof.
  induction coll as [|d rest IH]; simpl; intros Huniq Hin; [contradiction|].
  apply andb_prop in Huniq. destruct Huniq as [Hfresh Hrest].
  destruct Hin as [->|Hin]; [now rewrite String.eqb_refl|].
  destruct (String.eqb_spec (key d) (key x)) as [Heq|Hne]; [|now apply IH].
  exfalso. apply negb_true_iff in Hfresh.
  assert (Hex : existsb (String.eqb (key d)) (map key rest) = true).
  { apply existsb_exists. exists (key x). split.
    - now apply in_map.
    - now apply String.eqb_eq. }
  congruence.
Qed.

Lemma findOne_findById (coll : list User.doc) (sid : string) (u : User.doc) :
  unique_ids (map User._id coll) = true ->
  User.findOne_stripeSubscriptionId coll sid = Some u ->
  User.findById coll (Some (User._id u)) = Some u.
Proof.
  intros Huniq Hfind. apply find_some in Hfind. destruct Hfind as [Hin _].
  now apply (find_by_unique_key User._id).
Qed.

Lemma updateOne_other (id id' : ObjectId) (assign : User.doc -> User.doc)
  (coll : list User.doc) :
  id' <> id ->
  (forall d, User._id (assign d) = User._id d) ->
  User.findById (User.updateOne id assign coll) (Some id') = User.findById coll (Some id').
Proof.
  intros Hne Hid. induction coll as [|d rest IH]; simpl; [reflexivity|].
  destruct (String.eqb_spec (User._id d) id) as [Heq|Hneq]; simpl.
  - rewrite Hid, Heq.
    destruct (String.eqb_spec id id') as [Hsame|_]; [now elim Hne | reflexivity].
  - destruct (String.eqb (User._id d) id'); [reflexivity | exact IH].
Qed.

(** C10. On a verified [customer.subscription.updated] event whose
    subscription is that of a stored user and carries a period end that a
    date can hold, when the price of the first line item is the price of no
    plan of the catalog, the stored record of that user takes the status of
    the event's subscription and expires at its period end, and keeps its
    plan reference and its plan kind (and its subscription and customer);
    the records of the other users are not touched. *)
Theorem subscription_updated_unknown_price (stripe : Stripe.sdk) (secret : string)
  (req : WebhookReq) (w : World) (event : Stripe.Event) (u : User.doc)
  (item0 : Stripe.Item) (items : list Stripe.Item) (seconds : Z) :
  Stripe.webhooks_constructEvent stripe (raw_body req) (header_stripe_signature req) secret
  = inr event ->
  Stripe.type event = "customer.subscription.updated" ->
  unique_ids (map User._id (users w)) = true ->
  User.findOne_stripeSubscriptionId (users w) (Stripe.id (Stripe.data_object event)) = Some u ->
  Stripe.current_period_end (Stripe.data_object event) = Some seconds ->
  date_range seconds = true ->
  Stripe.items_data (Stripe.data_object event) = item0 :: items ->
  Plan.findOne (plans w) (by_stripePriceId (Stripe.price_id item0)) = None ->
  (exists u',
     User.findById (users (final (handleStripeWebhook stripe secret req w)))
       (Some (User._id u)) = Some u'
     /\ User.subscriptionStatus u' = Some (Stripe.status (Stripe.data_object event))
     /\ User.subscriptionExpiresAt u' = Some (DateMs (seconds * 1000))
     /\ User.currentPlanId u' = User.currentPlanId u
     /\ User.currentPlanType u' = User.currentPlanType u
     /\ User.stripeSubscriptionId u' = User.stripeSubscriptionId u
     /\ User.stripeCustomerId u' = User.stripeCustomerId u)
  /\ forall id,
       id <> User._id u ->
       User.findById (users (final (handleStripeWebhook stripe secret req w))) (Some id)
       = User.findById (users w) (Some id).
Proof.
  intros Hev Htype Huniq Hfind Hend _ Hitems Hplan.
  assert (Husers : users (final (handleStripeWebhook stripe secret req w))
                   = User.updateOne (User._id u)
                       (assign_status_expiry (Stripe.data_object event)) (users w)).
  { unfold handleStripeWebhook. rewrite Hev. unfold dispatch. cbv zeta.
    rewrite Htype. cbn [String.eqb Ascii.eqb Bool.eqb].
    unfold on_customer_subscription_updated. run_monad.
    rewrite Hfind, Hitems. run_monad. rewrite Hplan. run_monad. reflexivity. }
  rewrite Husers. split.
  - exists (assign_status_expiry (Stripe.data_object event) u).
    split; [|unfold assign_status_expiry; rewrite Hend; repeat split].
    apply updateOne_findById; [reflexivity|].
    now apply (findOne_findById _ _ _ Huniq Hfind).
  - intros id Hne. now apply updateOne_other.
Qed.

Lemma subscription_updated_unknown_price_witness :
  Plan.findOne (plans Sample.world) (by_stripePriceId "price_x") = None
  /\ date_range 1705000000 = true
  /\ exists u',
    User.findById
      (users (final (handleStripeWebhook Sample.stripe_up Sample.secret
                       (Sample.signed "updated bob") Sample.world)))
      (Some "u_bob") = Some u'
    /\ User.subscriptionStatus u' = Some "past_due"
    /\ User.subscriptionExpiresAt u' = Some (DateMs 1705000000000)
    /\ User.currentPlanId u' = Some (RefId "plan_m")
    /\ User.currentPlanType u' = Some PlanTypes.MONTHLY.
Proof.
  split; [reflexivity|]. split; [reflexivity|].
  destruct (subscription_updated_unknown_price Sample.stripe_up Sample.secret
              (Sample.signed "updated bob") Sample.world
              (Sample.event_of "updated bob") Sample.bob
              {| Stripe.item_id := "si_1"; Stripe.price_id := "price_x" |} []
              1705000000 eq_refl eq_refl eq_refl eq_refl eq_refl eq_refl eq_refl eq_refl)
    as [[u' [Hfound [Hstatus [Hexpires [Hplan [Hkind _]]]]]] _].
  exists u'. repeat split; assumption.
Defined.

(** ** What each case of the webhook writes *)

Lemma on_checkout_session_completed_users (stripe : Stripe.sdk)
  (session : Stripe.Object) (w : World) (sid : string) :
  nonempty (Stripe.subscription session) = Some sid ->
  users (final (on_checkout_session_completed stripe session w))
  = match Stripe.subscriptions_retrieve stripe sid,
          Stripe.metadata session, Stripe.customer session with
    | inr subscription, Some metadata, Some customer =>
      match User.findById (users w) (Stripe.userId metadata),
            Plan.findById (plans w) (Stripe.planId metadata) with
      | Some user, Some plan =>
        User.updateOne (User._id user) (assign_checkout subscription customer plan) (users w)
      | _, _ => users w
      end
    | _, _, _ => users w
    end.
Proof.
  intros Hsid. unfold on_checkout_session_completed. rewrite Hsid. run_monad.
  destruct (Stripe.subscriptions_retrieve stripe sid) as [e|subscription];
    run_monad; [reflexivity|].
  destruct (Stripe.metadata session) as [metadata|]; run_monad; [|reflexivity].
  destruct (User.findById (users w) (Stripe.userId metadata)) as [user|];
    destruct (Plan.findById (plans w) (Stripe.planId metadata)) as [plan|];
    destruct (Stripe.customer session) as [customer|]; reflexivity.
Qed.

Lemma on_checkout_session_completed_no_subscription (stripe : Stripe.sdk)
  (session : Stripe.Object) (w : World) :
  nonempty (Stripe.subscription session) = None ->
  users (final (on_checkout_session_completed stripe session w)) = users w.
Proof.
  intros Hsid. unfold on_checkout_session_completed. rewrite Hsid. reflexivity.
Qed.

Lemma on_invoice_payment_succeeded_users (stripe : Stripe.sdk)
  (invoice : Stripe.Object) (w : World) :
  users (final (on_invoice_payment_succeeded stripe invoice w))
  = match nonempty (Stripe.subscription invoice) with
    | Some sid =>
      match Stripe.subscriptions_retrieve stripe sid with
      | inr subscription =>
        match User.findOne_stripeSubscriptionId (users w) (Stripe.id subscription) with
        | Some user =>
          User.updateOne (User._id user) (assign_status_expiry subscription) (users w)
        | None => users w
        end
      | inl _ => users w
      end
    | None => users w
    end.
Proof.
  unfold on_invoice_payment_succeeded.
  destruct (nonempty (Stripe.subscription invoice)) as [sid|]; run_monad; [|reflexivity].
  destruct (Stripe.subscriptions_retrieve stripe sid) as [e|subscription];
    run_monad; [reflexivity|].
  destruct (User.findOne_stripeSubscriptionId (users w) (Stripe.id subscription));
    reflexivity.
Qed.

Lemma on_customer_subscription_updated_users (updated : Stripe.Object) (w : World) :
  users (final (on_customer_subscription_updated updated w))
  = match User.findOne_stripeSubscriptionId (users w) (Stripe.id updated) with
    | Some user =>
      match Stripe.items_data updated with
      | item0 :: _ =>
        match Plan.findOne (plans w) (by_stripePriceId (Stripe.price_id item0)) with
        | Some newPlan =>
          User.updateOne (User._id user)
            (fun u => assign_plan newPlan (assign_status_expiry updated u)) (users w)
        | None => User.updateOne (User._id user) (assign_status_expiry updated) (users w)
        end
      | [] => User.updateOne (User._id user) (assign_status_expiry updated) (users w)
      end
    | None => users w
    end.
Proof.
  unfold on_customer_subscription_updated. run_monad.
  destruct (User.findOne_stripeSubscriptionId (users w) (Stripe.id updated)) as [user|];
    run_monad; [|reflexivity].
  destruct (Stripe.items_data updated) as [|item0 items]; run_monad; [reflexivity|].
  destruct (Plan.findOne (plans w) (by_stripePriceId (Stripe.price_id item0)));
    reflexivity.
Qed.

Lemma on_customer_subscription_deleted_users (deleted : Stripe.Object) (w : World) :
  users (final (on_customer_subscription_deleted deleted w))
  = match User.findOne_stripeSubscriptionId (users w) (Stripe.id deleted) with
    | Some user =>
      User.updateOne (User._id user)
        (assign_deleted
           (if truthy_num (Stripe.current_period_end deleted)
            then Date_of_seconds (Stripe.current_period_end deleted)
            else DateMs (now w)))
        (users w)
    | None => users w
    end.
Proof.
  unfold on_customer_subscription_deleted. run_monad.
  destruct (User.findOne_stripeSubscriptionId (users w) (Stripe.id deleted)) as [user|];
    run_monad; [|reflexivity].
  destruct (truthy_num (Stripe.current_period_end deleted)); reflexivity.
Qed.

(** The response of the webhook handler rests on its [dispatch]. *)
Lemma handleStripeWebhook_verified (stripe : Stripe.sdk) (secret : string)
  (req : WebhookReq) (w : World) (event : Stripe.Event) :
  Stripe.webhooks_constructEvent stripe (raw_body req) (header_stripe_signature req) secret
  = inr event ->
  final (handleStripeWebhook stripe secret req w) = final (dispatch stripe event w)
  /\ outcome (handleStripeWebhook stripe secret req w)
     = match outcome (dispatch stripe event w) with
       | inr _ => inr {| res_status := HttpStatusCode.OK;
                         res_body := send "Webhook Received" |}
       | inl e => inl e
       end.
Proof.
  intros Hev. unfold handleStripeWebhook. rewrite Hev. run_monad.
  destruct (dispatch stripe event w) as [[e|[]] w']; split; reflexivity.
Qed.

Lemma dispatch_kind (stripe : Stripe.sdk) (event : Stripe.Event) (kind : string) :
  Stripe.type event = kind ->
  dispatch stripe event
  = if String.eqb kind "checkout.session.completed" then
      on_checkout_session_completed stripe (Stripe.data_object event)
    else if String.eqb kind "invoice.payment_succeeded" then
      on_invoice_payment_succeeded stripe (Stripe.data_object event)
    else if String.eqb kind "customer.subscription.updated" then
      on_customer_subscription_updated (Stripe.data_object event)
    else if String.eqb kind "customer.subscription.deleted" then
      on_customer_subscription_deleted (Stripe.data_object event)
    else
      console_write Log ("Unhandled event type " ++ kind).
Proof. intros <-. reflexivity. Qed.

(** ** C5 *)

(** Remark.  The conditional of line 208 tests the period end for truth, so
    the number 0, which no subscription of the provider carries, is taken
    for an absent period end: the record of [bob] then expires at the
    current time of the world. *)
Lemma subscription_deleted_period_end_zero :
  Stripe.current_period_end (Stripe.data_object (Sample.event_of "deleted bob at 0"))
  = Some 0
  /\ User.findOne_stripeSubscriptionId (users Sample.world) "sub_bob" = Some Sample.bob
  /\ option_map User.subscriptionExpiresAt
       (User.findById
          (users (final (handleStripeWebhook Sample.stripe_up Sample.secret
                           (Sample.signed "deleted bob at 0") Sample.world)))
          (Some "u_bob"))
     = Some (Some (DateMs (now Sample.world)))
  /\ option_map User.subscriptionExpiresAt
       (User.findById
          (users (final (handleStripeWebhook Sample.stripe_up Sample.secret
                           (Sample.signed "deleted bob at 0") Sample.world)))
          (Some "u_bob"))
     <> Some (Some (Date_of_seconds (Some 0))).
Proof.
  repeat split; try reflexivity. vm_compute. discriminate.
Qed.

(** C5. On a verified [customer.subscription.deleted] event whose period end,
    when it carries one, is a time after the epoch that a date can hold: when
    a stored user has the subscription of the event, the record of that user
    loses its subscription reference, its plan reference and its plan kind,
    takes the status [canceled], and expires at the period end of the event
    when the event carries one and at the current time otherwise; the records
    of the other users are not touched.  When no user has that subscription
    the collection is unchanged. *)
Theorem subscription_deleted_effect (stripe : Stripe.sdk) (secret : string)
  (req : WebhookReq) (w : World) (event : Stripe.Event) :
  Stripe.webhooks_constructEvent stripe (raw_body req) (header_stripe_signature req) secret
  = inr event ->
  Stripe.type event = "customer.subscription.deleted" ->
  unique_ids (map User._id (users w)) = true ->
  (forall seconds,
     Stripe.current_period_end (Stripe.data_object event) = Some seconds ->
     0 < seconds /\ date_range seconds = true) ->
  match User.findOne_stripeSubscriptionId (users w) (Stripe.id (Stripe.data_object event)) with
  | Some u =>
    (exists u',
       User.findById (users (final (handleStripeWebhook stripe secret req w)))
         (Some (User._id u)) = Some u'
       /\ User.stripeSubscriptionId u' = None
       /\ User.currentPlanId u' = None
       /\ User.currentPlanType u' = None
       /\ User.subscriptionStatus u' = Some "canceled"
       /\ User.subscriptionExpiresAt u'
          = Some (match Stripe.current_period_end (Stripe.data_object event) with
                  | Some seconds => DateMs (seconds * 1000)
                  | None => DateMs (now w)
                  end)
       /\ User.stripeCustomerId u' = User.stripeCustomerId u)
    /\ forall id,
         id <> User._id u ->
         User.findById (users (final (handleStripeWebhook stripe secret req w))) (Some id)
         = User.findById (users w) (Some id)
  | None => users (final (handleStripeWebhook stripe secret req w)) = users w
  end.
Proof.
  intros Hev Htype Huniq Hend.
  destruct (handleStripeWebhook_verified stripe secret req w event Hev) as [-> _].
  rewrite (dispatch_kind stripe event _ Htype). cbn [String.eqb Ascii.eqb Bool.eqb].
  rewrite on_customer_subscription_deleted_users.
  destruct (User.findOne_stripeSubscriptionId (users w) _) as [u|] eqn:Hfind;
    [|reflexivity].
  pose proof (findOne_findById _ _ _ Huniq Hfind) as Hstored.
  set (expires := if truthy_num _ then _ else _).
  split.
  - exists (assign_deleted expires u). split; [|repeat split].
    + apply updateOne_findById; [reflexivity | assumption].
    + subst expires.
      destruct (Stripe.current_period_end _) as [seconds|]; simpl; [|reflexivity].
      destruct (Hend seconds eq_refl) as [Hpos _].
      destruct (Z.eqb_spec seconds 0) as [->|_]; [lia | reflexivity].
  - intros id Hne. now apply updateOne_other.
Qed.

Lemma subscription_deleted_effect_witness :
  Stripe.type (Sample.event_of "deleted bob") = "customer.subscription.deleted"
  /\ exists u',
    User.findById
      (users (final (handleStripeWebhook Sample.stripe_up Sample.secret
                       (Sample.signed "deleted bob") Sample.world)))
      (Some "u_bob") = Some u'
    /\ User.stripeSubscriptionId u' = None
    /\ User.subscriptionStatus u' = Some "canceled"
    /\ User.subscriptionExpiresAt u' = Some (DateMs 1702592000000).
Proof.
  split; [reflexivity|].
  assert (Hend : forall seconds,
            Stripe.current_period_end
              (Stripe.data_object (Sample.event_of "deleted bob")) = Some seconds ->
            0 < seconds /\ date_range seconds = true).
  { intros seconds H. injection H as <-. split; [lia | reflexivity]. }
  pose proof (subscription_deleted_effect Sample.stripe_up Sample.secret
                (Sample.signed "deleted bob") Sample.world
                (Sample.event_of "deleted bob") eq_refl eq_refl eq_refl Hend) as H.
  change (User.findOne_stripeSubscriptionId (users Sample.world)
            (Stripe.id (Stripe.data_object (Sample.event_of "deleted bob"))))
    with (Some Sample.bob) in H.
  destruct H as [[u' [Hfound [Hsub [_ [_ [Hstatus [Hexpires _]]]]]]] _].
  exists u'. repeat split; assumption.
Defined.

(** ** C3 *)

Lemma assign_checkout_id (subscription : Stripe.Object) (customer : string)
  (plan : Plan.doc) (d : User.doc) :
  User._id (assign_checkout subscription customer plan d) = User._id d.
Proof. reflexivity. Qed.

(** The six assignments set absolute values: doing them again changes
    nothing. *)
Lemma assign_checkout_twice (subscription : Stripe.Object) (customer : string)
  (plan : Plan.doc) (d : User.doc) :
  assign_checkout subscription customer plan (assign_checkout subscription customer plan d)
  = assign_checkout subscription customer plan d.
Proof. reflexivity. Qed.

(** No case of the webhook writes the catalog. *)
Lemma dispatch_plans (stripe : Stripe.sdk) (event : Stripe.Event) (w : World) :
  plans (final (dispatch stripe event w)) = plans w.
Proof.
  unfold dispatch. cbv zeta.
  destruct (String.eqb (Stripe.type event) "checkout.session.completed").
  { unfold on_checkout_session_completed.
    destruct (nonempty _) as [sid|]; run_monad; [|reflexivity].
    destruct (Stripe.subscriptions_retrieve stripe sid); run_monad; [reflexivity|].
    destruct (Stripe.metadata _) as [metadata|]; run_monad; [|reflexivity].
    destruct (User.findById (users w) (Stripe.userId metadata));
      destruct (Plan.findById (plans w) (Stripe.planId metadata));
      destruct (Stripe.customer (Stripe.data_object event)); reflexivity. }
  destruct (String.eqb (Stripe.type event) "invoice.payment_succeeded").
  { unfold on_invoice_payment_succeeded.
    destruct (nonempty _) as [sid|]; run_monad; [|reflexivity].
    destruct (Stripe.subscriptions_retrieve stripe sid); run_monad; [reflexivity|].
    destruct (User.findOne_stripeSubscriptionId _ _); reflexivity. }
  destruct (String.eqb (Stripe.type event) "customer.subscription.updated").
  { unfold on_customer_subscription_updated. run_monad.
    destruct (User.findOne_stripeSubscriptionId _ _); run_monad; [|reflexivity].
    destruct (Stripe.items_data _); run_monad; [reflexivity|].
    destruct (Plan.findOne _ _); reflexivity. }
  destruct (String.eqb (Stripe.type event) "customer.subscription.deleted").
  { unfold on_customer_subscription_deleted. run_monad.
    destruct (User.findOne_stripeSubscriptionId _ _); run_monad; [|reflexivity].
    destruct (truthy_num _); reflexivity. }
  reflexivity.
Qed.

(** C3. Handling a verified [checkout.session.completed] event that carries a
    subscription a second time, right after the first and against the same
    answers of the provider, leaves the user collection exactly as the first
    handling left it, whatever the collection was before. *)
Theorem checkout_completed_idempotent (stripe : Stripe.sdk) (secret : string)
  (req : WebhookReq) (w : World) (event : Stripe.Event) :
  Stripe.webhooks_constructEvent stripe (raw_body req) (header_stripe_signature req) secret
  = inr event ->
  Stripe.type event = "checkout.session.completed" ->
  truthy (Stripe.subscription (Stripe.data_object event)) = true ->
  users (final (handleStripeWebhook stripe secret req
                  (final (handleStripeWebhook stripe secret req w))))
  = users (final (handleStripeWebhook stripe secret req w)).
Proof.
  intros Hev Htype Hsub.
  unfold truthy in Hsub.
  destruct (nonempty (Stripe.subscription (Stripe.data_object event))) as [sid|] eqn:Hsid;
    [clear Hsub | discriminate].
  destruct (handleStripeWebhook_verified stripe secret req w event Hev) as [Hw1 _].
  set (w1 := final (handleStripeWebhook stripe secret req w)) in *.
  destruct (handleStripeWebhook_verified stripe secret req w1 event Hev) as [-> _].
  assert (Hplans : plans w1 = plans w) by (rewrite Hw1; apply dispatch_plans).
  rewrite (dispatch_kind stripe event _ Htype) in *.
  cbn [String.eqb Ascii.eqb Bool.eqb] in *.
  rewrite (on_checkout_session_completed_users stripe _ w1 sid Hsid), Hplans.
  assert (Husers : users w1 = _) by
    (rewrite Hw1; apply (on_checkout_session_completed_users stripe _ w sid Hsid)).
  destruct (Stripe.subscriptions_retrieve stripe sid) as [e|subscription]; [reflexivity|].
  destruct (Stripe.metadata (Stripe.data_object event)) as [metadata|]; [|reflexivity].
  destruct (Stripe.customer (Stripe.data_object event)) as [customer|]; [|reflexivity].
  destruct (Plan.findById (plans w) (Stripe.planId metadata)) as [plan|].
  - destruct (User.findById (users w) (Stripe.userId metadata)) as [user|] eqn:Huser.
    + pose proof (User_findById_id _ _ _ Huser) as Hid.
      rewrite Hid in Huser |- *.
      rewrite Husers at 1.
      rewrite (updateOne_findById _ _ _ _ (assign_checkout_id subscription customer plan) Huser).
      rewrite assign_checkout_id, Husers.
      apply updateOne_twice; [apply assign_checkout_id | apply assign_checkout_twice].
    + rewrite Husers, Huser. reflexivity.
  - destruct (User.findById (users w) (Stripe.userId metadata)) as [user|] eqn:Huser;
      rewrite Husers, Huser; reflexivity.
Qed.

Lemma checkout_completed_idempotent_witness :
  Stripe.type (Sample.event_of "checkout alice") = "checkout.session.completed"
  /\ users (final (handleStripeWebhook Sample.stripe_up Sample.secret
                     (Sample.signed "checkout alice")
                     (final (handleStripeWebhook Sample.stripe_up Sample.secret
                               (Sample.signed "checkout alice") Sample.world))))
     = users (final (handleStripeWebhook Sample.stripe_up Sample.secret
                       (Sample.signed "checkout alice") Sample.world)).
Proof.
  split; [reflexivity|].
  apply (checkout_completed_idempotent Sample.stripe_up Sample.secret
           (Sample.signed "checkout alice") Sample.world
           (Sample.event_of "checkout alice"));
    reflexivity.
Defined.

(** The values written are those of the subscription as the provider reports
    it at the time of handling: when the provider's answer has changed between
    two deliveries, the later handling overwrites the record with the later
    answer. *)
Lemma checkout_completed_follows_provider (stripe stripe' : Stripe.sdk)
  (secret : string) (req : WebhookReq) (w : World) (event : Stripe.Event)
  (sid customer : string) (metadata : Stripe.Metadata) (user : User.doc)
  (plan : Plan.doc) (subscription' : Stripe.Object) :
  Stripe.webhooks_constructEvent stripe' (raw_body req) (header_stripe_signature req) secret
  = inr event ->
  Stripe.type event = "checkout.session.completed" ->
  nonempty (Stripe.subscription (Stripe.data_object event)) = Some sid ->
  Stripe.metadata (Stripe.data_object event) = Some metadata ->
  Stripe.customer (Stripe.data_object event) = Some customer ->
  Stripe.subscriptions_retrieve stripe' sid = inr subscription' ->
  User.findById (users (final (handleStripeWebhook stripe secret req w)))
    (Stripe.userId metadata) = Some user ->
  Plan.findById (plans w) (Stripe.planId metadata) = Some plan ->
  User.findById
    (users (final (handleStripeWebhook stripe' secret req
                     (final (handleStripeWebhook stripe secret req w)))))
    (Stripe.userId metadata)
  = Some (assign_checkout subscription' customer plan user).
Proof.
  intros Hev Htype Hsid Hmeta Hcust Hretrieve Huser Hplan.
  set (w1 := final (handleStripeWebhook stripe secret req w)) in *.
  assert (Hplans : plans w1 = plans w).
  { subst w1. unfold handleStripeWebhook.
    destruct (Stripe.webhooks_constructEvent stripe _ _ _) as [e|event0];
      run_monad; [reflexivity|].
    pose proof (dispatch_plans stripe event0 w) as H. unfold final in H.
    destruct (dispatch stripe event0 w) as [[e|[]] w']; exact H. }
  destruct (handleStripeWebhook_verified stripe' secret req w1 event Hev) as [-> _].
  rewrite (dispatch_kind stripe' event _ Htype). cbn [String.eqb Ascii.eqb Bool.eqb].
  rewrite (on_checkout_session_completed_users stripe' _ w1 sid Hsid).
  rewrite Hretrieve, Hmeta, Hcust, Huser, Hplans, Hplan.
  pose proof (User_findById_id _ _ _ Huser) as Hid. rewrite Hid in Huser |- *.
  now apply updateOne_findById.
Qed.

(** ** C4 *)

(** C4, as stated, fails when the provider cannot be reached while a verified
    event is handled: the signature of the payload passes, the retrieval of
    the subscription fails, and the handler throws the provider's error
    instead of acknowledging with success. *)
Lemma verified_event_not_acknowledged :
  Stripe.webhooks_constructEvent Sample.stripe_down
    (raw_body (Sample.signed "checkout alice"))
    (header_stripe_signature (Sample.signed "checkout alice")) Sample.secret
  = inr (Sample.event_of "checkout alice")
  /\ outcome (handleStripeWebhook Sample.stripe_down Sample.secret
                (Sample.signed "checkout alice") Sample.world)
     = inl (StripeError "connection lost")
  /\ forall res : Response,
       outcome (handleStripeWebhook Sample.stripe_down Sample.secret
                  (Sample.signed "checkout alice") Sample.world)
       <> inr res.
Proof.
  repeat split; try reflexivity. intros res. vm_compute. discriminate.
Qed.

(** When every retrieval asked of the provider succeeds and a checkout session
    carries its metadata and its customer, no case of the webhook throws. *)
Lemma dispatch_returns (stripe : Stripe.sdk) (event : Stripe.Event) (w : World) :
  (forall sid, nonempty (Stripe.subscription (Stripe.data_object event)) = Some sid ->
     exists subscription, Stripe.subscriptions_retrieve stripe sid = inr subscription) ->
  (Stripe.type event = "checkout.session.completed" ->
     Stripe.metadata (Stripe.data_object event) <> None
     /\ Stripe.customer (Stripe.data_object event) <> None) ->
  outcome (dispatch stripe event w) = inr tt.
Proof.
  intros Hretrieve Hsession. unfold dispatch. cbv zeta.
  destruct (String.eqb_spec (Stripe.type event) "checkout.session.completed") as [Hkind|_].
  { destruct (Hsession Hkind) as [Hmeta Hcust].
    unfold on_checkout_session_completed.
    destruct (nonempty _) as [sid|]; run_monad; [|reflexivity].
    destruct (Hretrieve sid eq_refl) as [subscription ->]. run_monad.
    destruct (Stripe.metadata _) as [metadata|]; [|now elim Hmeta]. run_monad.
    destruct (Stripe.customer (Stripe.data_object event)) as [customer|];
      [|now elim Hcust].
    destruct (User.findById (users w) (Stripe.userId metadata));
      destruct (Plan.findById (plans w) (Stripe.planId metadata)); reflexivity. }
  destruct (String.eqb (Stripe.type event) "invoice.payment_succeeded").
  { unfold on_invoice_payment_succeeded.
    destruct (nonempty _) as [sid|]; run_monad; [|reflexivity].
    destruct (Hretrieve sid eq_refl) as [subscription ->]. run_monad.
    destruct (User.findOne_stripeSubscriptionId _ _); reflexivity. }
  destruct (String.eqb (Stripe.type event) "customer.subscription.updated").
  { unfold on_customer_subscription_updated. run_monad.
    destruct (User.findOne_stripeSubscriptionId _ _); run_monad; [|reflexivity].
    destruct (Stripe.items_data _); run_monad; [reflexivity|].
    destruct (Plan.findOne _ _); reflexivity. }
  destruct (String.eqb (Stripe.type event) "customer.subscription.deleted").
  { unfold on_customer_subscription_deleted. run_monad.
    destruct (User.findOne_stripeSubscriptionId _ _); run_monad; [|reflexivity].
    destruct (truthy_num _); reflexivity. }
  reflexivity.
Qed.

(** A checkout whose user or plan is missing is logged and dropped. *)
Lemma checkout_missing_entity_dropped (stripe : Stripe.sdk) (session : Stripe.Object)
  (w : World) (sid : string) (subscription : Stripe.Object) (metadata : Stripe.Metadata) :
  nonempty (Stripe.subscription session) = Some sid ->
  Stripe.subscriptions_retrieve stripe sid = inr subscription ->
  Stripe.metadata session = Some metadata ->
  User.findById (users w) (Stripe.userId metadata) = None
  \/ Plan.findById (plans w) (Stripe.planId metadata) = None ->
  outcome (on_checkout_session_completed stripe session w) = inr tt
  /\ users (final (on_checkout_session_completed stripe session w)) = users w
  /\ In (Error, "User or Plan not found for checkout.session.completed.")
       (console (final (on_checkout_session_completed stripe session w))).
Proof.
  intros Hsid Hretrieve Hmeta Hmissing.
  unfold on_checkout_session_completed. rewrite Hsid. run_monad.
  rewrite Hretrieve. run_monad. rewrite Hmeta. run_monad.
  assert (Hlast : forall (l : list (Level * string)) x, In x (l ++ [x])%list)
    by (intros l x; apply in_or_app; right; now left).
  destruct Hmissing as [Huser|Hplan].
  - rewrite Huser.
    destruct (Plan.findById (plans w) (Stripe.planId metadata));
      cbn [fst snd console users]; repeat split; apply Hlast.
  - rewrite Hplan.
    destruct (User.findById (users w) (Stripe.userId metadata));
      cbn [fst snd console users]; repeat split; apply Hlast.
Qed.

(** A checkout or an invoice whose subscription the provider fails to return
    makes the handler throw the provider's error. *)
Lemma dispatch_retrieve_fails (stripe : Stripe.sdk) (event : Stripe.Event) (w : World)
  (sid : string) (e : JSError) :
  Stripe.type event = "checkout.session.completed"
  \/ Stripe.type event = "invoice.payment_succeeded" ->
  nonempty (Stripe.subscription (Stripe.data_object event)) = Some sid ->
  Stripe.subscriptions_retrieve stripe sid = inl e ->
  outcome (dispatch stripe event w) = inl e
  /\ users (final (dispatch stripe event w)) = users w
  /\ trace (final (dispatch stripe event w))
     = (trace w ++ [call_subscriptions_retrieve sid])%list.
Proof.
  intros Hkind Hsid Hretrieve.
  destruct Hkind as [Hkind|Hkind];
    rewrite (dispatch_kind stripe event _ Hkind); cbn [String.eqb Ascii.eqb Bool.eqb].
  - unfold on_checkout_session_completed. rewrite Hsid. run_monad.
    rewrite Hretrieve. repeat split.
  - unfold on_invoice_payment_succeeded. rewrite Hsid. run_monad.
    rewrite Hretrieve. repeat split.
Qed.

(** C4, amended.  When the verification of the signature fails, the handler
    answers with the client error BAD_REQUEST and touches neither the records
    nor the provider.  When it passes, the only answer the handler ever sends
    is the success acknowledgment.  It sends it whenever the retrieval of the
    subscription succeeds and a checkout session carries a customer and
    metadata with well-formed identifiers of the user and the plan, and in
    particular when the user or the plan that these identifiers name is
    missing, which is logged and dropped with no record written.  When the
    retrieval of the subscription of a checkout or of an invoice fails, the
    handler sends no acknowledgment: it throws the provider's error, no
    record written. *)
Theorem handleStripeWebhook_acknowledgment (stripe : Stripe.sdk) (secret : string)
  (req : WebhookReq) (w : World) :
  match Stripe.webhooks_constructEvent stripe (raw_body req)
          (header_stripe_signature req) secret with
  | inl err =>
    outcome (handleStripeWebhook stripe secret req w)
    = inr {| res_status := HttpStatusCode.BAD_REQUEST;
             res_body := send ("Webhook Error: " ++ message err) |}
    /\ is_client_error HttpStatusCode.BAD_REQUEST = true
    /\ users (final (handleStripeWebhook stripe secret req w)) = users w
    /\ trace (final (handleStripeWebhook stripe secret req w)) = trace w
  | inr event =>
    is_success HttpStatusCode.OK = true
    /\ (forall res, outcome (handleStripeWebhook stripe secret req w) = inr res ->
          res = {| res_status := HttpStatusCode.OK; res_body := send "Webhook Received" |})
    /\ ((forall sid,
           nonempty (Stripe.subscription (Stripe.data_object event)) = Some sid ->
           exists subscription, Stripe.subscriptions_retrieve stripe sid = inr subscription) ->
        (Stripe.type event = "checkout.session.completed" ->
           Stripe.customer (Stripe.data_object event) <> None
           /\ exists metadata uid pid,
                Stripe.metadata (Stripe.data_object event) = Some metadata
                /\ Stripe.userId metadata = Some uid /\ well_formed_id uid = true
                /\ Stripe.planId metadata = Some pid /\ well_formed_id pid = true) ->
        outcome (handleStripeWebhook stripe secret req w)
        = inr {| res_status := HttpStatusCode.OK; res_body := send "Webhook Received" |})
    /\ (forall sid subscription metadata uid pid,
          Stripe.type event = "checkout.session.completed" ->
          nonempty (Stripe.subscription (Stripe.data_object event)) = Some sid ->
          Stripe.subscriptions_retrieve stripe sid = inr subscription ->
          Stripe.metadata (Stripe.data_object event) = Some metadata ->
          Stripe.userId metadata = Some uid -> well_formed_id uid = true ->
          Stripe.planId metadata = Some pid -> well_formed_id pid = true ->
          User.findById (users w) (Some uid) = None
          \/ Plan.findById (plans w) (Some pid) = None ->
          outcome (handleStripeWebhook stripe secret req w)
          = inr {| res_status := HttpStatusCode.OK; res_body := send "Webhook Received" |}
          /\ users (final (handleStripeWebhook stripe secret req w)) = users w
          /\ In (Error, "User or Plan not found for checkout.session.completed.")
               (console (final (handleStripeWebhook stripe secret req w))))
    /\ (forall sid e,
          Stripe.type event = "checkout.session.completed"
          \/ Stripe.type event = "invoice.payment_succeeded" ->
          nonempty (Stripe.subscription (Stripe.data_object event)) = Some sid ->
          Stripe.subscriptions_retrieve stripe sid = inl e ->
          outcome (handleStripeWebhook stripe secret req w) = inl e
          /\ users (final (handleStripeWebhook stripe secret req w)) = users w
          /\ trace (final (handleStripeWebhook stripe secret req w))
             = (trace w ++ [call_subscriptions_retrieve sid])%list)
  end.
Proof.
  destruct (Stripe.webhooks_constructEvent stripe _ _ _) as [err|event] eqn:Hev.
  - unfold handleStripeWebhook. rewrite Hev. repeat split.
  - destruct (handleStripeWebhook_verified stripe secret req w event Hev) as [Hfinal Hout].
    rewrite Hfinal, Hout. split; [reflexivity|]. split; [|split; [|split]].
    + intros res. destruct (outcome (dispatch stripe event w)); congruence.
    + intros Hretrieve Hsession.
      rewrite (dispatch_returns stripe event w Hretrieve); [reflexivity|].
      intros Hkind. destruct (Hsession Hkind) as [Hcust [metadata [uid [pid [Hmeta _]]]]].
      split; [congruence | assumption].
    + intros sid subscription metadata uid pid Hkind Hsid Hretrieve Hmeta Huid _ Hpid _
        Hmissing.
      rewrite <- Huid, <- Hpid in Hmissing.
      rewrite (dispatch_kind stripe event _ Hkind). cbn [String.eqb Ascii.eqb Bool.eqb].
      destruct (checkout_missing_entity_dropped stripe _ w sid subscription metadata
                  Hsid Hretrieve Hmeta Hmissing) as [-> [Husers Hlog]].
      repeat split; assumption.
    + intros sid e Hkind Hsid Hretrieve.
      destruct (dispatch_retrieve_fails stripe event w sid e Hkind Hsid Hretrieve)
        as [-> [Husers Htrace]].
      repeat split; assumption.
Qed.

Lemma handleStripeWebhook_acknowledgment_witness :
  (well_formed_id "64b7f0a1c2d3e4f5a6b7c8d0" = true
   /\ User.findById (users Sample.world) (Some "64b7f0a1c2d3e4f5a6b7c8d0") = None
   /\ outcome (handleStripeWebhook Hex.stripe_up Sample.secret
                 (Sample.signed "checkout ghost") Sample.world)
      = inr {| res_status := HttpStatusCode.OK; res_body := send "Webhook Received" |}
   /\ users (final (handleStripeWebhook Hex.stripe_up Sample.secret
                      (Sample.signed "checkout ghost") Sample.world))
      = users Sample.world)
  /\ outcome (handleStripeWebhook Sample.stripe_down Sample.secret
                (Sample.signed "checkout alice") Sample.world)
     = inl (StripeError "connection lost").
Proof.
  split.
  - split; [reflexivity|]. split; [reflexivity|].
    pose proof (handleStripeWebhook_acknowledgment Hex.stripe_up Sample.secret
                  (Sample.signed "checkout ghost") Sample.world) as H.
    change (Stripe.webhooks_constructEvent Hex.stripe_up
              (raw_body (Sample.signed "checkout ghost"))
              (header_stripe_signature (Sample.signed "checkout ghost")) Sample.secret)
      with (@inr JSError Stripe.Event
              {| Stripe.type := "checkout.session.completed";
                 Stripe.data_object := Hex.session_ghost |}) in H.
    destruct H as [_ [_ [_ [H _]]]].
    destruct (H "sub_ghost" (Sample.subscription_of "sub_ghost")
                {| Stripe.userId := Some "64b7f0a1c2d3e4f5a6b7c8d0";
                   Stripe.planId := Some "64b7f0a1c2d3e4f5a6b7c8d9";
                   Stripe.planType := Some PlanTypes.MONTHLY |}
                "64b7f0a1c2d3e4f5a6b7c8d0" "64b7f0a1c2d3e4f5a6b7c8d9"
                eq_refl eq_refl eq_refl eq_refl eq_refl eq_refl eq_refl eq_refl
                (or_introl eq_refl))
      as [Hout [Husers _]].
    split; assumption.
  - pose proof (handleStripeWebhook_acknowledgment Sample.stripe_down Sample.secret
                  (Sample.signed "checkout alice") Sample.world) as H.
    change (Stripe.webhooks_constructEvent Sample.stripe_down
              (raw_body (Sample.signed "checkout alice"))
              (header_stripe_signature (Sample.signed "checkout alice")) Sample.secret)
      with (@inr JSError Stripe.Event (Sample.event_of "checkout alice")) in H.
    destruct H as [_ [_ [_ [_ H]]]].
    destruct (H "sub_alice" (StripeError "connection lost")
                (or_introl eq_refl) eq_refl eq_refl) as [Hout _].
    exact Hout.
Defined.

(** ** C6 *)

Lemma same_but_customer_refl (d : User.doc) : same_but_customer d d.
Proof. repeat split. Qed.

Lemma same_but_customer_set (v : option string) (d : User.doc) :
  same_but_customer d (User.set_stripeCustomerId v d).
Proof. repeat split. Qed.

(** C6. A stored user without a customer reference starts a checkout for an
    active plan.  Whatever the provider answers, the records afterwards differ
    from the records before at most in the customer reference.  When the
    customer is created, its identifier is written to the user's record
    before the request for the checkout session is sent (the trace reads:
    customer creation, write of the user, session request): the stored record
    then has that identifier as its customer reference, whether the session
    request succeeds or fails, and when it fails the handler throws
    INTERNAL_SERVER_ERROR.  When the customer creation itself fails, its error
    is thrown and no record is written. *)
Theorem createCheckoutSession_customer_first (stripe : Stripe.sdk) (url : string)
  (req : CheckoutReq) (w : World) (id : ObjectId) (plan : Plan.doc) (stored : User.doc) :
  body_planId req = Some id ->
  id <> "" ->
  Plan.findById (plans w) (Some id) = Some plan ->
  Plan.isActive plan = true ->
  truthy (User.stripeCustomerId (checkout_user req)) = false ->
  User.findById (users w) (Some (User._id (checkout_user req))) = Some stored ->
  Forall2 same_but_customer (users w)
    (users (final (createCheckoutSession stripe url req w)))
  /\ match Stripe.customers_create stripe
             {| Stripe.cp_email := User.email (checkout_user req);
                Stripe.cp_name := User.name (checkout_user req);
                Stripe.cp_metadata_userId := User._id (checkout_user req) |} with
     | inr customer =>
       (exists u',
          User.findById (users (final (createCheckoutSession stripe url req w)))
            (Some (User._id (checkout_user req))) = Some u'
          /\ User.stripeCustomerId u' = Some (Stripe.customer_id customer)
          /\ same_but_customer stored u')
       /\ exists params,
            Stripe.ck_customer params = Stripe.customer_id customer
            /\ trace (final (createCheckoutSession stripe url req w))
               = (trace w
                    ++ [call_customers_create
                          {| Stripe.cp_email := User.email (checkout_user req);
                             Stripe.cp_name := User.name (checkout_user req);
                             Stripe.cp_metadata_userId := User._id (checkout_user req) |};
                        write_user (User._id (checkout_user req));
                        call_checkout_sessions_create params])%list
            /\ forall e,
                 Stripe.checkout_sessions_create stripe params = inl e ->
                 outcome (createCheckoutSession stripe url req w)
                 = inl (ApiError HttpStatusCode.INTERNAL_SERVER_ERROR
                          (or_else (message e) "Failed to create Stripe Checkout Session."))
     | inl e =>
       outcome (createCheckoutSession stripe url req w) = inl e
       /\ users (final (createCheckoutSession stripe url req w)) = users w
       /\ trace (final (createCheckoutSession stripe url req w))
          = (trace w
               ++ [call_customers_create
                     {| Stripe.cp_email := User.email (checkout_user req);
                        Stripe.cp_name := User.name (checkout_user req);
                        Stripe.cp_metadata_userId := User._id (checkout_user req) |}])%list
     end.
Proof.
  intros Hid Hne Hplan Hactive Hnocust Hstored.
  apply truthy_false_nonempty in Hnocust.
  unfold createCheckoutSession. cbv zeta. rewrite Hid. unfold truthy.
  rewrite (nonempty_of_string _ Hne). run_monad.
  rewrite Hplan, Hactive, Hnocust. run_monad.
  destruct (Stripe.customers_create stripe _) as [e|customer]; run_monad.
  - split; [|repeat split].
    clear. induction (users w); constructor; auto using same_but_customer_refl.
  - match goal with
    | |- context [Stripe.checkout_sessions_create stripe ?p] => set (params := p)
    end.
    assert (Hall : Forall2 same_but_customer (users w)
                     (User.updateOne (User._id (checkout_user req))
                        (User.set_stripeCustomerId (Some (Stripe.customer_id customer)))
                        (users w)))
      by (apply updateOne_Forall2;
          auto using same_but_customer_refl, same_but_customer_set).
    assert (Hfound : exists u',
              User.findById
                (User.updateOne (User._id (checkout_user req))
                   (User.set_stripeCustomerId (Some (Stripe.customer_id customer)))
                   (users w))
                (Some (User._id (checkout_user req))) = Some u'
              /\ User.stripeCustomerId u' = Some (Stripe.customer_id customer)
              /\ same_but_customer stored u').
    { exists (User.set_stripeCustomerId (Some (Stripe.customer_id customer)) stored).
      split; [|split; [reflexivity | apply same_but_customer_set]].
      apply updateOne_findById; [reflexivity | assumption]. }
    destruct (Stripe.checkout_sessions_create stripe params) as [e|session] eqn:Hsession;
      run_monad; (split; [exact Hall|]); (split; [exact Hfound|]);
      exists params; (split; [reflexivity|]);
      (split; [now rewrite <- !app_assoc|]); intros e' He'.
    + rewrite Hsession in He'. now injection He' as ->.
    + rewrite Hsession in He'. discriminate.
Qed.

Lemma createCheckoutSession_customer_first_witness :
  truthy (User.stripeCustomerId Sample.alice) = false
  /\ outcome (createCheckoutSession Sample.stripe_down "https://app.example"
                {| body_planId := Some "plan_m"; checkout_user := Sample.alice |}
                Sample.world)
     = inl (ApiError HttpStatusCode.INTERNAL_SERVER_ERROR "connection lost")
  /\ exists u',
       User.findById
         (users (final (createCheckoutSession Sample.stripe_down "https://app.example"
                          {| body_planId := Some "plan_m"; checkout_user := Sample.alice |}
                          Sample.world)))
         (Some "u_alice") = Some u'
       /\ User.stripeCustomerId u' = Some "cus_1".
Proof.
  split; [reflexivity|].
  pose proof (createCheckoutSession_customer_first Sample.stripe_down "https://app.example"
                {| body_planId := Some "plan_m"; checkout_user := Sample.alice |}
                Sample.world "plan_m" Sample.monthly Sample.alice
                eq_refl) as H.
  destruct H as [_ H]; try reflexivity; [discriminate|].
  cbn [Stripe.customers_create Sample.stripe_down] in H.
  destruct H as [[u' [Hfound [Hcust _]]] [params [_ [_ Hfail]]]].
  split.
  - apply (Hfail (StripeError "connection lost")). reflexivity.
  - exists u'. split; assumption.
Defined.

(** ** C7 *)

Lemma billing_inv_status_expiry (catalog : list Plan.doc) (subscription : Stripe.Object)
  (d : User.doc) :
  billing_inv catalog d = true ->
  billing_inv catalog (assign_status_expiry subscription d) = true.
Proof.
  unfold billing_inv. intros H. apply andb_prop in H. destruct H as [_ Hkind].
  apply andb_true_intro. split; [|exact Hkind].
  unfold subscription_has_status. simpl.
  now destruct (User.stripeSubscriptionId d).
Qed.

Lemma billing_inv_plan (catalog : list Plan.doc) (plan : Plan.doc) (d : User.doc) :
  Plan.findById catalog (Some (Plan._id plan)) = Some plan ->
  subscription_has_status d = true ->
  billing_inv catalog (assign_plan plan d) = true.
Proof.
  intros Hplan Hstatus. unfold billing_inv. apply andb_true_intro. split.
  - exact Hstatus.
  - unfold plan_kind_matches. cbn [assign_plan User.currentPlanId User.currentPlanType
      User.set_currentPlanType User.set_currentPlanId PlanRef_id].
    rewrite Hplan. simpl. apply String.eqb_refl.
Qed.

Lemma billing_inv_checkout (catalog : list Plan.doc) (subscription : Stripe.Object)
  (customer : string) (plan : Plan.doc) (d : User.doc) :
  Plan.findById catalog (Some (Plan._id plan)) = Some plan ->
  billing_inv catalog (assign_checkout subscription customer plan d) = true.
Proof.
  intros Hplan. unfold billing_inv. apply andb_true_intro. split; [reflexivity|].
  unfold plan_kind_matches. cbn [assign_checkout User.currentPlanId User.currentPlanType
    User.set_subscriptionExpiresAt User.set_subscriptionStatus
    User.set_currentPlanType User.set_currentPlanId PlanRef_id].
  rewrite Hplan. simpl. apply String.eqb_refl.
Qed.

Lemma billing_inv_deleted (catalog : list Plan.doc) (expires : JSDate) (d : User.doc) :
  billing_inv catalog (assign_deleted expires d) = true.
Proof. reflexivity. Qed.

Lemma billing_inv_customer (catalog : list Plan.doc) (v : option string) (d : User.doc) :
  billing_inv catalog d = true ->
  billing_inv catalog (User.set_stripeCustomerId v d) = true.
Proof. intros H. exact H. Qed.

Lemma billing_inv_fresh (catalog : list Plan.doc) (d : User.doc) :
  fresh_billing d = true -> billing_inv catalog d = true.
Proof.
  unfold fresh_billing, billing_inv, subscription_has_status, plan_kind_matches.
  destruct (User.stripeCustomerId d); try discriminate.
  destruct (User.stripeSubscriptionId d); try discriminate.
  destruct (User.subscriptionStatus d); try discriminate.
  destruct (User.currentPlanId d); try discriminate.
  destruct (User.currentPlanType d); try discriminate.
  reflexivity.
Qed.

Lemma Plan_findById_found (catalog : list Plan.doc) (id : option ObjectId) (plan : Plan.doc) :
  Plan.findById catalog id = Some plan ->
  Plan.findById catalog (Some (Plan._id plan)) = Some plan.
Proof. intros H. now rewrite <- (Plan_findById_id _ _ _ H). Qed.

Lemma Plan_findOne_found (catalog : list Plan.doc) (filter : Plan.doc -> bool)
  (plan : Plan.doc) :
  unique_ids (map Plan._id catalog) = true ->
  Plan.findOne catalog filter = Some plan ->
  Plan.findById catalog (Some (Plan._id plan)) = Some plan.
Proof.
  intros Huniq H. apply find_some in H. destruct H as [Hin _].
  now apply (find_by_unique_key Plan._id).
Qed.

(** Every case of the webhook keeps the invariants of every record. *)
Lemma dispatch_store_inv (stripe : Stripe.sdk) (event : Stripe.Event) (w : World) :
  unique_ids (map Plan._id (plans w)) = true ->
  store_inv w = true ->
  store_inv (final (dispatch stripe event w)) = true.
Proof.
  intros Huniq Hinv. unfold store_inv. rewrite dispatch_plans.
  unfold store_inv in Hinv. unfold dispatch. cbv zeta.
  destruct (String.eqb (Stripe.type event) "checkout.session.completed").
  { destruct (nonempty (Stripe.subscription (Stripe.data_object event))) as [sid|] eqn:Hsid.
    - rewrite (on_checkout_session_completed_users stripe _ w sid Hsid).
      destruct (Stripe.subscriptions_retrieve stripe sid) as [e|subscription];
        [assumption|].
      destruct (Stripe.metadata _) as [metadata|]; [|assumption].
      destruct (Stripe.customer _) as [customer|]; [|assumption].
      destruct (User.findById _ _) as [user|]; [|assumption].
      destruct (Plan.findById _ _) as [plan|] eqn:Hplan; [|assumption].
      apply updateOne_forallb; [|assumption].
      intros d _ _. apply billing_inv_checkout. now apply Plan_findById_found in Hplan.
    - now rewrite (on_checkout_session_completed_no_subscription stripe _ w Hsid). }
  destruct (String.eqb (Stripe.type event) "invoice.payment_succeeded").
  { rewrite on_invoice_payment_succeeded_users.
    destruct (nonempty _) as [sid|]; [|assumption].
    destruct (Stripe.subscriptions_retrieve stripe sid) as [e|subscription]; [assumption|].
    destruct (User.findOne_stripeSubscriptionId _ _) as [user|] eqn:Hfind; [|assumption].
    apply updateOne_forallb; [|assumption].
    intros d Hin _. apply billing_inv_status_expiry.
    rewrite forallb_forall in Hinv. now apply Hinv. }
  destruct (String.eqb (Stripe.type event) "customer.subscription.updated").
  { rewrite on_customer_subscription_updated_users.
    destruct (User.findOne_stripeSubscriptionId _ _) as [user|]; [|assumption].
    assert (Hkeep : forall d, In d (users w) ->
              billing_inv (plans w)
                (assign_status_expiry (Stripe.data_object event) d) = true).
    { intros d Hin. apply billing_inv_status_expiry.
      rewrite forallb_forall in Hinv. now apply Hinv. }
    destruct (Stripe.items_data _) as [|item0 items];
      [apply updateOne_forallb; auto|].
    destruct (Plan.findOne _ _) as [newPlan|] eqn:Hplan;
      [|apply updateOne_forallb; auto].
    apply updateOne_forallb; [|assumption].
    intros d Hin _. apply billing_inv_plan.
    - now apply (Plan_findOne_found _ _ _ Huniq Hplan).
    - specialize (Hkeep d Hin). unfold billing_inv in Hkeep.
      apply andb_prop in Hkeep. tauto. }
  destruct (String.eqb (Stripe.type event) "customer.subscription.deleted").
  { rewrite on_customer_subscription_deleted_users.
    destruct (User.findOne_stripeSubscriptionId _ _) as [user|]; [|assumption].
    apply updateOne_forallb; [|assumption].
    intros d _ _. apply billing_inv_deleted. }
  exact Hinv.
Qed.

Lemma handleStripeWebhook_store_inv (stripe : Stripe.sdk) (secret : string)
  (req : WebhookReq) (w : World) :
  unique_ids (map Plan._id (plans w)) = true ->
  store_inv w = true ->
  plans (final (handleStripeWebhook stripe secret req w)) = plans w
  /\ store_inv (final (handleStripeWebhook stripe secret req w)) = true.
Proof.
  intros Huniq Hinv.
  destruct (Stripe.webhooks_constructEvent stripe (raw_body req)
              (header_stripe_signature req) secret) as [err|event] eqn:Hev.
  - unfold handleStripeWebhook. rewrite Hev. split; [reflexivity | exact Hinv].
  - destruct (handleStripeWebhook_verified stripe secret req w event Hev) as [-> _].
    split; [apply dispatch_plans | now apply dispatch_store_inv].
Qed.

Lemma createCheckoutSession_store_inv (stripe : Stripe.sdk) (url : string)
  (req : CheckoutReq) (w : World) :
  store_inv w = true ->
  plans (final (createCheckoutSession stripe url req w)) = plans w
  /\ store_inv (final (createCheckoutSession stripe url req w)) = true.
Proof.
  intros Hinv. unfold store_inv, createCheckoutSession. cbv zeta.
  destruct (truthy (body_planId req)); run_monad; [|now split].
  destruct (Plan.findById (plans w) (body_planId req)) as [plan|]; [|now split].
  destruct (Plan.isActive plan); run_monad; [|now split].
  destruct (nonempty (User.stripeCustomerId (checkout_user req))) as [cid|]; run_monad.
  - destruct (Stripe.checkout_sessions_create stripe _); now split.
  - destruct (Stripe.customers_create stripe _) as [e|customer]; run_monad; [now split|].
    assert (Hkept : forallb (billing_inv (plans w))
                      (User.updateOne (User._id (checkout_user req))
                         (User.set_stripeCustomerId (Some (Stripe.customer_id customer)))
                         (users w)) = true).
    { apply updateOne_forallb; [|exact Hinv].
      intros d Hin _. apply billing_inv_customer.
      unfold store_inv in Hinv. rewrite forallb_forall in Hinv. now apply Hinv. }
    destruct (Stripe.checkout_sessions_create stripe _); now split.
Qed.

Lemma upgradeToYearly_unchanged (stripe : Stripe.sdk) (req : UpgradeReq) (w : World) :
  plans (final (upgradeToYearly stripe req w)) = plans w
  /\ users (final (upgradeToYearly stripe req w)) = users w.
Proof.
  unfold upgradeToYearly. cbv zeta.
  destruct (if upgrade_guard (upgrade_user req) then None else _) as [sid|];
    [|now split].
  run_monad.
  destruct (Plan.findOne (plans w) yearly_active) as [yearlyPlan|]; [|now split].
  destruct (nonempty (Plan.stripePriceId yearlyPlan)) as [price|]; run_monad; [|now split].
  destruct (Stripe.subscriptions_retrieve stripe sid) as [e|current]; run_monad;
    [now split|].
  unfold find_subscription_item.
  destruct (Stripe.items_data current) as [|item0 items]; run_monad; [now split|].
  destruct (User.currentPlanId (upgrade_user req)) as [ref|]; run_monad; [|now split].
  destruct (find _ (item0 :: items)) as [item|]; run_monad; [|now split].
  destruct (Stripe.subscriptions_update stripe sid _); now split.
Qed.

(** In every reachable world the catalog has unique identifiers and every
    record satisfies the invariants. *)
Lemma reachable_store_inv (w : World) :
  reachable w ->
  unique_ids (map Plan._id (plans w)) = true /\ store_inv w = true.
Proof.
  induction 1 as [w Hfresh Huniq | u w Hfresh _ [IHu IHi] | t w _ [IHu IHi]
                 | stripe url req w _ [IHu IHi] | stripe secret req w _ [IHu IHi]
                 | stripe req w _ [IHu IHi]].
  - split; [exact Huniq|]. unfold store_inv. apply forallb_forall.
    intros d Hin. apply billing_inv_fresh.
    rewrite forallb_forall in Hfresh. now apply Hfresh.
  - split; [exact IHu|]. unfold store_inv. cbn [with_users users plans].
    rewrite forallb_app. unfold store_inv in IHi. rewrite IHi. simpl.
    now rewrite (billing_inv_fresh _ _ Hfresh).
  - split; assumption.
  - destruct (createCheckoutSession_store_inv stripe url req w IHi) as [Hp Hi].
    split; [now rewrite Hp | exact Hi].
  - destruct (handleStripeWebhook_store_inv stripe secret req w IHu IHi) as [Hp Hi].
    split; [now rewrite Hp | exact Hi].
  - destruct (upgradeToYearly_unchanged stripe req w) as [Hp Hu].
    split; [now rewrite Hp|]. unfold store_inv. now rewrite Hp, Hu.
Qed.

(** C7. In a reachable world, after the webhook handler has handled any
    request against any answers of the provider, every stored record
    satisfies both invariants: a record with a subscription reference has a
    status, and the plan kind of a record is the kind of the plan that its
    plan reference names in the catalog, and is absent when the record has no
    plan reference. *)
Theorem handleStripeWebhook_invariants (stripe : Stripe.sdk) (secret : string)
  (req : WebhookReq) (w : World) (u : User.doc) :
  reachable w ->
  In u (users (final (handleStripeWebhook stripe secret req w))) ->
  (User.stripeSubscriptionId u <> None -> User.subscriptionStatus u <> None)
  /\ match User.currentPlanId u with
     | Some ref =>
       exists plan,
         Plan.findById (plans (final (handleStripeWebhook stripe secret req w)))
           (Some (PlanRef_id ref)) = Some plan
         /\ User.currentPlanType u = Some (Plan.type plan)
     | None => User.currentPlanType u = None
     end.
Proof.
  intros Hreach Hin.
  destruct (reachable_store_inv w Hreach) as [Huniq Hinv].
  destruct (handleStripeWebhook_store_inv stripe secret req w Huniq Hinv) as [_ Hafter].
  unfold store_inv in Hafter. rewrite forallb_forall in Hafter.
  specialize (Hafter u Hin). unfold billing_inv in Hafter.
  apply andb_prop in Hafter. destruct Hafter as [Hstatus Hkind]. split.
  - unfold subscription_has_status in Hstatus.
    destruct (User.stripeSubscriptionId u); [|congruence].
    destruct (User.subscriptionStatus u); [discriminate | discriminate].
  - unfold plan_kind_matches in Hkind.
    destruct (User.currentPlanId u) as [ref|].
    + destruct (Plan.findById _ (Some (PlanRef_id ref))) as [plan|]; [|discriminate].
      exists plan. split; [reflexivity|]. now apply strict_eq_true in Hkind.
    + now destruct (User.currentPlanType u).
Qed.

Lemma handleStripeWebhook_invariants_witness :
  reachable Sample.new_world
  /\ (User.stripeSubscriptionId
        (assign_checkout (Sample.subscription_of "sub_alice") "cus_alice"
           Sample.monthly Sample.alice) <> None ->
      User.subscriptionStatus
        (assign_checkout (Sample.subscription_of "sub_alice") "cus_alice"
           Sample.monthly Sample.alice) <> None).
Proof.
  assert (Hreach : reachable Sample.new_world) by (apply reach_init; reflexivity).
  split; [exact Hreach|].
  apply (handleStripeWebhook_invariants Sample.stripe_up Sample.secret
           (Sample.signed "checkout alice") Sample.new_world
           (assign_checkout (Sample.subscription_of "sub_alice") "cus_alice"
              Sample.monthly Sample.alice) Hreach).
  left. reflexivity.
Defined.

(** * Further properties of the controller *)

(** ** [createCheckoutSession] *)

(** X1. A request whose plan identifier is missing or empty is refused with
    BAD_REQUEST "Plan ID is required to create a checkout session." before the
    catalog, the provider or the records are touched. *)
Theorem createCheckoutSession_missing_plan_id (stripe : Stripe.sdk) (url : string)
  (req : CheckoutReq) (w : World) :
  truthy (body_planId req) = false ->
  createCheckoutSession stripe url req w
  = (inl (ApiError HttpStatusCode.BAD_REQUEST
            "Plan ID is required to create a checkout session."), w).
Proof.
  intros H. unfold createCheckoutSession. cbv zeta. rewrite H. reflexivity.
Qed.

Lemma createCheckoutSession_missing_plan_id_witness :
  createCheckoutSession Sample.stripe_up "https://app.example"
    {| body_planId := Some ""; checkout_user := Sample.alice |} Sample.world
  = (inl (ApiError HttpStatusCode.BAD_REQUEST
            "Plan ID is required to create a checkout session."), Sample.world).
Proof.
  apply (createCheckoutSession_missing_plan_id Sample.stripe_up "https://app.example"
           {| body_planId := Some ""; checkout_user := Sample.alice |} Sample.world).
  reflexivity.
Defined.

(** X2. For a user who already has a customer reference and asks for an active
    plan, the only request sent is the one for the checkout session, made for
    that customer; no customer is created and no record is written.  The
    answer is OK with the identifier and the address of the session, or
    INTERNAL_SERVER_ERROR with the provider's message when the request
    fails. *)
Theorem createCheckoutSession_existing_customer (stripe : Stripe.sdk) (url : string)
  (req : CheckoutReq) (w : World) (id : ObjectId) (plan : Plan.doc) (cid : string) :
  body_planId req = Some id ->
  id <> "" ->
  Plan.findById (plans w) (Some id) = Some plan ->
  Plan.isActive plan = true ->
  nonempty (User.stripeCustomerId (checkout_user req)) = Some cid ->
  users (final (createCheckoutSession stripe url req w)) = users w
  /\ exists params,
       Stripe.ck_customer params = cid
       /\ trace (final (createCheckoutSession stripe url req w))
          = (trace w ++ [call_checkout_sessions_create params])%list
       /\ outcome (createCheckoutSession stripe url req w)
          = match Stripe.checkout_sessions_create stripe params with
            | inr session =>
              inr {| res_status := HttpStatusCode.OK;
                     res_body :=
                       json HttpStatusCode.OK
                         [("sessionId", Stripe.session_id session);
                          ("url", Stripe.session_url session)]
                         "Stripe Checkout Session created successfully." |}
            | inl e =>
              inl (ApiError HttpStatusCode.INTERNAL_SERVER_ERROR
                     (or_else (message e) "Failed to create Stripe Checkout Session."))
            end.
Proof.
  intros Hid Hne Hplan Hactive Hcust.
  unfold createCheckoutSession. cbv zeta. rewrite Hid. unfold truthy.
  rewrite (nonempty_of_string _ Hne). run_monad.
  rewrite Hplan, Hactive, Hcust. run_monad.
  match goal with
  | |- context [Stripe.checkout_sessions_create stripe ?p] => set (params := p)
  end.
  destruct (Stripe.checkout_sessions_create stripe params) as [e|session] eqn:Hsession;
    run_monad; (split; [reflexivity|]); exists params; rewrite Hsession;
    repeat split.
Qed.

Lemma createCheckoutSession_existing_customer_witness :
  users (final (createCheckoutSession Sample.stripe_down "https://app.example"
                  {| body_planId := Some "plan_y"; checkout_user := Sample.bob |}
                  Sample.world))
  = users Sample.world.
Proof.
  apply (createCheckoutSession_existing_customer Sample.stripe_down "https://app.example"
           {| body_planId := Some "plan_y"; checkout_user := Sample.bob |}
           Sample.world "plan_y" Sample.yearly "cus_bob");
    solve [reflexivity | discriminate].
Defined.

Lemma Forall2_same (R : User.doc -> User.doc -> Prop) (coll : list User.doc) :
  (forall d, R d d) -> Forall2 R coll coll.
Proof. intros Hrefl. induction coll; constructor; auto. Qed.

(** X3. Whatever the request, the world and the answers of the provider,
    [createCheckoutSession] leaves the catalog as it is, and the user records
    after it are the records before it, in the same order, each changed at
    most in its customer reference. *)
Theorem createCheckoutSession_frame (stripe : Stripe.sdk) (url : string)
  (req : CheckoutReq) (w : World) :
  plans (final (createCheckoutSession stripe url req w)) = plans w
  /\ Forall2 same_but_customer (users w)
       (users (final (createCheckoutSession stripe url req w))).
Proof.
  pose proof (Forall2_same _ (users w) same_but_customer_refl) as Hsame.
  unfold createCheckoutSession. cbv zeta.
  destruct (truthy (body_planId req)); run_monad; [|now split].
  destruct (Plan.findById (plans w) (body_planId req)) as [plan|]; [|now split].
  destruct (Plan.isActive plan); run_monad; [|now split].
  destruct (nonempty (User.stripeCustomerId (checkout_user req))) as [cid|]; run_monad.
  - destruct (Stripe.checkout_sessions_create stripe _); now split.
  - destruct (Stripe.customers_create stripe _) as [e|customer]; run_monad; [now split|].
    assert (Hupd : Forall2 same_but_customer (users w)
                     (User.updateOne (User._id (checkout_user req))
                        (User.set_stripeCustomerId (Some (Stripe.customer_id customer)))
                        (users w)))
      by (apply updateOne_Forall2;
          auto using same_but_customer_refl, same_but_customer_set).
    destruct (Stripe.checkout_sessions_create stripe _); now split.
Qed.

(** X4. Every request for a checkout session that the handler sends is for an
    active plan of the catalog found under the identifier of the request, and
    tells the provider what the webhook will need: the identifier of the
    acting user (on the session and on the subscription), the identifier and
    the kind of the plan, one line item of quantity 1 at the price of the
    plan, the mode [subscription], promotion codes allowed, and the two
    return addresses under the front-end address. *)
Theorem createCheckoutSession_session_request (stripe : Stripe.sdk) (url : string)
  (req : CheckoutReq) (w : World) (params : Stripe.CheckoutParams) :
  In (call_checkout_sessions_create params)
    (trace (final (createCheckoutSession stripe url req w))) ->
  In (call_checkout_sessions_create params) (trace w)
  \/ exists plan,
       Plan.findById (plans w) (body_planId req) = Some plan
       /\ Plan.isActive plan = true
       /\ Stripe.ck_metadata_userId params = User._id (checkout_user req)
       /\ Stripe.ck_subscription_data_userId params = User._id (checkout_user req)
       /\ Stripe.ck_metadata_planId params = Plan._id plan
       /\ Stripe.ck_metadata_planType params = Plan.type plan
       /\ Stripe.ck_line_items params = [(Plan.stripePriceId plan, 1)]
       /\ Stripe.ck_mode params = "subscription"
       /\ Stripe.ck_allow_promotion_codes params = true
       /\ Stripe.ck_success_url params
          = url ++ "/dashboard?payment=success&session_id={CHECKOUT_SESSION_ID}"
       /\ Stripe.ck_cancel_url params = url ++ "/dashboard?payment=canceled".
Proof.
  unfold createCheckoutSession. cbv zeta.
  destruct (truthy (body_planId req)); run_monad; [|now left].
  destruct (Plan.findById (plans w) (body_planId req)) as [plan|] eqn:Hplan; [|now left].
  destruct (Plan.isActive plan) eqn:Hactive; run_monad; [|now left].
  assert (Hsent : forall p rest,
            In (call_checkout_sessions_create params)
              ((rest ++ [call_checkout_sessions_create p])%list) ->
            In (call_checkout_sessions_create params) rest \/ params = p).
  { intros p rest Hin. apply in_app_or in Hin. destruct Hin as [Hin|[Heq|[]]].
    - now left.
    - right. now injection Heq. }
  destruct (nonempty (User.stripeCustomerId (checkout_user req))) as [cid|]; run_monad.
  - destruct (Stripe.checkout_sessions_create stripe _); run_monad; intros Hin;
      apply Hsent in Hin; (destruct Hin as [Hin| ->]; [now left|]);
      right; exists plan; repeat split; assumption.
  - destruct (Stripe.customers_create stripe _) as [e|customer]; run_monad.
    + intros Hin. apply in_app_or in Hin. destruct Hin as [Hin|[Heq|[]]];
        [now left | discriminate].
    + destruct (Stripe.checkout_sessions_create stripe _); run_monad; intros Hin;
        apply Hsent in Hin;
        (destruct Hin as [Hin| ->];
         [ apply in_app_or in Hin; destruct Hin as [Hin|[Heq|[]]];
           [ apply in_app_or in Hin; destruct Hin as [Hin|[Heq|[]]];
             [now left | discriminate]
           | discriminate ]
         | right; exists plan; repeat split; assumption ]).
Qed.

Lemma createCheckoutSession_session_request_witness :
  exists plan,
    Plan.findById (plans Sample.world) (Some "plan_m") = Some plan
    /\ Plan.isActive plan = true.
Proof.
  destruct (createCheckoutSession_session_request Sample.stripe_up "https://app.example"
              {| body_planId := Some "plan_m"; checkout_user := Sample.bob |}
              Sample.world
              {| Stripe.ck_customer := "cus_bob";
                 Stripe.ck_line_items := [(Some "price_m", 1)];
                 Stripe.ck_mode := "subscription";
                 Stripe.ck_success_url :=
                   "https://app.example/dashboard?payment=success&session_id={CHECKOUT_SESSION_ID}";
                 Stripe.ck_cancel_url := "https://app.example/dashboard?payment=canceled";
                 Stripe.ck_metadata_userId := "u_bob";
                 Stripe.ck_metadata_planId := "plan_m";
                 Stripe.ck_metadata_planType := "Monthly";
                 Stripe.ck_subscription_data_userId := "u_bob";
                 Stripe.ck_allow_promotion_codes := true |})
    as [Hold|[plan [Hplan [Hactive _]]]].
  - left. reflexivity.
  - destruct Hold.
  - exists plan. split; assumption.
Defined.

Lemma createCheckoutSession_users (stripe : Stripe.sdk) (url : string)
  (req : CheckoutReq) (w : World) :
  plans (final (createCheckoutSession stripe url req w)) = plans w
  /\ (users (final (createCheckoutSession stripe url req w)) = users w
      \/ exists v,
           users (final (createCheckoutSession stripe url req w))
           = User.updateOne (User._id (checkout_user req))
               (User.set_stripeCustomerId v) (users w)).
Proof.
  unfold createCheckoutSession. cbv zeta.
  destruct (truthy (body_planId req)); run_monad; [|now split; [|left]].
  destruct (Plan.findById (plans w) (body_planId req)) as [plan|];
    [|now split; [|left]].
  destruct (Plan.isActive plan); run_monad; [|now split; [|left]].
  destruct (nonempty (User.stripeCustomerId (checkout_user req))) as [cid|]; run_monad.
  - destruct (Stripe.checkout_sessions_create stripe _); now split; [|left].
  - destruct (Stripe.customers_create stripe _) as [e|customer]; run_monad;
      [now split; [|left]|].
    destruct (Stripe.checkout_sessions_create stripe _);
      (split; [reflexivity|]); right;
      exists (Some (Stripe.customer_id customer)); reflexivity.
Qed.

(** X5. A retry after a failed or abandoned checkout creates no second
    customer.  Once a first call has created the customer of a stored user,
    whatever became of its session request, a later call for the same user,
    as reloaded from the store, sends the session request for that customer
    and nothing else, and writes no record. *)
Theorem createCheckoutSession_retry_reuses_customer (stripe stripe' : Stripe.sdk)
  (url : string) (req : CheckoutReq) (w : World) (id : ObjectId) (plan : Plan.doc)
  (stored reloaded : User.doc) (customer : Stripe.Customer) :
  body_planId req = Some id ->
  id <> "" ->
  Plan.findById (plans w) (Some id) = Some plan ->
  Plan.isActive plan = true ->
  truthy (User.stripeCustomerId (checkout_user req)) = false ->
  User.findById (users w) (Some (User._id (checkout_user req))) = Some stored ->
  Stripe.customers_create stripe
    {| Stripe.cp_email := User.email (checkout_user req);
       Stripe.cp_name := User.name (checkout_user req);
       Stripe.cp_metadata_userId := User._id (checkout_user req) |}
  = inr customer ->
  Stripe.customer_id customer <> "" ->
  User.findById (users (final (createCheckoutSession stripe url req w)))
    (Some (User._id (checkout_user req))) = Some reloaded ->
  users (final (createCheckoutSession stripe' url
                  {| body_planId := Some id; checkout_user := reloaded |}
                  (final (createCheckoutSession stripe url req w))))
  = users (final (createCheckoutSession stripe url req w))
  /\ exists params,
       Stripe.ck_customer params = Stripe.customer_id customer
       /\ trace (final (createCheckoutSession stripe' url
                          {| body_planId := Some id; checkout_user := reloaded |}
                          (final (createCheckoutSession stripe url req w))))
          = (trace (final (createCheckoutSession stripe url req w))
               ++ [call_checkout_sessions_create params])%list.
Proof.
  intros Hid Hne Hplan Hactive Hnocust Hstored Hcreate Hcid.
  apply truthy_false_nonempty in Hnocust.
  assert (Hfirst : plans (final (createCheckoutSession stripe url req w)) = plans w
                   /\ users (final (createCheckoutSession stripe url req w))
                      = User.updateOne (User._id (checkout_user req))
                          (User.set_stripeCustomerId (Some (Stripe.customer_id customer)))
                          (users w)).
  { unfold createCheckoutSession. cbv zeta. rewrite Hid. unfold truthy.
    rewrite (nonempty_of_string _ Hne). run_monad.
    rewrite Hplan, Hactive, Hnocust. run_monad. rewrite Hcreate. run_monad.
    destruct (Stripe.checkout_sessions_create stripe _); now split. }
  destruct Hfirst as [Hplans Husers].
  set (w1 := final (createCheckoutSession stripe url req w)) in *.
  intros Hreload. rewrite Husers in Hreload.
  rewrite (updateOne_findById _
             (User.set_stripeCustomerId (Some (Stripe.customer_id customer)))
             _ stored (fun d => eq_refl) Hstored) in Hreload.
  injection Hreload as <-.
  unfold createCheckoutSession. cbv zeta.
  cbn [body_planId checkout_user]. unfold truthy.
  rewrite (nonempty_of_string _ Hne). run_monad.
  rewrite Hplans, Hplan, Hactive.
  cbn [User.stripeCustomerId User.set_stripeCustomerId].
  rewrite (nonempty_of_string _ Hcid). run_monad.
  match goal with
  | |- context [Stripe.checkout_sessions_create stripe' ?p] => set (params := p)
  end.
  destruct (Stripe.checkout_sessions_create stripe' params);
    (split; [reflexivity|]); exists params; split; reflexivity.
Qed.

Lemma createCheckoutSession_retry_reuses_customer_witness :
  users (final (createCheckoutSession Sample.stripe_up "https://app.example"
                  {| body_planId := Some "plan_m";
                     checkout_user := User.set_stripeCustomerId (Some "cus_1") Sample.alice |}
                  (final (createCheckoutSession Sample.stripe_down "https://app.example"
                            {| body_planId := Some "plan_m"; checkout_user := Sample.alice |}
                            Sample.world))))
  = users (final (createCheckoutSession Sample.stripe_down "https://app.example"
                    {| body_planId := Some "plan_m"; checkout_user := Sample.alice |}
                    Sample.world)).
Proof.
  apply (createCheckoutSession_retry_reuses_customer Sample.stripe_down Sample.stripe_up
           "https://app.example"
           {| body_planId := Some "plan_m"; checkout_user := Sample.alice |}
           Sample.world "plan_m" Sample.monthly Sample.alice
           (User.set_stripeCustomerId (Some "cus_1") Sample.alice)
           {| Stripe.customer_id := "cus_1" |});
    solve [reflexivity | discriminate].
Defined.

(** X6. The checkout and its webhook fit together.  After a stored user has
    asked for a checkout of a plan of the catalog, a verified
    [checkout.session.completed] event whose metadata names that user and
    that plan, and which carries a subscription that the provider returns
    with a period end that a date can hold, leaves the stored record of the
    user with the identifier of that subscription, the customer of the
    session, the plan and its kind, the status of the subscription and its
    period end as expiry; identifier, e-mail, name and trial flags are those
    of the record before the checkout. *)
Theorem checkout_then_completed (stripe stripe' : Stripe.sdk) (url secret : string)
  (req : CheckoutReq) (hook : WebhookReq) (w : World) (stored : User.doc)
  (plan : Plan.doc) (event : Stripe.Event) (sid customer : string)
  (subscription : Stripe.Object) (metadata : Stripe.Metadata) (seconds : Z) :
  User.findById (users w) (Some (User._id (checkout_user req))) = Some stored ->
  Plan.findById (plans w) (body_planId req) = Some plan ->
  Stripe.webhooks_constructEvent stripe' (raw_body hook) (header_stripe_signature hook) secret
  = inr event ->
  Stripe.type event = "checkout.session.completed" ->
  nonempty (Stripe.subscription (Stripe.data_object event)) = Some sid ->
  Stripe.subscriptions_retrieve stripe' sid = inr subscription ->
  Stripe.current_period_end subscription = Some seconds ->
  date_range seconds = true ->
  Stripe.metadata (Stripe.data_object event) = Some metadata ->
  Stripe.userId metadata = Some (User._id (checkout_user req)) ->
  Stripe.planId metadata = body_planId req ->
  Stripe.customer (Stripe.data_object event) = Some customer ->
  exists u',
    User.findById
      (users (final (handleStripeWebhook stripe' secret hook
                       (final (createCheckoutSession stripe url req w)))))
      (Some (User._id (checkout_user req)))
    = Some u'
    /\ User.stripeSubscriptionId u' = Some (Stripe.id subscription)
    /\ User.stripeCustomerId u' = Some customer
    /\ User.currentPlanId u' = Some (RefId (Plan._id plan))
    /\ User.currentPlanType u' = Some (Plan.type plan)
    /\ User.subscriptionStatus u' = Some (Stripe.status subscription)
    /\ User.subscriptionExpiresAt u' = Some (DateMs (seconds * 1000))
    /\ same_identity stored u'.
Proof.
  intros Hstored Hplan Hev Hkind Hsid Hretrieve Hend _ Hmeta Huser Hpid Hcust.
  destruct (createCheckoutSession_users stripe url req w) as [Hplans Husers].
  set (w1 := final (createCheckoutSession stripe url req w)) in *.
  assert (Hloaded : exists stored1,
            User.findById (users w1) (Some (User._id (checkout_user req))) = Some stored1
            /\ same_identity stored stored1).
  { destruct Husers as [->|[v ->]].
    - exists stored. split; [assumption | repeat split].
    - exists (User.set_stripeCustomerId v stored). split; [|repeat split].
      apply updateOne_findById; [reflexivity | assumption]. }
  destruct Hloaded as [stored1 [Hstored1 Hsame]].
  exists (assign_checkout subscription customer plan stored1). split.
  - destruct (handleStripeWebhook_verified stripe' secret hook w1 event Hev) as [-> _].
    rewrite (dispatch_kind stripe' event _ Hkind). cbn [String.eqb Ascii.eqb Bool.eqb].
    rewrite (on_checkout_session_completed_users stripe' _ w1 sid Hsid).
    rewrite Hretrieve, Hmeta, Hcust, Huser, Hstored1, Hpid, Hplans, Hplan.
    pose proof (User_findById_id _ _ _ Hstored1) as Hid.
    injection Hid as Hid. rewrite <- Hid.
    apply updateOne_findById; [reflexivity | assumption].
  - unfold assign_checkout. rewrite Hend.
    destruct Hsame as [H1 [H2 [H3 [H4 H5]]]]. repeat split; assumption.
Qed.

Lemma checkout_then_completed_witness :
  date_range 1702592000 = true
  /\ exists u',
    User.findById
      (users (final (handleStripeWebhook Sample.stripe_up Sample.secret
                       (Sample.signed "checkout alice")
                       (final (createCheckoutSession Sample.stripe_up "https://app.example"
                                 {| body_planId := Some "plan_m";
                                    checkout_user := Sample.alice |}
                                 Sample.world)))))
      (Some "u_alice")
    = Some u'
    /\ User.stripeSubscriptionId u' = Some "sub_alice"
    /\ User.stripeCustomerId u' = Some "cus_alice"
    /\ User.currentPlanType u' = Some PlanTypes.MONTHLY
    /\ User.subscriptionExpiresAt u' = Some (DateMs 1702592000000).
Proof.
  split; [reflexivity|].
  destruct (checkout_then_completed Sample.stripe_up Sample.stripe_up
              "https://app.example" Sample.secret
              {| body_planId := Some "plan_m"; checkout_user := Sample.alice |}
              (Sample.signed "checkout alice") Sample.world Sample.alice Sample.monthly
              (Sample.event_of "checkout alice") "sub_alice" "cus_alice"
              (Sample.subscription_of "sub_alice")
              {| Stripe.userId := Some "u_alice"; Stripe.planId := Some "plan_m";
                 Stripe.planType := Some PlanTypes.MONTHLY |}
              1702592000
              eq_refl eq_refl eq_refl eq_refl eq_refl eq_refl eq_refl eq_refl
              eq_refl eq_refl eq_refl eq_refl)
    as [u' [Hfound [Hsub [Hcust [_ [Hkind [_ [Hexpires _]]]]]]]].
  exists u'. repeat split; assumption.
Defined.

(** ** [handleStripeWebhook] *)

(** X7. A verified [checkout.session.completed] event with a subscription
    that the provider returns with a period end that a date can hold, for a
    stored user and a plan of the catalog named by the metadata of the
    session, is answered OK after one retrieval and one save.  The record of
    the user then holds the identifier of the retrieved subscription, the
    customer of the session, the plan and the kind that the catalog gives for
    it (the kind written in the metadata is not used), the status of the
    subscription and its period end as expiry; identifier, e-mail, name and
    trial flags are kept. *)
Theorem checkout_completed_effect (stripe : Stripe.sdk) (secret : string)
  (req : WebhookReq) (w : World) (event : Stripe.Event) (sid customer : string)
  (subscription : Stripe.Object) (metadata : Stripe.Metadata) (user : User.doc)
  (plan : Plan.doc) (seconds : Z) :
  Stripe.webhooks_constructEvent stripe (raw_body req) (header_stripe_signature req) secret
  = inr event ->
  Stripe.type event = "checkout.session.completed" ->
  nonempty (Stripe.subscription (Stripe.data_object event)) = Some sid ->
  Stripe.subscriptions_retrieve stripe sid = inr subscription ->
  Stripe.current_period_end subscription = Some seconds ->
  date_range seconds = true ->
  Stripe.metadata (Stripe.data_object event) = Some metadata ->
  User.findById (users w) (Stripe.userId metadata) = Some user ->
  Plan.findById (plans w) (Stripe.planId metadata) = Some plan ->
  Stripe.customer (Stripe.data_object event) = Some customer ->
  outcome (handleStripeWebhook stripe secret req w)
  = inr {| res_status := HttpStatusCode.OK; res_body := send "Webhook Received" |}
  /\ trace (final (handleStripeWebhook stripe secret req w))
     = (trace w ++ [call_subscriptions_retrieve sid; write_user (User._id user)])%list
  /\ exists u',
       User.findById (users (final (handleStripeWebhook stripe secret req w)))
         (Some (User._id user)) = Some u'
       /\ User.stripeSubscriptionId u' = Some (Stripe.id subscription)
       /\ User.stripeCustomerId u' = Some customer
       /\ User.currentPlanId u' = Some (RefId (Plan._id plan))
       /\ User.currentPlanType u' = Some (Plan.type plan)
       /\ User.subscriptionStatus u' = Some (Stripe.status subscription)
       /\ User.subscriptionExpiresAt u' = Some (DateMs (seconds * 1000))
       /\ same_identity user u'.
Proof.
  intros Hev Hkind Hsid Hretrieve Hend _ Hmeta Huser Hplan Hcust.
  destruct (handleStripeWebhook_verified stripe secret req w event Hev) as [-> ->].
  rewrite (dispatch_kind stripe event _ Hkind). cbn [String.eqb Ascii.eqb Bool.eqb].
  unfold on_checkout_session_completed. rewrite Hsid. run_monad.
  rewrite Hretrieve. run_monad. rewrite Hmeta. run_monad.
  rewrite Huser, Hplan, Hcust. run_monad.
  split; [reflexivity|]. split; [now rewrite <- app_assoc|].
  exists (assign_checkout subscription customer plan user).
  split; [|unfold assign_checkout; rewrite Hend; repeat split].
  pose proof (User_findById_id _ _ _ Huser) as Hid. rewrite Hid in Huser.
  apply updateOne_findById; [reflexivity | assumption].
Qed.

Lemma checkout_completed_effect_witness :
  date_range 1702592000 = true
  /\ trace (final (handleStripeWebhook Sample.stripe_up Sample.secret
                     (Sample.signed "checkout alice") Sample.world))
     = [call_subscriptions_retrieve "sub_alice"; write_user "u_alice"]
  /\ exists u',
       User.findById
         (users (final (handleStripeWebhook Sample.stripe_up Sample.secret
                          (Sample.signed "checkout alice") Sample.world)))
         (Some "u_alice") = Some u'
       /\ User.subscriptionStatus u' = Some "active"
       /\ User.subscriptionExpiresAt u' = Some (DateMs 1702592000000).
Proof.
  split; [reflexivity|].
  destruct (checkout_completed_effect Sample.stripe_up Sample.secret
              (Sample.signed "checkout alice") Sample.world
              (Sample.event_of "checkout alice") "sub_alice" "cus_alice"
              (Sample.subscription_of "sub_alice")
              {| Stripe.userId := Some "u_alice"; Stripe.planId := Some "plan_m";
                 Stripe.planType := Some PlanTypes.MONTHLY |}
              Sample.alice Sample.monthly 1702592000
              eq_refl eq_refl eq_refl eq_refl eq_refl eq_refl eq_refl eq_refl
              eq_refl eq_refl)
    as [_ [Htrace [u' [Hfound [_ [_ [_ [_ [Hstatus [Hexpires _]]]]]]]]]].
  split; [exact Htrace|].
  exists u'. repeat split; assumption.
Defined.

(** X8. A verified [invoice.payment_succeeded] event whose subscription the
    provider returns with a period end that a date can hold, and that a
    stored user holds, refreshes the status and the expiry of that user from
    the retrieved subscription and nothing else: subscription, customer, plan
    and kind of the record are kept, and the records of the other users are
    not touched. *)
Theorem invoice_payment_succeeded_effect (stripe : Stripe.sdk) (secret : string)
  (req : WebhookReq) (w : World) (event : Stripe.Event) (sid : string)
  (subscription : Stripe.Object) (u : User.doc) (seconds : Z) :
  Stripe.webhooks_constructEvent stripe (raw_body req) (header_stripe_signature req) secret
  = inr event ->
  Stripe.type event = "invoice.payment_succeeded" ->
  unique_ids (map User._id (users w)) = true ->
  nonempty (Stripe.subscription (Stripe.data_object event)) = Some sid ->
  Stripe.subscriptions_retrieve stripe sid = inr subscription ->
  Stripe.current_period_end subscription = Some seconds ->
  date_range seconds = true ->
  User.findOne_stripeSubscriptionId (users w) (Stripe.id subscription) = Some u ->
  outcome (handleStripeWebhook stripe secret req w)
  = inr {| res_status := HttpStatusCode.OK; res_body := send "Webhook Received" |}
  /\ (exists u',
        User.findById (users (final (handleStripeWebhook stripe secret req w)))
          (Some (User._id u)) = Some u'
        /\ User.subscriptionStatus u' = Some (Stripe.status subscription)
        /\ User.subscriptionExpiresAt u' = Some (DateMs (seconds * 1000))
        /\ User.stripeSubscriptionId u' = User.stripeSubscriptionId u
        /\ User.stripeCustomerId u' = User.stripeCustomerId u
        /\ User.currentPlanId u' = User.currentPlanId u
        /\ User.currentPlanType u' = User.currentPlanType u
        /\ same_identity u u')
  /\ forall id,
       id <> User._id u ->
       User.findById (users (final (handleStripeWebhook stripe secret req w))) (Some id)
       = User.findById (users w) (Some id).
Proof.
  intros Hev Hkind Huniq Hsid Hretrieve Hend _ Hfind.
  destruct (handleStripeWebhook_verified stripe secret req w event Hev) as [-> ->].
  rewrite (dispatch_kind stripe event _ Hkind). cbn [String.eqb Ascii.eqb Bool.eqb].
  unfold on_invoice_payment_succeeded. rewrite Hsid. run_monad.
  rewrite Hretrieve. run_monad. rewrite Hfind. run_monad.
  split; [reflexivity|]. split.
  - exists (assign_status_expiry subscription u).
    split; [|unfold assign_status_expiry; rewrite Hend; repeat split].
    apply updateOne_findById; [reflexivity|].
    now apply (findOne_findById _ _ _ Huniq Hfind).
  - intros id Hne. now apply updateOne_other.
Qed.

Lemma invoice_payment_succeeded_effect_witness :
  date_range 1702592000 = true
  /\ exists u',
       User.findById
         (users (final (handleStripeWebhook Demo.stripe_up Sample.secret
                          (Sample.signed "invoice bob") Sample.world)))
         (Some "u_bob") = Some u'
       /\ User.subscriptionStatus u' = Some "active"
       /\ User.subscriptionExpiresAt u' = Some (DateMs 1702592000000).
Proof.
  split; [reflexivity|].
  destruct (invoice_payment_succeeded_effect Demo.stripe_up Sample.secret
              (Sample.signed "invoice bob") Sample.world (Demo.event_of "invoice bob")
              "sub_bob" (Sample.subscription_of "sub_bob") Sample.bob 1702592000
              eq_refl eq_refl eq_refl eq_refl eq_refl eq_refl eq_refl eq_refl)
    as [_ [[u' [Hfound [Hstatus [Hexpires _]]]] _]].
  exists u'. repeat split; assumption.
Defined.

(** X9. A verified checkout or invoice event that carries no subscription
    (absent or empty) is acknowledged with OK without any request to the
    provider and without any write. *)
Theorem event_without_subscription_ignored (stripe : Stripe.sdk) (secret : string)
  (req : WebhookReq) (w : World) (event : Stripe.Event) :
  Stripe.webhooks_constructEvent stripe (raw_body req) (header_stripe_signature req) secret
  = inr event ->
  Stripe.type event = "checkout.session.completed"
  \/ Stripe.type event = "invoice.payment_succeeded" ->
  truthy (Stripe.subscription (Stripe.data_object event)) = false ->
  outcome (handleStripeWebhook stripe secret req w)
  = inr {| res_status := HttpStatusCode.OK; res_body := send "Webhook Received" |}
  /\ users (final (handleStripeWebhook stripe secret req w)) = users w
  /\ trace (final (handleStripeWebhook stripe secret req w)) = trace w.
Proof.
  intros Hev Hkind Hnone. apply truthy_false_nonempty in Hnone.
  destruct (handleStripeWebhook_verified stripe secret req w event Hev) as [-> ->].
  destruct Hkind as [Hkind|Hkind];
    rewrite (dispatch_kind stripe event _ Hkind); cbn [String.eqb Ascii.eqb Bool.eqb].
  - unfold on_checkout_session_completed. rewrite Hnone. repeat split.
  - unfold on_invoice_payment_succeeded. rewrite Hnone. repeat split.
Qed.

Lemma event_without_subscription_ignored_witness :
  trace (final (handleStripeWebhook Demo.stripe_up Sample.secret
                  (Sample.signed "checkout one-off") Sample.world))
  = trace Sample.world.
Proof.
  apply (event_without_subscription_ignored Demo.stripe_up Sample.secret
           (Sample.signed "checkout one-off") Sample.world
           (Demo.event_of "checkout one-off")).
  - reflexivity.
  - left. reflexivity.
  - reflexivity.
Defined.

(** X10. On a verified [customer.subscription.updated] event for the
    subscription of a stored user, with a period end that a date can hold,
    when the price of the first line item is the price of a plan of the
    catalog, the record of that user takes the identifier and the kind of the
    first such plan, together with the status of the event and its period end
    as expiry; its subscription and its customer are kept.  The later line
    items play no part. *)
Theorem subscription_updated_known_price (stripe : Stripe.sdk) (secret : string)
  (req : WebhookReq) (w : World) (event : Stripe.Event) (u : User.doc)
  (item0 : Stripe.Item) (items : list Stripe.Item) (newPlan : Plan.doc) (seconds : Z) :
  Stripe.webhooks_constructEvent stripe (raw_body req) (header_stripe_signature req) secret
  = inr event ->
  Stripe.type event = "customer.subscription.updated" ->
  unique_ids (map User._id (users w)) = true ->
  User.findOne_stripeSubscriptionId (users w) (Stripe.id (Stripe.data_object event)) = Some u ->
  Stripe.current_period_end (Stripe.data_object event) = Some seconds ->
  date_range seconds = true ->
  Stripe.items_data (Stripe.data_object event) = item0 :: items ->
  Plan.findOne (plans w) (by_stripePriceId (Stripe.price_id item0)) = Some newPlan ->
  outcome (handleStripeWebhook stripe secret req w)
  = inr {| res_status := HttpStatusCode.OK; res_body := send "Webhook Received" |}
  /\ trace (final (handleStripeWebhook stripe secret req w))
     = (trace w ++ [write_user (User._id u)])%list
  /\ Plan.stripePriceId newPlan = Some (Stripe.price_id item0)
  /\ exists u',
       User.findById (users (final (handleStripeWebhook stripe secret req w)))
         (Some (User._id u)) = Some u'
       /\ User.currentPlanId u' = Some (RefId (Plan._id newPlan))
       /\ User.currentPlanType u' = Some (Plan.type newPlan)
       /\ User.subscriptionStatus u' = Some (Stripe.status (Stripe.data_object event))
       /\ User.subscriptionExpiresAt u' = Some (DateMs (seconds * 1000))
       /\ User.stripeSubscriptionId u' = User.stripeSubscriptionId u
       /\ User.stripeCustomerId u' = User.stripeCustomerId u.
Proof.
  intros Hev Hkind Huniq Hfind Hend _ Hitems Hplan.
  destruct (handleStripeWebhook_verified stripe secret req w event Hev) as [-> ->].
  rewrite (dispatch_kind stripe event _ Hkind). cbn [String.eqb Ascii.eqb Bool.eqb].
  unfold on_customer_subscription_updated. run_monad.
  rewrite Hfind, Hitems. run_monad. rewrite Hplan. run_monad.
  split; [reflexivity|]. split; [reflexivity|]. split.
  { apply find_some in Hplan. destruct Hplan as [_ Hprice].
    now apply strict_eq_true in Hprice. }
  exists (assign_plan newPlan (assign_status_expiry (Stripe.data_object event) u)).
  split; [|unfold assign_plan, assign_status_expiry; rewrite Hend; repeat split].
  apply (updateOne_findById (User._id u)
           (fun d => assign_plan newPlan
                       (assign_status_expiry (Stripe.data_object event) d)));
    [reflexivity|].
  now apply (findOne_findById _ _ _ Huniq Hfind).
Qed.

Lemma subscription_updated_known_price_witness :
  date_range 1734000000 = true
  /\ exists u',
    User.findById
      (users (final (handleStripeWebhook Demo.stripe_up Sample.secret
                       (Sample.signed "bob goes yearly") Sample.world)))
      (Some "u_bob") = Some u'
    /\ User.currentPlanId u' = Some (RefId "plan_y")
    /\ User.currentPlanType u' = Some PlanTypes.YEARLY
    /\ User.subscriptionExpiresAt u' = Some (DateMs 1734000000000).
Proof.
  split; [reflexivity|].
  destruct (subscription_updated_known_price Demo.stripe_up Sample.secret
              (Sample.signed "bob goes yearly") Sample.world
              (Demo.event_of "bob goes yearly") Sample.bob Demo.item_yearly []
              Sample.yearly 1734000000
              eq_refl eq_refl eq_refl eq_refl eq_refl eq_refl eq_refl eq_refl)
    as [_ [_ [_ [u' [Hfound [Hplan [Hkind [_ [Hexpires _]]]]]]]]].
  exists u'. repeat split; assumption.
Defined.

(** X11. A verified [customer.subscription.updated] event whose subscription
    has no line item at all, and a period end that a date can hold, still
    refreshes the status and the expiry of the user who holds it, and keeps
    the plan and the kind of the record. *)
Theorem subscription_updated_no_items (stripe : Stripe.sdk) (secret : string)
  (req : WebhookReq) (w : World) (event : Stripe.Event) (u : User.doc) (seconds : Z) :
  Stripe.webhooks_constructEvent stripe (raw_body req) (header_stripe_signature req) secret
  = inr event ->
  Stripe.type event = "customer.subscription.updated" ->
  unique_ids (map User._id (users w)) = true ->
  User.findOne_stripeSubscriptionId (users w) (Stripe.id (Stripe.data_object event)) = Some u ->
  Stripe.current_period_end (Stripe.data_object event) = Some seconds ->
  date_range seconds = true ->
  Stripe.items_data (Stripe.data_object event) = [] ->
  outcome (handleStripeWebhook stripe secret req w)
  = inr {| res_status := HttpStatusCode.OK; res_body := send "Webhook Received" |}
  /\ exists u',
       User.findById (users (final (handleStripeWebhook stripe secret req w)))
         (Some (User._id u)) = Some u'
       /\ User.subscriptionStatus u' = Some (Stripe.status (Stripe.data_object event))
       /\ User.subscriptionExpiresAt u' = Some (DateMs (seconds * 1000))
       /\ User.currentPlanId u' = User.currentPlanId u
       /\ User.currentPlanType u' = User.currentPlanType u.
Proof.
  intros Hev Hkind Huniq Hfind Hend _ Hitems.
  destruct (handleStripeWebhook_verified stripe secret req w event Hev) as [-> ->].
  rewrite (dispatch_kind stripe event _ Hkind). cbn [String.eqb Ascii.eqb Bool.eqb].
  unfold on_customer_subscription_updated. run_monad.
  rewrite Hfind, Hitems. run_monad.
  split; [reflexivity|].
  exists (assign_status_expiry (Stripe.data_object event) u).
  split; [|unfold assign_status_expiry; rewrite Hend; repeat split].
  apply (updateOne_findById (User._id u)
           (fun d => assign_status_expiry (Stripe.data_object event) d));
    [reflexivity|].
  now apply (findOne_findById _ _ _ Huniq Hfind).
Qed.

Lemma subscription_updated_no_items_witness :
  date_range 1734000000 = true
  /\ exists u',
    User.findById
      (users (final (handleStripeWebhook Demo.stripe_up Sample.secret
                       (Sample.signed "bob without items") Sample.world)))
      (Some "u_bob") = Some u'
    /\ User.subscriptionStatus u' = Some "past_due"
    /\ User.subscriptionExpiresAt u' = Some (DateMs 1734000000000)
    /\ User.currentPlanType u' = Some PlanTypes.MONTHLY.
Proof.
  split; [reflexivity|].
  destruct (subscription_updated_no_items Demo.stripe_up Sample.secret
              (Sample.signed "bob without items") Sample.world
              (Demo.event_of "bob without items") Sample.bob 1734000000
              eq_refl eq_refl eq_refl eq_refl eq_refl eq_refl eq_refl)
    as [_ [u' [Hfound [Hstatus [Hexpires [_ Hkind]]]]]].
  exists u'. repeat split; assumption.
Defined.

(** X12. A verified update or deletion of a subscription that no stored user
    holds is dropped: it is acknowledged with OK, nothing is asked of the
    provider and no record is written. *)
Theorem unknown_subscription_dropped (stripe : Stripe.sdk) (secret : string)
  (req : WebhookReq) (w : World) (event : Stripe.Event) :
  Stripe.webhooks_constructEvent stripe (raw_body req) (header_stripe_signature req) secret
  = inr event ->
  Stripe.type event = "customer.subscription.updated"
  \/ Stripe.type event = "customer.subscription.deleted" ->
  User.findOne_stripeSubscriptionId (users w) (Stripe.id (Stripe.data_object event)) = None ->
  outcome (handleStripeWebhook stripe secret req w)
  = inr {| res_status := HttpStatusCode.OK; res_body := send "Webhook Received" |}
  /\ users (final (handleStripeWebhook stripe secret req w)) = users w
  /\ trace (final (handleStripeWebhook stripe secret req w)) = trace w.
Proof.
  intros Hev Hkind Hnone.
  destruct (handleStripeWebhook_verified stripe secret req w event Hev) as [-> ->].
  destruct Hkind as [Hkind|Hkind];
    rewrite (dispatch_kind stripe event _ Hkind); cbn [String.eqb Ascii.eqb Bool.eqb].
  - unfold on_customer_subscription_updated. run_monad. rewrite Hnone. repeat split.
  - unfold on_customer_subscription_deleted. run_monad. rewrite Hnone. repeat split.
Qed.

Lemma unknown_subscription_dropped_witness :
  users (final (handleStripeWebhook Demo.stripe_up Sample.secret
                  (Sample.signed "stranger updated") Sample.world))
  = users Sample.world.
Proof.
  apply (unknown_subscription_dropped Demo.stripe_up Sample.secret
           (Sample.signed "stranger updated") Sample.world
           (Demo.event_of "stranger updated")).
  - reflexivity.
  - left. reflexivity.
  - reflexivity.
Defined.

Lemma filter_nil_find {A : Type} (P : A -> bool) (l : list A) :
  List.filter P l = [] -> find P l = None.
Proof.
  induction l as [|a l IH]; simpl; [reflexivity|].
  destruct (P a); [discriminate | exact IH].
Qed.

Lemma find_none_filter {A : Type} (P : A -> bool) (l : list A) :
  find P l = None -> List.filter P l = [].
Proof.
  induction l as [|a l IH]; simpl; [reflexivity|].
  destruct (P a); [discriminate | exact IH].
Qed.

(** Once the record of the only holder of a subscription has lost it, nobody
    holds it. *)
Lemma holders_cleared (sid : string) (assign : User.doc -> User.doc)
  (coll : list User.doc) (u : User.doc) :
  unique_ids (map User._id coll) = true ->
  User.findOne_stripeSubscriptionId coll sid = Some u ->
  (length (holders sid coll) <= 1)%nat ->
  (forall d, strict_eq sid (User.stripeSubscriptionId (assign d)) = false) ->
  holders sid (User.updateOne (User._id u) assign coll) = [].
Proof.
  unfold User.findOne_stripeSubscriptionId, holders. intros Huniq Hfind Hone Hclear.
  induction coll as [|d rest IH]; [discriminate|].
  simpl in Huniq, Hfind, Hone |- *.
  apply andb_prop in Huniq. destruct Huniq as [Hfresh Hrest].
  destruct (strict_eq sid (User.stripeSubscriptionId d)) eqn:Hd.
  - injection Hfind as ->. rewrite String.eqb_refl. simpl. rewrite Hclear.
    simpl in Hone. destruct (List.filter _ rest); [reflexivity | simpl in Hone; lia].
  - destruct (String.eqb_spec (User._id d) (User._id u)) as [Heq|Hne].
    + exfalso. apply find_some in Hfind. destruct Hfind as [Hin _].
      apply negb_true_iff in Hfresh.
      assert (Hex : existsb (String.eqb (User._id d)) (map User._id rest) = true).
      { apply existsb_exists. exists (User._id u). split.
        - now apply in_map.
        - now apply String.eqb_eq. }
      congruence.
    + simpl. rewrite Hd. now apply IH.
Qed.

(** X13. A deleted subscription stays deleted.  When at most one stored user
    holds a subscription and a verified [customer.subscription.deleted] event
    for it has been handled, nobody holds it any more, and a later update or
    deletion event for the same subscription, such as a stale or repeated
    delivery, leaves every record as the deletion left it. *)
Theorem deleted_subscription_stays_deleted (stripe stripe' : Stripe.sdk)
  (secret : string) (req req' : WebhookReq) (w : World) (event event' : Stripe.Event) :
  Stripe.webhooks_constructEvent stripe (raw_body req) (header_stripe_signature req) secret
  = inr event ->
  Stripe.type event = "customer.subscription.deleted" ->
  Stripe.webhooks_constructEvent stripe' (raw_body req') (header_stripe_signature req') secret
  = inr event' ->
  Stripe.type event' = "customer.subscription.updated"
  \/ Stripe.type event' = "customer.subscription.deleted" ->
  Stripe.id (Stripe.data_object event') = Stripe.id (Stripe.data_object event) ->
  unique_ids (map User._id (users w)) = true ->
  (length (holders (Stripe.id (Stripe.data_object event)) (users w)) <= 1)%nat ->
  holders (Stripe.id (Stripe.data_object event))
    (users (final (handleStripeWebhook stripe secret req w))) = []
  /\ users (final (handleStripeWebhook stripe' secret req'
                     (final (handleStripeWebhook stripe secret req w))))
     = users (final (handleStripeWebhook stripe secret req w)).
Proof.
  intros Hev Hkind Hev' Hkind' Hsame Huniq Hone.
  assert (Hnone : holders (Stripe.id (Stripe.data_object event))
                    (users (final (handleStripeWebhook stripe secret req w))) = []).
  { destruct (handleStripeWebhook_verified stripe secret req w event Hev) as [-> _].
    rewrite (dispatch_kind stripe event _ Hkind). cbn [String.eqb Ascii.eqb Bool.eqb].
    rewrite on_customer_subscription_deleted_users.
    destruct (User.findOne_stripeSubscriptionId (users w) _) as [u|] eqn:Hfind.
    - now apply holders_cleared.
    - now apply find_none_filter. }
  split; [exact Hnone|].
  set (w1 := final (handleStripeWebhook stripe secret req w)) in *.
  apply filter_nil_find in Hnone.
  destruct (handleStripeWebhook_verified stripe' secret req' w1 event' Hev') as [-> _].
  destruct Hkind' as [Hkind'|Hkind'];
    rewrite (dispatch_kind stripe' event' _ Hkind'); cbn [String.eqb Ascii.eqb Bool.eqb].
  - rewrite on_customer_subscription_updated_users, Hsame.
    unfold User.findOne_stripeSubscriptionId. now rewrite Hnone.
  - rewrite on_customer_subscription_deleted_users, Hsame.
    unfold User.findOne_stripeSubscriptionId. now rewrite Hnone.
Qed.

Lemma deleted_subscription_stays_deleted_witness :
  users (final (handleStripeWebhook Sample.stripe_up Sample.secret
                  (Sample.signed "updated bob")
                  (final (handleStripeWebhook Sample.stripe_up Sample.secret
                            (Sample.signed "deleted bob") Sample.world))))
  = users (final (handleStripeWebhook Sample.stripe_up Sample.secret
                    (Sample.signed "deleted bob") Sample.world)).
Proof.
  apply (deleted_subscription_stays_deleted Sample.stripe_up Sample.stripe_up
           Sample.secret (Sample.signed "deleted bob") (Sample.signed "updated bob")
           Sample.world (Sample.event_of "deleted bob") (Sample.event_of "updated bob")).
  - reflexivity.
  - reflexivity.
  - reflexivity.
  - left. reflexivity.
  - reflexivity.
  - reflexivity.
  - simpl. lia.
Defined.

Lemma same_identity_refl (d : User.doc) : same_identity d d.
Proof. repeat split. Qed.

(** X14. Whatever the request and the answers of the provider, the webhook
    handler never adds, removes or reorders a user record, never changes the
    identifier, the e-mail, the name or the trial flags of one, and never
    writes the catalog. *)
Theorem handleStripeWebhook_frame (stripe : Stripe.sdk) (secret : string)
  (req : WebhookReq) (w : World) :
  plans (final (handleStripeWebhook stripe secret req w)) = plans w
  /\ Forall2 same_identity (users w)
       (users (final (handleStripeWebhook stripe secret req w))).
Proof.
  pose proof (Forall2_same _ (users w) same_identity_refl) as Hsame.
  assert (Hupd : forall id assign,
            (forall d, same_identity d (assign d)) ->
            Forall2 same_identity (users w) (User.updateOne id assign (users w)))
    by (intros id assign Hassign; apply updateOne_Forall2;
        auto using same_identity_refl).
  destruct (Stripe.webhooks_constructEvent stripe (raw_body req)
              (header_stripe_signature req) secret) as [err|event] eqn:Hev.
  { unfold handleStripeWebhook. rewrite Hev. now split. }
  destruct (handleStripeWebhook_verified stripe secret req w event Hev) as [-> _].
  split; [apply dispatch_plans|].
  unfold dispatch. cbv zeta.
  destruct (String.eqb (Stripe.type event) "checkout.session.completed").
  { destruct (nonempty (Stripe.subscription (Stripe.data_object event))) as [sid|] eqn:Hsid.
    - rewrite (on_checkout_session_completed_users stripe _ w sid Hsid).
      destruct (Stripe.subscriptions_retrieve stripe sid) as [e|subscription];
        [assumption|].
      destruct (Stripe.metadata _) as [metadata|]; [|assumption].
      destruct (Stripe.customer _) as [customer|]; [|assumption].
      destruct (User.findById _ _) as [user|]; [|assumption].
      destruct (Plan.findById _ _) as [plan|]; [|assumption].
      apply Hupd. intros d. repeat split.
    - now rewrite (on_checkout_session_completed_no_subscription stripe _ w Hsid). }
  destruct (String.eqb (Stripe.type event) "invoice.payment_succeeded").
  { rewrite on_invoice_payment_succeeded_users.
    destruct (nonempty _) as [sid|]; [|assumption].
    destruct (Stripe.subscriptions_retrieve stripe sid) as [e|subscription]; [assumption|].
    destruct (User.findOne_stripeSubscriptionId _ _) as [user|]; [|assumption].
    apply Hupd. intros d. repeat split. }
  destruct (String.eqb (Stripe.type event) "customer.subscription.updated").
  { rewrite on_customer_subscription_updated_users.
    destruct (User.findOne_stripeSubscriptionId _ _) as [user|]; [|assumption].
    destruct (Stripe.items_data _) as [|item0 items];
      [apply Hupd; intros d; repeat split|].
    destruct (Plan.findOne _ _) as [newPlan|]; apply Hupd; intros d; repeat split. }
  destruct (String.eqb (Stripe.type event) "customer.subscription.deleted").
  { rewrite on_customer_subscription_deleted_users.
    destruct (User.findOne_stripeSubscriptionId _ _) as [user|]; [|assumption].
    apply Hupd. intros d. repeat split. }
  exact Hsame.
Qed.

(** X15. Handling one webhook request adds at most two effects to the trace,
    and each of them is the retrieval of a subscription or the save of a
    user: the handler never asks the provider to create or to change
    anything. *)
Theorem handleStripeWebhook_effects (stripe : Stripe.sdk) (secret : string)
  (req : WebhookReq) (w : World) :
  exists added,
    trace (final (handleStripeWebhook stripe secret req w)) = (trace w ++ added)%list
    /\ forallb retrieves_or_saves added = true
    /\ (length added <= 2)%nat.
Proof.
  destruct (Stripe.webhooks_constructEvent stripe (raw_body req)
              (header_stripe_signature req) secret) as [err|event] eqn:Hev.
  { unfold handleStripeWebhook. rewrite Hev. run_monad. added_effects. }
  destruct (handleStripeWebhook_verified stripe secret req w event Hev) as [-> _].
  unfold dispatch. cbv zeta.
  destruct (String.eqb (Stripe.type event) "checkout.session.completed").
  { unfold on_checkout_session_completed.
    destruct (nonempty _) as [sid|]; run_monad; [|added_effects].
    destruct (Stripe.subscriptions_retrieve stripe sid); run_monad; [added_effects|].
    destruct (Stripe.metadata _) as [metadata|]; run_monad; [|added_effects].
    destruct (User.findById (users w) (Stripe.userId metadata));
      destruct (Plan.findById (plans w) (Stripe.planId metadata));
      destruct (Stripe.customer (Stripe.data_object event)); run_monad; added_effects. }
  destruct (String.eqb (Stripe.type event) "invoice.payment_succeeded").
  { unfold on_invoice_payment_succeeded.
    destruct (nonempty _) as [sid|]; run_monad; [|added_effects].
    destruct (Stripe.subscriptions_retrieve stripe sid); run_monad; [added_effects|].
    destruct (User.findOne_stripeSubscriptionId _ _); run_monad; added_effects. }
  destruct (String.eqb (Stripe.type event) "customer.subscription.updated").
  { unfold on_customer_subscription_updated. run_monad.
    destruct (User.findOne_stripeSubscriptionId _ _); run_monad; [|added_effects].
    destruct (Stripe.items_data _); run_monad; [added_effects|].
    destruct (Plan.findOne _ _); run_monad; added_effects. }
  destruct (String.eqb (Stripe.type event) "customer.subscription.deleted").
  { unfold on_customer_subscription_deleted. run_monad.
    destruct (User.findOne_stripeSubscriptionId _ _); run_monad; [|added_effects].
    destruct (truthy_num _); run_monad; added_effects. }
  run_monad. added_effects.
Qed.

(** ** [upgradeToYearly] *)

Lemma nonempty_held (v : option string) (s : string) :
  nonempty v = Some s -> v = Some s.
Proof.
  destruct v as [t|]; simpl; [|discriminate].
  destruct (String.eqb t ""); [discriminate|]. intros [= ->]. reflexivity.
Qed.

(** X16. When the user passes the guard and the catalog holds no active
    yearly plan, the handler throws NOT_FOUND "Yearly plan not found in
    database." and leaves the world as it was: the provider is not asked. *)
Theorem upgradeToYearly_no_yearly_plan (stripe : Stripe.sdk) (req : UpgradeReq)
  (w : World) (sid : string) :
  User.stripeSubscriptionId (upgrade_user req) = Some sid ->
  sid <> "" ->
  User.subscriptionStatus (upgrade_user req) = Some "active" ->
  User.currentPlanType (upgrade_user req) = Some PlanTypes.MONTHLY ->
  Plan.findOne (plans w) yearly_active = None ->
  upgradeToYearly stripe req w
  = (inl (ApiError HttpStatusCode.NOT_FOUND "Yearly plan not found in database."), w).
Proof.
  intros Hsub Hne Hstatus Htype Hnone.
  destruct (upgrade_guard_passes _ _ Hsub Hne Hstatus Htype) as [Hguard Hsid].
  unfold upgradeToYearly. cbv zeta. rewrite Hguard, Hsid. run_monad.
  rewrite Hnone. reflexivity.
Qed.

Lemma upgradeToYearly_no_yearly_plan_witness :
  upgradeToYearly Sample.stripe_up {| upgrade_user := Sample.bob |}
    (Demo.world_with [Sample.monthly; Sample.retired])
  = (inl (ApiError HttpStatusCode.NOT_FOUND "Yearly plan not found in database."),
     Demo.world_with [Sample.monthly; Sample.retired]).
Proof.
  apply (upgradeToYearly_no_yearly_plan Sample.stripe_up {| upgrade_user := Sample.bob |}
           (Demo.world_with [Sample.monthly; Sample.retired]) "sub_bob");
    solve [reflexivity | discriminate].
Defined.

(** X17. When the active yearly plan has no price reference (absent or
    empty), the handler throws INTERNAL_SERVER_ERROR "Yearly plan
    misconfigured." after one console line; the provider is not asked and no
    record is written. *)
Theorem upgradeToYearly_misconfigured (stripe : Stripe.sdk) (req : UpgradeReq)
  (w : World) (sid : string) (yearlyPlan : Plan.doc) :
  User.stripeSubscriptionId (upgrade_user req) = Some sid ->
  sid <> "" ->
  User.subscriptionStatus (upgrade_user req) = Some "active" ->
  User.currentPlanType (upgrade_user req) = Some PlanTypes.MONTHLY ->
  Plan.findOne (plans w) yearly_active = Some yearlyPlan ->
  truthy (Plan.stripePriceId yearlyPlan) = false ->
  outcome (upgradeToYearly stripe req w)
  = inl (ApiError HttpStatusCode.INTERNAL_SERVER_ERROR "Yearly plan misconfigured.")
  /\ trace (final (upgradeToYearly stripe req w)) = trace w
  /\ users (final (upgradeToYearly stripe req w)) = users w
  /\ console (final (upgradeToYearly stripe req w))
     = (console w
          ++ [(Error, ("Yearly plan (" ++ Plan.name yearlyPlan
                         ++ ") missing Stripe Price ID.")%string)])%list.
Proof.
  intros Hsub Hne Hstatus Htype Hyearly Hprice.
  apply truthy_false_nonempty in Hprice.
  destruct (upgrade_guard_passes _ _ Hsub Hne Hstatus Htype) as [Hguard Hsid].
  unfold upgradeToYearly. cbv zeta. rewrite Hguard, Hsid. run_monad.
  rewrite Hyearly, Hprice. repeat split.
Qed.

Lemma upgradeToYearly_misconfigured_witness :
  outcome (upgradeToYearly Sample.stripe_up {| upgrade_user := Sample.bob |}
             (Demo.world_with [Sample.monthly; Demo.yearly_unpriced]))
  = inl (ApiError HttpStatusCode.INTERNAL_SERVER_ERROR "Yearly plan misconfigured.").
Proof.
  apply (upgradeToYearly_misconfigured Sample.stripe_up {| upgrade_user := Sample.bob |}
           (Demo.world_with [Sample.monthly; Demo.yearly_unpriced]) "sub_bob"
           Demo.yearly_unpriced);
    solve [reflexivity | discriminate].
Defined.

(** X18. Whatever the request and the answers of the provider,
    [upgradeToYearly] writes neither a record nor the catalog, and all it
    sends to the provider is the retrieval of the user's own subscription,
    followed at most by one update of one item of that subscription. *)
Theorem upgradeToYearly_effects (stripe : Stripe.sdk) (req : UpgradeReq) (w : World) :
  users (final (upgradeToYearly stripe req w)) = users w
  /\ plans (final (upgradeToYearly stripe req w)) = plans w
  /\ (trace (final (upgradeToYearly stripe req w)) = trace w
      \/ exists sid,
           User.stripeSubscriptionId (upgrade_user req) = Some sid
           /\ (trace (final (upgradeToYearly stripe req w))
               = (trace w ++ [call_subscriptions_retrieve sid])%list
               \/ exists item price,
                    trace (final (upgradeToYearly stripe req w))
                    = (trace w ++ [call_subscriptions_retrieve sid;
                                   call_subscriptions_update sid [(item, price)]])%list)).
Proof.
  unfold upgradeToYearly. cbv zeta.
  destruct (upgrade_guard (upgrade_user req)); [repeat split; now left|].
  destruct (nonempty (User.stripeSubscriptionId (upgrade_user req))) as [sid|] eqn:Hsid;
    [|repeat split; now left].
  apply nonempty_held in Hsid. run_monad.
  destruct (Plan.findOne (plans w) yearly_active) as [yearlyPlan|];
    [|repeat split; now left].
  destruct (nonempty (Plan.stripePriceId yearlyPlan)) as [price|]; run_monad;
    [|repeat split; now left].
  destruct (Stripe.subscriptions_retrieve stripe sid) as [e|current]; run_monad;
    [repeat split; right; exists sid; split; [assumption | now left]|].
  unfold find_subscription_item.
  destruct (Stripe.items_data current) as [|item0 items]; run_monad;
    [repeat split; right; exists sid; split; [assumption | now left]|].
  destruct (User.currentPlanId (upgrade_user req)) as [ref|]; run_monad;
    [|repeat split; right; exists sid; split; [assumption | now left]].
  destruct (find _ (item0 :: items)) as [item|]; run_monad;
    [|repeat split; right; exists sid; split; [assumption | now left]].
  destruct (Stripe.subscriptions_update stripe sid _); run_monad;
    repeat split; right; exists sid; (split; [assumption|]); right;
    exists (Stripe.item_id item), price; now rewrite <- app_assoc.
Qed.

(** X19. When the retrieval of the subscription fails, the handler throws
    INTERNAL_SERVER_ERROR with the message of the provider's error, or with
    "Failed to upgrade subscription." when that message is empty; the
    retrieval is the only request made. *)
Theorem upgradeToYearly_retrieve_fails (stripe : Stripe.sdk) (req : UpgradeReq)
  (w : World) (sid : string) (yearlyPlan : Plan.doc) (yearlyPriceId : string)
  (e : JSError) :
  User.stripeSubscriptionId (upgrade_user req) = Some sid ->
  sid <> "" ->
  User.subscriptionStatus (upgrade_user req) = Some "active" ->
  User.currentPlanType (upgrade_user req) = Some PlanTypes.MONTHLY ->
  Plan.findOne (plans w) yearly_active = Some yearlyPlan ->
  nonempty (Plan.stripePriceId yearlyPlan) = Some yearlyPriceId ->
  Stripe.subscriptions_retrieve stripe sid = inl e ->
  outcome (upgradeToYearly stripe req w)
  = inl (ApiError HttpStatusCode.INTERNAL_SERVER_ERROR
           (or_else (message e) "Failed to upgrade subscription."))
  /\ trace (final (upgradeToYearly stripe req w))
     = (trace w ++ [call_subscriptions_retrieve sid])%list.
Proof.
  intros Hsub Hne Hstatus Htype Hyearly Hprice Hretrieve.
  destruct (upgrade_guard_passes _ _ Hsub Hne Hstatus Htype) as [Hguard Hsid].
  unfold upgradeToYearly. cbv zeta. rewrite Hguard, Hsid. run_monad.
  rewrite Hyearly, Hprice. run_monad. rewrite Hretrieve. run_monad.
  split; reflexivity.
Qed.

Lemma upgradeToYearly_retrieve_fails_witness :
  outcome (upgradeToYearly Sample.stripe_down {| upgrade_user := Sample.bob_populated |}
             Sample.world)
  = inl (ApiError HttpStatusCode.INTERNAL_SERVER_ERROR "connection lost").
Proof.
  apply (upgradeToYearly_retrieve_fails Sample.stripe_down
           {| upgrade_user := Sample.bob_populated |} Sample.world "sub_bob"
           Sample.yearly "price_y" (StripeError "connection lost"));
    solve [reflexivity | discriminate].
Defined.

(** X20. When the line item of the current plan is found, the answer follows
    the update request: OK with the identifier of the updated subscription
    and the yearly price reference when the provider accepts it, and
    INTERNAL_SERVER_ERROR with the provider's message (or "Failed to upgrade
    subscription.") when it refuses.  The record of the user is not changed
    in either case: it still says Monthly. *)
Theorem upgradeToYearly_update_result (stripe : Stripe.sdk) (req : UpgradeReq)
  (w : World) (sid : string) (ref : PlanRef) (yearlyPlan : Plan.doc)
  (yearlyPriceId : string) (current : Stripe.Object) (item : Stripe.Item) :
  User.stripeSubscriptionId (upgrade_user req) = Some sid ->
  sid <> "" ->
  User.subscriptionStatus (upgrade_user req) = Some "active" ->
  User.currentPlanType (upgrade_user req) = Some PlanTypes.MONTHLY ->
  User.currentPlanId (upgrade_user req) = Some ref ->
  Plan.findOne (plans w) yearly_active = Some yearlyPlan ->
  nonempty (Plan.stripePriceId yearlyPlan) = Some yearlyPriceId ->
  Stripe.subscriptions_retrieve stripe sid = inr current ->
  find (fun item => strict_eq (Stripe.price_id item) (PlanRef_stripePriceId ref))
    (Stripe.items_data current) = Some item ->
  users (final (upgradeToYearly stripe req w)) = users w
  /\ outcome (upgradeToYearly stripe req w)
     = match Stripe.subscriptions_update stripe sid
               [(Stripe.item_id item, yearlyPriceId)] with
       | inr updated =>
         inr {| res_status := HttpStatusCode.OK;
                res_body :=
                  json HttpStatusCode.OK
                    [("subscriptionId", Stripe.id updated);
                     ("newPriceId", yearlyPriceId)]
                    "Subscription successfully upgraded to Yearly Plan." |}
       | inl e =>
         inl (ApiError HttpStatusCode.INTERNAL_SERVER_ERROR
                (or_else (message e) "Failed to upgrade subscription."))
       end.
Proof.
  intros Hsub Hne Hstatus Htype Href Hyearly Hprice Hretrieve Hfind.
  destruct (upgrade_guard_passes _ _ Hsub Hne Hstatus Htype) as [Hguard Hsid].
  unfold upgradeToYearly. cbv zeta. rewrite Hguard, Hsid. run_monad.
  rewrite Hyearly, Hprice. run_monad. rewrite Hretrieve, Href.
  unfold find_subscription_item.
  destruct (Stripe.items_data current) as [|item0 items]; [discriminate|].
  run_monad. rewrite Hfind. run_monad.
  destruct (Stripe.subscriptions_update stripe sid _); split; reflexivity.
Qed.

Lemma upgradeToYearly_update_result_witness :
  outcome (upgradeToYearly Sample.stripe_up {| upgrade_user := Sample.bob_populated |}
             Sample.world)
  = inr {| res_status := HttpStatusCode.OK;
           res_body :=
             json HttpStatusCode.OK
               [("subscriptionId", "sub_bob"); ("newPriceId", "price_y")]
               "Subscription successfully upgraded to Yearly Plan." |}.
Proof.
  apply (upgradeToYearly_update_result Sample.stripe_up
           {| upgrade_user := Sample.bob_populated |} Sample.world "sub_bob"
           (RefDoc Sample.monthly) Sample.yearly "price_y"
           (Sample.subscription_of "sub_bob")
           {| Stripe.item_id := "si_1"; Stripe.price_id := "price_m" |});
    solve [reflexivity | discriminate].
Defined.

(** X21. The item is looked for under [user.currentPlanId.stripePriceId].
    When [currentPlanId] of the request's user is a bare identifier (the path
    is not populated), that price is [undefined] and no item can match: for a
    user who passes the guard the handler retrieves the subscription and then
    throws INTERNAL_SERVER_ERROR "Could not find current subscription item.",
    whatever the subscription holds, and never asks for an update. *)
Theorem upgradeToYearly_unpopulated_plan (stripe : Stripe.sdk) (req : UpgradeReq)
  (w : World) (sid : string) (planId : ObjectId) (yearlyPlan : Plan.doc)
  (yearlyPriceId : string) (current : Stripe.Object) :
  User.stripeSubscriptionId (upgrade_user req) = Some sid ->
  sid <> "" ->
  User.subscriptionStatus (upgrade_user req) = Some "active" ->
  User.currentPlanType (upgrade_user req) = Some PlanTypes.MONTHLY ->
  User.currentPlanId (upgrade_user req) = Some (RefId planId) ->
  Plan.findOne (plans w) yearly_active = Some yearlyPlan ->
  nonempty (Plan.stripePriceId yearlyPlan) = Some yearlyPriceId ->
  Stripe.subscriptions_retrieve stripe sid = inr current ->
  outcome (upgradeToYearly stripe req w)
  = inl (ApiError HttpStatusCode.INTERNAL_SERVER_ERROR
           "Could not find current subscription item.")
  /\ trace (final (upgradeToYearly stripe req w))
     = (trace w ++ [call_subscriptions_retrieve sid])%list.
Proof.
  intros Hsub Hne Hstatus Htype Href Hyearly Hprice Hretrieve.
  destruct (upgrade_guard_passes _ _ Hsub Hne Hstatus Htype) as [Hguard Hsid].
  unfold upgradeToYearly. cbv zeta. rewrite Hguard, Hsid. run_monad.
  rewrite Hyearly, Hprice. run_monad. rewrite Hretrieve, Href.
  unfold find_subscription_item.
  assert (Hnone : forall items,
            find (fun item => strict_eq (Stripe.price_id item)
                                (PlanRef_stripePriceId (RefId planId))) items = None)
    by (intros items; induction items; [reflexivity | exact IHitems]).
  destruct (Stripe.items_data current) as [|item0 items]; run_monad;
    [split; reflexivity|].
  rewrite Hnone. split; reflexivity.
Qed.

Lemma upgradeToYearly_unpopulated_plan_witness :
  outcome (upgradeToYearly Sample.stripe_up {| upgrade_user := Sample.bob |} Sample.world)
  = inl (ApiError HttpStatusCode.INTERNAL_SERVER_ERROR
           "Could not find current subscription item.").
Proof.
  apply (upgradeToYearly_unpopulated_plan Sample.stripe_up
           {| upgrade_user := Sample.bob |} Sample.world "sub_bob" "plan_m"
           Sample.yearly "price_y" (Sample.subscription_of "sub_bob"));
    solve [reflexivity | discriminate].
Defined.

(** ** [manageSubscriptionPortal] *)

(** X22. A user without a customer reference (absent or empty) is refused
    with BAD_REQUEST "You do not have an active Stripe customer ID to manage
    subscriptions."; the world is left as it was, and the answer is the same
    whatever the provider would have said. *)
Theorem manageSubscriptionPortal_refused
  (portal : StripePortal.Params -> JSError + StripePortal.Session)
  (url : string) (req : PortalReq) (w : World) :
  truthy (User.stripeCustomerId (portal_user req)) = false ->
  manageSubscriptionPortal portal url req w
  = (inl (ApiError HttpStatusCode.BAD_REQUEST
            "You do not have an active Stripe customer ID to manage subscriptions."), w).
Proof.
  intros H. apply truthy_false_nonempty in H.
  unfold manageSubscriptionPortal. cbv zeta. rewrite H. reflexivity.
Qed.

Lemma manageSubscriptionPortal_refused_witness :
  manageSubscriptionPortal Demo.portal_up "https://app.example"
    {| portal_user := Sample.alice |} Sample.world
  = (inl (ApiError HttpStatusCode.BAD_REQUEST
            "You do not have an active Stripe customer ID to manage subscriptions."),
     Sample.world).
Proof.
  apply (manageSubscriptionPortal_refused Demo.portal_up "https://app.example"
           {| portal_user := Sample.alice |} Sample.world).
  reflexivity.
Defined.

(** X23. For a user with a customer reference the portal session is asked
    for that customer, with the return address [/dashboard?portal=return]
    under the front-end address.  The answer is OK with the address of the
    portal when the provider answers, and INTERNAL_SERVER_ERROR with the
    provider's message, or "Failed to create Stripe Customer Portal session."
    when that message is empty, when it fails.  Neither the records nor the
    catalog change. *)
Theorem manageSubscriptionPortal_result
  (portal : StripePortal.Params -> JSError + StripePortal.Session)
  (url : string) (req : PortalReq) (w : World) (cid : string) :
  nonempty (User.stripeCustomerId (portal_user req)) = Some cid ->
  users (final (manageSubscriptionPortal portal url req w)) = users w
  /\ plans (final (manageSubscriptionPortal portal url req w)) = plans w
  /\ trace (final (manageSubscriptionPortal portal url req w)) = trace w
  /\ outcome (manageSubscriptionPortal portal url req w)
     = match portal {| StripePortal.customer := cid;
                       StripePortal.return_url := url ++ "/dashboard?portal=return" |} with
       | inr session =>
         inr {| res_status := HttpStatusCode.OK;
                res_body :=
                  json HttpStatusCode.OK [("portalUrl", StripePortal.url session)]
                    "Stripe Customer Portal session created successfully." |}
       | inl e =>
         inl (ApiError HttpStatusCode.INTERNAL_SERVER_ERROR
                (or_else (message e)
                   "Failed to create Stripe Customer Portal session."))
       end.
Proof.
  intros Hcust. unfold manageSubscriptionPortal. cbv zeta. rewrite Hcust.
  unfold answered. run_monad.
  destruct (portal _); repeat split.
Qed.

Lemma manageSubscriptionPortal_result_witness :
  outcome (manageSubscriptionPortal Demo.portal_down "https://app.example"
             {| portal_user := Sample.bob |} Sample.world)
  = inl (ApiError HttpStatusCode.INTERNAL_SERVER_ERROR
           "Failed to create Stripe Customer Portal session.").
Proof.
  apply (manageSubscriptionPortal_result Demo.portal_down "https://app.example"
           {| portal_user := Sample.bob |} Sample.world "cus_bob").
  reflexivity.
Defined.

(** ** [getPlans] *)

Lemma app_cons_neq {A : Type} (l r : list A) (x : A) : (l ++ x :: r)%list <> l.
Proof.
  intros H. apply (f_equal (@length A)) in H.
  rewrite length_app in H. simpl in H. lia.
Qed.

(** X24. [getPlans] changes nothing and lists plans of the catalog, and for a
    catalog with unique identifiers it lists exactly the plans that a checkout
    accepts: a plan of the catalog with a non-empty identifier is listed if
    and only if [createCheckoutSession], asked for that plan by any user,
    gets past its checks and sends a request to the provider. *)
Theorem getPlans_lists_plans_for_checkout (FETCHED url : string) (stripe : Stripe.sdk)
  (user : User.doc) (w : World) (p : Plan.doc) :
  unique_ids (map Plan._id (plans w)) = true ->
  In p (plans w) ->
  Plan._id p <> "" ->
  exists listed,
    getPlans FETCHED w
    = (inr {| list_status := HttpStatusCode.OK;
              list_statusCode := HttpStatusCode.OK;
              list_data := listed;
              list_message := FETCHED |}, w)
    /\ incl listed (plans w)
    /\ (In p listed
        <-> trace (final (createCheckoutSession stripe url
                            {| body_planId := Some (Plan._id p); checkout_user := user |}
                            w))
            <> trace w).
Proof.
  intros Huniq Hin Hne.
  exists (List.filter active (plans w)). split; [reflexivity|]. split.
  { intros q Hq. apply filter_In in Hq. tauto. }
  pose proof (find_by_unique_key Plan._id (plans w) p Huniq Hin) as Hfound.
  rewrite filter_In. unfold active.
  unfold createCheckoutSession. cbv zeta. cbn [body_planId checkout_user].
  unfold truthy. rewrite (nonempty_of_string _ Hne). run_monad.
  unfold Plan.findById. rewrite Hfound.
  destruct (Plan.isActive p); run_monad.
  - split; [intros _ | intros _; now split].
    destruct (nonempty (User.stripeCustomerId user)) as [cid|]; run_monad.
    + destruct (Stripe.checkout_sessions_create stripe _); run_monad;
        apply app_cons_neq.
    + destruct (Stripe.customers_create stripe _) as [e|customer]; run_monad;
        [apply app_cons_neq|].
      destruct (Stripe.checkout_sessions_create stripe _); run_monad;
        rewrite <- !app_assoc; apply app_cons_neq.
  - split; [intros [_ H]; discriminate | intros H; now elim H].
Qed.

Lemma getPlans_lists_plans_for_checkout_witness :
  exists listed,
    getPlans "Resource fetched successfully." Sample.world
    = (inr {| list_status := HttpStatusCode.OK;
              list_statusCode := HttpStatusCode.OK;
              list_data := listed;
              list_message := "Resource fetched successfully." |}, Sample.world)
    /\ ~ In Sample.retired listed.
Proof.
  destruct (getPlans_lists_plans_for_checkout "Resource fetched successfully."
              "https://app.example" Sample.stripe_up Sample.alice Sample.world
              Sample.retired)
    as [listed [Hrun [_ [Hlisted _]]]].
  - reflexivity.
  - right. right. left. reflexivity.
  - discriminate.
  - exists listed. split; [exact Hrun|].
    intros Hin. apply Hlisted in Hin. apply Hin. reflexivity.
Defined.

(** ** Replayed deliveries *)

Lemma findOne_updateOne (sid : string) (assign : User.doc -> User.doc)
  (coll : list User.doc) (u : User.doc) :
  unique_ids (map User._id coll) = true ->
  User.findOne_stripeSubscriptionId coll sid = Some u ->
  (forall d, User.stripeSubscriptionId (assign d) = User.stripeSubscriptionId d) ->
  User.findOne_stripeSubscriptionId (User.updateOne (User._id u) assign coll) sid
  = Some (assign u).
Proof.
  unfold User.findOne_stripeSubscriptionId. intros Huniq Hfind Hkeep.
  induction coll as [|d rest IH]; [discriminate|].
  simpl in Huniq, Hfind |- *.
  apply andb_prop in Huniq. destruct Huniq as [Hfresh Hrest].
  destruct (strict_eq sid (User.stripeSubscriptionId d)) eqn:Hd.
  - injection Hfind as ->. rewrite String.eqb_refl. simpl. now rewrite Hkeep, Hd.
  - destruct (String.eqb_spec (User._id d) (User._id u)) as [Heq|Hne].
    + exfalso. apply find_some in Hfind. destruct Hfind as [Hin _].
      apply negb_true_iff in Hfresh.
      assert (Hex : existsb (String.eqb (User._id d)) (map User._id rest) = true).
      { apply existsb_exists. exists (User._id u). split.
        - now apply in_map.
        - now apply String.eqb_eq. }
      congruence.
    + simpl. rewrite Hd. now apply IH.
Qed.

Lemma replay_updateOne (sid : string) (assign : User.doc -> User.doc)
  (coll : list User.doc) (u : User.doc) :
  unique_ids (map User._id coll) = true ->
  User.findOne_stripeSubscriptionId coll sid = Some u ->
  (forall d, User.stripeSubscriptionId (assign d) = User.stripeSubscriptionId d) ->
  (forall d, User._id (assign d) = User._id d) ->
  (forall d, assign (assign d) = assign d) ->
  match User.findOne_stripeSubscriptionId (User.updateOne (User._id u) assign coll) sid with
  | Some user' =>
    User.updateOne (User._id user') assign (User.updateOne (User._id u) assign coll)
  | None => User.updateOne (User._id u) assign coll
  end
  = User.updateOne (User._id u) assign coll.
Proof.
  intros Huniq Hfind Hkeep Hid Hidem.
  rewrite (findOne_updateOne _ _ _ _ Huniq Hfind Hkeep), Hid.
  now apply updateOne_twice.
Qed.

(** X25. A replayed delivery changes nothing more.  Handling a verified
    [invoice.payment_succeeded] or [customer.subscription.updated] event a
    second time, right after the first and against the same answers of the
    provider, leaves every record as the first handling left it. *)
Theorem status_event_replay (stripe : Stripe.sdk) (secret : string)
  (req : WebhookReq) (w : World) (event : Stripe.Event) :
  Stripe.webhooks_constructEvent stripe (raw_body req) (header_stripe_signature req) secret
  = inr event ->
  Stripe.type event = "invoice.payment_succeeded"
  \/ Stripe.type event = "customer.subscription.updated" ->
  unique_ids (map User._id (users w)) = true ->
  users (final (handleStripeWebhook stripe secret req
                  (final (handleStripeWebhook stripe secret req w))))
  = users (final (handleStripeWebhook stripe secret req w)).
Proof.
  intros Hev Hkind Huniq.
  destruct (handleStripeWebhook_verified stripe secret req w event Hev) as [Hw1 _].
  set (w1 := final (handleStripeWebhook stripe secret req w)) in *.
  destruct (handleStripeWebhook_verified stripe secret req w1 event Hev) as [-> _].
  assert (Hplans : plans w1 = plans w) by (rewrite Hw1; apply dispatch_plans).
  destruct Hkind as [Hkind|Hkind];
    rewrite (dispatch_kind stripe event _ Hkind) in *;
    cbn [String.eqb Ascii.eqb Bool.eqb] in *.
  - rewrite on_invoice_payment_succeeded_users.
    assert (Husers : users w1 = _)
      by (rewrite Hw1; apply on_invoice_payment_succeeded_users).
    destruct (nonempty (Stripe.subscription (Stripe.data_object event))) as [sid|];
      [|reflexivity].
    destruct (Stripe.subscriptions_retrieve stripe sid) as [e|subscription];
      [reflexivity|].
    destruct (User.findOne_stripeSubscriptionId (users w) (Stripe.id subscription))
      as [u|] eqn:Hfind.
    + rewrite Husers.
      now apply (replay_updateOne (Stripe.id subscription)
                   (assign_status_expiry subscription)).
    + rewrite Husers, Hfind. reflexivity.
  - rewrite on_customer_subscription_updated_users, Hplans.
    assert (Husers : users w1 = _)
      by (rewrite Hw1; apply on_customer_subscription_updated_users).
    destruct (User.findOne_stripeSubscriptionId (users w)
                (Stripe.id (Stripe.data_object event))) as [u|] eqn:Hfind;
      [|rewrite Husers, Hfind; reflexivity].
    destruct (Stripe.items_data (Stripe.data_object event)) as [|item0 items].
    + rewrite Husers.
      now apply (replay_updateOne (Stripe.id (Stripe.data_object event))
                   (assign_status_expiry (Stripe.data_object event))).
    + destruct (Plan.findOne (plans w) (by_stripePriceId (Stripe.price_id item0)))
        as [newPlan|]; rewrite Husers.
      * now apply (replay_updateOne (Stripe.id (Stripe.data_object event))
                     (fun d => assign_plan newPlan
                                 (assign_status_expiry (Stripe.data_object event) d))).
      * now apply (replay_updateOne (Stripe.id (Stripe.data_object event))
                     (assign_status_expiry (Stripe.data_object event))).
Qed.

Lemma status_event_replay_witness :
  users (final (handleStripeWebhook Demo.stripe_up Sample.secret
                  (Sample.signed "bob goes yearly")
                  (final (handleStripeWebhook Demo.stripe_up Sample.secret
                            (Sample.signed "bob goes yearly") Sample.world))))
  = users (final (handleStripeWebhook Demo.stripe_up Sample.secret
                    (Sample.signed "bob goes yearly") Sample.world)).
Proof.
  apply (status_event_replay Demo.stripe_up Sample.secret
           (Sample.signed "bob goes yearly") Sample.world
           (Demo.event_of "bob goes yearly")).
  - reflexivity.
  - right. reflexivity.
  - reflexivity.
Defined.

(** ** C2 *)

Lemma dispatch_bare (stripe : Stripe.sdk) (event : Stripe.Event) (w : World) :
  forallb bare_plan_ref (users w) = true ->
  forallb bare_plan_ref (users (final (dispatch stripe event w))) = true.
Proof.
  intros Hbare.
  assert (Hkeep : forall d assign,
            (forall x, User.currentPlanId (assign x) = User.currentPlanId x) ->
            In d (users w) -> bare_plan_ref (assign d) = true).
  { intros d assign Hsame Hin. unfold bare_plan_ref. rewrite Hsame.
    rewrite forallb_forall in Hbare. now apply Hbare. }
  unfold dispatch. cbv zeta.
  destruct (String.eqb (Stripe.type event) "checkout.session.completed").
  { destruct (nonempty (Stripe.subscription (Stripe.data_object event))) as [sid|] eqn:Hsid.
    - rewrite (on_checkout_session_completed_users stripe _ w sid Hsid).
      destruct (Stripe.subscriptions_retrieve stripe sid) as [e|subscription];
        [assumption|].
      destruct (Stripe.metadata _) as [metadata|]; [|assumption].
      destruct (Stripe.customer _) as [customer|]; [|assumption].
      destruct (User.findById _ _) as [user|]; [|assumption].
      destruct (Plan.findById _ _) as [plan|]; [|assumption].
      apply updateOne_forallb; [|assumption]. reflexivity.
    - now rewrite (on_checkout_session_completed_no_subscription stripe _ w Hsid). }
  destruct (String.eqb (Stripe.type event) "invoice.payment_succeeded").
  { rewrite on_invoice_payment_succeeded_users.
    destruct (nonempty _) as [sid|]; [|assumption].
    destruct (Stripe.subscriptions_retrieve stripe sid) as [e|subscription]; [assumption|].
    destruct (User.findOne_stripeSubscriptionId _ _) as [user|]; [|assumption].
    apply updateOne_forallb; [|assumption].
    intros d Hin _. now apply Hkeep. }
  destruct (String.eqb (Stripe.type event) "customer.subscription.updated").
  { rewrite on_customer_subscription_updated_users.
    destruct (User.findOne_stripeSubscriptionId _ _) as [user|]; [|assumption].
    destruct (Stripe.items_data _) as [|item0 items];
      [apply updateOne_forallb; [|assumption]; intros d Hin _; now apply Hkeep|].
    destruct (Plan.findOne _ _) as [newPlan|];
      apply updateOne_forallb; try assumption.
    - reflexivity.
    - intros d Hin _. now apply Hkeep. }
  destruct (String.eqb (Stripe.type event) "customer.subscription.deleted").
  { rewrite on_customer_subscription_deleted_users.
    destruct (User.findOne_stripeSubscriptionId _ _) as [user|]; [|assumption].
    apply updateOne_forallb; [|assumption]. reflexivity. }
  exact Hbare.
Qed.

(** No handler stores a populated plan: in every reachable world the
    [currentPlanId] of every stored record is absent or a bare identifier. *)
Lemma reachable_bare (w : World) :
  reachable w -> forallb bare_plan_ref (users w) = true.
Proof.
  induction 1 as [w Hfresh _ | u w Hfresh _ IH | t w _ IH
                 | stripe url req w _ IH | stripe secret req w _ IH
                 | stripe req w _ IH].
  - apply forallb_forall. intros d Hin.
    rewrite forallb_forall in Hfresh. specialize (Hfresh d Hin).
    unfold fresh_billing in Hfresh. unfold bare_plan_ref.
    destruct (User.stripeCustomerId d); try discriminate.
    destruct (User.stripeSubscriptionId d); try discriminate.
    destruct (User.subscriptionStatus d); try discriminate.
    destruct (User.currentPlanId d); [discriminate | reflexivity].
  - cbn [with_users users]. rewrite forallb_app, IH. simpl.
    unfold fresh_billing in Hfresh. unfold bare_plan_ref.
    destruct (User.stripeCustomerId u); try discriminate.
    destruct (User.stripeSubscriptionId u); try discriminate.
    destruct (User.subscriptionStatus u); try discriminate.
    destruct (User.currentPlanId u); [discriminate | reflexivity].
  - exact IH.
  - destruct (createCheckoutSession_users stripe url req w) as [_ [->|[v ->]]];
      [exact IH|].
    apply updateOne_forallb; [|exact IH].
    intros d Hin _. unfold bare_plan_ref. cbn [User.set_stripeCustomerId User.currentPlanId].
    rewrite forallb_forall in IH. now apply IH.
  - destruct (Stripe.webhooks_constructEvent stripe (raw_body req)
                (header_stripe_signature req) secret) as [err|event] eqn:Hev.
    + unfold handleStripeWebhook. rewrite Hev. exact IH.
    + destruct (handleStripeWebhook_verified stripe secret req w event Hev) as [-> _].
      now apply dispatch_bare.
  - destruct (upgradeToYearly_unchanged stripe req w) as [_ ->]. exact IH.
Qed.

(** C2.  What the code does for the records that the handlers store, against
    the claim.  In a reachable world, let a stored user pass the guard, the
    active yearly plan with its price be found and the provider return the
    subscription.  The current plan of the user is then a monthly plan of the
    catalog, referenced by its bare identifier.  Whatever line items the
    subscription holds, the one at the price of that plan included, no item is
    selected: the handler throws INTERNAL_SERVER_ERROR "Could not find current
    subscription item." and the retrieval is the only request it makes. *)
Theorem upgradeToYearly_stored_user_selects_no_item (stripe : Stripe.sdk) (w : World)
  (u : User.doc) (sid : string) (yearlyPlan : Plan.doc) (yearlyPriceId : string)
  (current : Stripe.Object) :
  reachable w ->
  In u (users w) ->
  User.stripeSubscriptionId u = Some sid ->
  sid <> "" ->
  User.subscriptionStatus u = Some "active" ->
  User.currentPlanType u = Some PlanTypes.MONTHLY ->
  Plan.findOne (plans w) yearly_active = Some yearlyPlan ->
  nonempty (Plan.stripePriceId yearlyPlan) = Some yearlyPriceId ->
  Stripe.subscriptions_retrieve stripe sid = inr current ->
  (exists plan,
     User.currentPlanId u = Some (RefId (Plan._id plan))
     /\ Plan.findById (plans w) (Some (Plan._id plan)) = Some plan
     /\ Plan.type plan = PlanTypes.MONTHLY)
  /\ outcome (upgradeToYearly stripe {| upgrade_user := u |} w)
     = inl (ApiError HttpStatusCode.INTERNAL_SERVER_ERROR
              "Could not find current subscription item.")
  /\ trace (final (upgradeToYearly stripe {| upgrade_user := u |} w))
     = (trace w ++ [call_subscriptions_retrieve sid])%list.
Proof.
  intros Hreach Hin Hsub Hne Hstatus Htype Hyearly Hprice Hretrieve.
  pose proof (reachable_bare w Hreach) as Hbare.
  rewrite forallb_forall in Hbare. specialize (Hbare u Hin).
  destruct (reachable_store_inv w Hreach) as [_ Hinv].
  unfold store_inv in Hinv. rewrite forallb_forall in Hinv. specialize (Hinv u Hin).
  unfold billing_inv in Hinv. apply andb_prop in Hinv. destruct Hinv as [_ Hkind].
  unfold plan_kind_matches in Hkind. unfold bare_plan_ref in Hbare.
  rewrite Htype in Hkind.
  destruct (User.currentPlanId u) as [[planId|doc]|] eqn:Href; try discriminate.
  cbn [PlanRef_id] in Hkind.
  destruct (Plan.findById (plans w) (Some planId)) as [plan|] eqn:Hplan; [|discriminate].
  apply strict_eq_true in Hkind. injection Hkind as Hkind.
  pose proof (Plan_findById_id _ _ _ Hplan) as Hid. injection Hid as Hid.
  split.
  { exists plan. rewrite <- Hid. repeat split; [assumption | now symmetry]. }
  destruct (upgrade_guard_passes u sid Hsub Hne Hstatus Htype) as [Hguard Hsid].
  unfold upgradeToYearly. cbv zeta. cbn [upgrade_user]. rewrite Hguard, Hsid. run_monad.
  rewrite Hyearly, Hprice. run_monad. rewrite Hretrieve, Href.
  unfold find_subscription_item.
  assert (Hnone : forall items,
            find (fun item => strict_eq (Stripe.price_id item)
                                (PlanRef_stripePriceId (RefId planId))) items = None)
    by (intros items; induction items; [reflexivity | assumption]).
  destruct (Stripe.items_data current) as [|item0 items]; run_monad;
    [split; reflexivity|].
  rewrite Hnone. split; reflexivity.
Qed.

Lemma upgradeToYearly_stored_user_selects_no_item_witness :
  reachable Hex.world_alice_subscribed
  /\ In Hex.alice_subscribed (users Hex.world_alice_subscribed)
  /\ Plan.stripePriceId Sample.monthly = Some "price_m"
  /\ map Stripe.price_id (Stripe.items_data (Sample.subscription_of "sub_alice"))
     = ["price_m"]
  /\ outcome (upgradeToYearly Sample.stripe_up {| upgrade_user := Hex.alice_subscribed |}
                Hex.world_alice_subscribed)
     = inl (ApiError HttpStatusCode.INTERNAL_SERVER_ERROR
              "Could not find current subscription item.")
  /\ trace (final (upgradeToYearly Sample.stripe_up
                     {| upgrade_user := Hex.alice_subscribed |}
                     Hex.world_alice_subscribed))
     = (trace Hex.world_alice_subscribed ++ [call_subscriptions_retrieve "sub_alice"])%list.
Proof.
  assert (Hreach : reachable Hex.world_alice_subscribed)
    by (unfold Hex.world_alice_subscribed; apply reach_webhook, reach_init; reflexivity).
  assert (Hin : In Hex.alice_subscribed (users Hex.world_alice_subscribed))
    by (left; reflexivity).
  split; [exact Hreach|]. split; [exact Hin|].
  split; [reflexivity|]. split; [reflexivity|].
  destruct (upgradeToYearly_stored_user_selects_no_item Sample.stripe_up
              Hex.world_alice_subscribed Hex.alice_subscribed "sub_alice"
              Sample.yearly "price_y" (Sample.subscription_of "sub_alice")
              Hreach Hin)
    as [_ [Hout Htrace]]; try reflexivity; [discriminate|].
  split; assumption.
Defined.
